(** * Vote recording and tallying: [logic.py]

    A shallow embedding of the persistence and aggregation logic of
    [src/logic.py] (class [FileManager]) and of the vote-casting handler of
    [ProjectWindow], followed by the properties of the specification that
    concern them.

    Modelling conventions.
    - Python [str] is [string]; only the ASCII range is modelled.
    - Python [int] is [Z]; Python [None] as a value is [None : option _].
    - A CSV file is the list of rows the [csv] module reads from it or writes
      to it: a row is a list of fields, a blank line is the row [[]].  The
      quoting done by [csv.writer] and undone by [csv.reader] is assumed to be
      a round trip and is not modelled.
    - The file system is a finite map from the names of the directory
      entries to nodes, with the entry each path denotes: two spellings of
      a path (['data.csv'] and ['./data.csv'], a relative and an absolute
      one) denote one entry.  Links are not modelled.  [open] and
      [os.remove] fail with an [OSError] exactly in the cases listed at
      [OS.open_r], [OS.open_w], [OS.open_a] and [OS.remove].
    - [print] appends to a console log; the text of an exception inside a
      printed message is kept as the exception itself.
    - The user interface is modelled by the contents of its widgets and the
      list of the error dialogs shown.
    The methods [read_data], [write_data] and [update_count] of
    [FileManager], which nothing in the program calls, are in the module
    [Summary]. *)

From Stdlib Require Import ZArith Ascii.
From stdpp Require Import base tactics option list strings gmap fin_maps pretty.

Local Open Scope Z_scope.

(** ** Python primitives used by the source *)

Module Py.

(** Exceptions the source can raise and does not always catch. *)
Inductive exn := ValueError | TypeError.

(** The result of running a function body: it returns or it raises. *)
Inductive completion (A : Type) :=
| Return (a : A)
| Raise (e : exn).
Global Arguments Return {A} a.
Global Arguments Raise {A} e.

(** [c.isspace()] on the ASCII range: TAB, LF, VT, FF, CR, FS, GS, RS, US
    and the space. *)
Definition isspace (c : ascii) : bool :=
  let n := N_of_ascii c in
  ((9 <=? n) && (n <=? 13) || (28 <=? n) && (n <=? 32))%N.

Fixpoint lstrip (s : string) : string :=
  match s with
  | String c s' => if isspace c then lstrip s' else s
  | EmptyString => EmptyString
  end.

(** [s.strip()] *)
Definition strip (s : string) : string :=
  String.rev (lstrip (String.rev (lstrip s))).

Definition digit (c : ascii) : option Z :=
  let n := N_of_ascii c in
  if ((48 <=? n) && (n <=? 57))%N then Some (Z.of_N n - 48) else None.

(** The digit part of a decimal literal accepted by [int(str)]: digits,
    with single underscores allowed between two digits.  [prev] tells
    whether the previous character was a digit. *)
Fixpoint int_digits (acc : Z) (prev : bool) (s : string) : option Z :=
  match s with
  | EmptyString => if prev then Some acc else None
  | String c s' =>
      match digit c with
      | Some d => int_digits (10 * acc + d) true s'
      | None =>
          if Ascii.eqb c "_" && prev then int_digits acc false s' else None
      end
  end.

(** The white space [int(str)] skips on the ASCII range: TAB, LF, VT, FF,
    CR and the space.  The separators FS, GS, RS and US, which [str.strip]
    removes, are not skipped by [int]. *)
Definition isspace_int (c : ascii) : bool :=
  let n := N_of_ascii c in
  ((9 <=? n) && (n <=? 13) || (n =? 32))%N.

Fixpoint lstrip_int (s : string) : string :=
  match s with
  | String c s' => if isspace_int c then lstrip_int s' else s
  | EmptyString => EmptyString
  end.

Definition strip_int (s : string) : string :=
  String.rev (lstrip_int (String.rev (lstrip_int s))).

(** The interpreter's limit on the number of digits of a decimal literal
    given to [int] ([sys.get_int_max_str_digits()], which the program leaves
    at its default). *)
Definition int_max_str_digits : nat := 4300.

(** The number of digit characters of a text. *)
Fixpoint count_digits (s : string) : nat :=
  match s with
  | EmptyString => 0
  | String c s' =>
      ((match digit c with Some _ => 1 | None => 0 end) + count_digits s')%nat
  end.

(** The unsigned part of a literal: refused when it has more digits than
    the limit, leading zeros included. *)
Definition int_literal (r : string) : option Z :=
  if (count_digits r <=? int_max_str_digits)%nat then int_digits 0 false r
  else None.

(** [int(s)] for a [str] argument: [Some n] when it returns [n], [None]
    when it raises [ValueError].  Surrounding white space is ignored, one
    sign is allowed, and a literal of more than 4300 digits is refused. *)
Definition int (s : string) : option Z :=
  match strip_int s with
  | String "+" r => int_literal r
  | String "-" r => Z.opp <$> int_literal r
  | r => int_literal r
  end.

(** The least number that has more digits than [int] accepts: 10 to the
    power 4300. *)
Definition int_bound : Z := 10 ^ Z.of_nat int_max_str_digits.
Global Arguments int_bound : simpl never.

(** [str(n)] for a non-negative [int]. *)
Definition str (n : nat) : string := pretty n.

End Py.

(** ** The [csv] module: [DictReader] *)

Module Csv.

Definition row := list string.

(** What [reader.fieldnames] is: the first row of the file, [None] when the
    file has no row at all. *)
Definition fieldnames (rows : list row) : option (list string) := head rows.

(** The dictionary [DictReader] builds for one data row:
    [d = dict(zip(fieldnames, row))], and when the row is short every
    remaining field name is set to [None].  (When the row is long the extra
    fields are stored under the key [None], which no lookup of the source
    can reach; it is left out.) *)
Definition zip_dict (fields : list string) (r : row)
  : gmap string (option string) :=
  let d := foldl (λ d kv, <[kv.1 := Some kv.2]> d) ∅ (zip fields r) in
  foldl (λ d k, <[k := None]> d) d (drop (length r) fields).

(** The rows a [DictReader] yields when iterated: the first row of the file
    gives the field names, blank rows are skipped. *)
Definition DictReader (rows : list row) : list (gmap string (option string)) :=
  match rows with
  | [] => []
  | fields :: data =>
      zip_dict fields <$> filter (λ r, r ≠ []) data
  end.

(** [key in d] *)
Definition has_key (k : string) (d : gmap string (option string)) : bool :=
  bool_decide (is_Some (d !! k)).

End Csv.

(** ** The operating system: files, [open], [os.remove] *)

Module OS.

Inductive OSError :=
| FileNotFoundError
| PermissionError
| IsADirectoryError.

(** A directory entry: a regular file with its read and write permission
    and its rows, or a subdirectory. *)
Inductive node :=
| File (readable writable : bool) (rows : list Csv.row)
| Dir.

(** The file system as the program meets it: the entries, each under the
    name of the entry; whether entries may be created and removed; and the
    entry each path denotes.  Several paths can denote one entry, as
    ['data.csv'] and ['./data.csv'] do, so a path is resolved before the
    entries are looked up.  The program creates no directory and no link, so
    the resolution of paths does not change while it runs. *)
Record fs := Fs {
  entries : gmap string node;
  dir_writable : bool;
  resolve : string → string
}.

(** The entry named [k] becomes [n]. *)
Definition set_entry (k : string) (n : node) (d : fs) : fs :=
  {| entries := <[k := n]> (entries d); dir_writable := dir_writable d;
     resolve := resolve d |}.

(** [os.path.exists(f)] *)
Definition exists_ (d : fs) (f : string) : bool :=
  bool_decide (is_Some (entries d !! resolve d f)).

(** [open(f, mode='r')]: the rows of a readable file. *)
Definition open_r (d : fs) (f : string) : OSError + list Csv.row :=
  match entries d !! resolve d f with
  | None => inl FileNotFoundError
  | Some Dir => inl IsADirectoryError
  | Some (File false _ _) => inl PermissionError
  | Some (File true _ rows) => inr rows
  end.

(** [open(f, mode='w')]: creates the file, or truncates a writable one. *)
Definition open_w (d : fs) (f : string) : OSError + fs :=
  match entries d !! resolve d f with
  | None =>
      if dir_writable d then inr (set_entry (resolve d f) (File true true []) d)
      else inl PermissionError
  | Some Dir => inl IsADirectoryError
  | Some (File _ false _) => inl PermissionError
  | Some (File r true _) => inr (set_entry (resolve d f) (File r true []) d)
  end.

(** [open(f, mode='a')]: creates the file, or keeps a writable one as it
    is, positioned at its end. *)
Definition open_a (d : fs) (f : string) : OSError + fs :=
  match entries d !! resolve d f with
  | None =>
      if dir_writable d then inr (set_entry (resolve d f) (File true true []) d)
      else inl PermissionError
  | Some Dir => inl IsADirectoryError
  | Some (File _ false _) => inl PermissionError
  | Some (File _ true _) => inr d
  end.

(** The rows of the file at [f] (of a file that is open). *)
Definition rows_of (d : fs) (f : string) : list Csv.row :=
  match entries d !! resolve d f with
  | Some (File _ _ rows) => rows
  | _ => []
  end.

(** [file.tell()] just after [open(f, mode='a')]: the size of the file,
    which is 0 exactly when it holds no row. *)
Definition at_start (d : fs) (f : string) : bool :=
  bool_decide (rows_of d f = []).

(** [writer.writerow] / [writer.writeheader] on the open file [f]: one more
    row at its end. *)
Definition writerow (f : string) (r : Csv.row) (d : fs) : fs :=
  match entries d !! resolve d f with
  | Some (File rd wr rows) => set_entry (resolve d f) (File rd wr (rows ++ [r])) d
  | _ => d
  end.

(** [os.remove(f)] *)
Definition remove (d : fs) (f : string) : OSError + fs :=
  match entries d !! resolve d f with
  | None => inl FileNotFoundError
  | Some Dir => inl IsADirectoryError
  | Some (File _ _ _) =>
      if dir_writable d
      then inr {| entries := delete (resolve d f) (entries d);
                  dir_writable := dir_writable d;
                  resolve := resolve d |}
      else inl PermissionError
  end.

End OS.

(** ** The state outside the program: the disk and the console *)

(** One line written by [print]. *)
Inductive printed :=
| Error_creating_file (e : OS.OSError)
| Error_reading_file (e : OS.OSError)
| Error_writing_to_file (e : OS.OSError)
| File_deleted_successfully
| Error_deleting_file (e : OS.OSError).

Record world := World {
  disk : OS.fs;
  console : list printed
}.

Definition print (p : printed) (w : world) : world :=
  {| disk := disk w; console := console w ++ [p] |}.

Definition on_disk (d : OS.fs) (w : world) : world :=
  {| disk := d; console := console w |}.

(** ** class [FileManager] *)

Module FileManager.

Record t := New { _filename : string }.

(** The field names [log_vote] and [_ensure_file_exists] write. *)
Definition header : Csv.row := ["VoterID"; "Vote"; "Total"].

(** The dictionary [read_results] returns: candidate names (a [str], or
    [None] for a row without a vote field) and the key ["Total"]. *)
Abbreviation results := (gmap (option string) Z).

Definition _ensure_file_exists (self : t) (w : world) : world :=
  if OS.exists_ (disk w) (_filename self) then w
  else
    match OS.open_w (disk w) (_filename self) with
    | inr d => on_disk (OS.writerow (_filename self) header d) w
    | inl e => print (Error_creating_file e) w
    end.

Definition __init__ (filename : string) (w : world) : t * world :=
  let self := New filename in
  (self, _ensure_file_exists self w).

(** [sum(1 for _ in reader if "VoterID" in _)] *)
Definition count_votes (rows : list Csv.row) : nat :=
  length (filter (λ d, Csv.has_key "VoterID" d = true) (Csv.DictReader rows)).

Definition log_vote (self : t) (voter_id name : string) (w : world) : world :=
  let f := _filename self in
  let counted :=
    if OS.exists_ (disk w) f then
      match OS.open_r (disk w) f with
      | inr rows => inr (count_votes rows)
      | inl e => inl e
      end
    else inr 0%nat in
  match counted with
  | inl e => print (Error_writing_to_file e) w
  | inr n =>
      let total_votes := (n + 1)%nat in
      match OS.open_a (disk w) f with
      | inl e => print (Error_writing_to_file e) w
      | inr d =>
          let d := if OS.at_start d f then OS.writerow f header d else d in
          on_disk (OS.writerow f [voter_id; name; Py.str total_votes] d) w
      end
  end.

(** [int(row.get(key, 0))] *)
Definition int_field (key : string) (row : gmap string (option string))
  : Py.completion Z :=
  match row !! key with
  | None => Py.Return 0
  | Some None => Py.Raise Py.TypeError
  | Some (Some s) =>
      match Py.int s with
      | Some n => Py.Return n
      | None => Py.Raise Py.ValueError
      end
  end.

(** The body of the [for row in reader] loop of [read_results], on the
    pair of [results] and [total_votes]. *)
Definition read_row (acc : results * Z) (row : gmap string (option string))
  : Py.completion (results * Z) :=
  let '(results, total_votes) := acc in
  if Csv.has_key "Jane" row && Csv.has_key "John" row
     && Csv.has_key "Total" row && negb (Csv.has_key "VoterID" row)
  then
    match int_field "Jane" row with
    | Py.Raise e => Py.Raise e
    | Py.Return jane =>
        match int_field "John" row with
        | Py.Raise e => Py.Raise e
        | Py.Return john =>
            match int_field "Total" row with
            | Py.Raise e => Py.Raise e
            | Py.Return total =>
                Py.Return (<[Some "John" := john]>
                             (<[Some "Jane" := jane]> results), total)
            end
        end
    end
  else
    match row !! "Vote" with
    | Some vote =>
        Py.Return (<[vote := default 0 (results !! vote) + 1]> results,
                   total_votes + 1)
    | None => Py.Return (results, total_votes)
    end.

Fixpoint read_rows (acc : results * Z)
    (rows : list (gmap string (option string)))
  : Py.completion (results * Z) :=
  match rows with
  | [] => Py.Return acc
  | row :: rows' =>
      match read_row acc row with
      | Py.Return acc' => read_rows acc' rows'
      | Py.Raise e => Py.Raise e
      end
  end.

Definition initial_results : results :=
  <[Some "John" := 0]> (<[Some "Jane" := 0]> ∅).

Definition read_results (self : t) (w : world)
  : Py.completion results * world :=
  match OS.open_r (disk w) (_filename self) with
  | inl e => (Py.Return initial_results, print (Error_reading_file e) w)
  | inr rows =>
      match read_rows (initial_results, 0) (Csv.DictReader rows) with
      | Py.Return (results, total_votes) =>
          (Py.Return (<[Some "Total" := total_votes]> results), w)
      | Py.Raise e => (Py.Raise e, w)
      end
  end.

Definition reset_counts (self : t) (w : world) : world :=
  let w :=
    match OS.remove (disk w) "data.csv" with
    | inr d => print File_deleted_successfully (on_disk d w)
    | inl e => print (Error_deleting_file e) w
    end in
  _ensure_file_exists self w.

End FileManager.

(** ** class [ProjectWindow] *)

Module ProjectWindow.

(** The three radio buttons of [radio_button_group]; the group is
    exclusive, so at most one of them is checked. *)
Inductive radio := janeRadio | johnRadio | otherRadio.

Global Instance radio_eq_dec : EqDecision radio.
Proof. solve_decision. Defined.

(** The window: its file manager, the contents of its widgets, and the
    messages of the error dialogs it has shown so far. *)
Record t := Window {
  _file_manager : FileManager.t;
  idInput : string;
  checked : option radio;
  lineEdit : string;
  label : string;
  dialogs : list string
}.

Definition setText (s : string) (self : t) : t :=
  {| _file_manager := _file_manager self; idInput := idInput self;
     checked := checked self; lineEdit := lineEdit self;
     label := s; dialogs := dialogs self |}.

Definition idInput_clear (self : t) : t :=
  {| _file_manager := _file_manager self; idInput := "";
     checked := checked self; lineEdit := lineEdit self;
     label := label self; dialogs := dialogs self |}.

Definition lineEdit_clear (self : t) : t :=
  {| _file_manager := _file_manager self; idInput := idInput self;
     checked := checked self; lineEdit := "";
     label := label self; dialogs := dialogs self |}.

Definition show_error_message (message : string) (self : t) : t :=
  {| _file_manager := _file_manager self; idInput := idInput self;
     checked := checked self; lineEdit := lineEdit self;
     label := label self; dialogs := dialogs self ++ [message] |}.

(** [__init__]: [ui] is the window as [uic.loadUi] builds it from
    [Project1.ui]; the file manager is bound to ['data.csv']. *)
Definition __init__ (ui : t) (w : world) : t * world :=
  let '(fm, w) := FileManager.__init__ "data.csv" w in
  ({| _file_manager := fm; idInput := idInput ui; checked := checked ui;
      lineEdit := lineEdit ui; label := label ui; dialogs := dialogs ui |},
   w).

Definition validate_input (input_text : string) : bool :=
  negb (bool_decide (Py.strip input_text = "")).

(** [any(voter_id == row["VoterID"] for row in reader)] *)
Definition voter_id_used (voter_id : string) (rows : list Csv.row) : bool :=
  bool_decide
    (Exists (λ row, row !! "VoterID" = Some (Some voter_id))
            (Csv.DictReader rows)).

(** The part of [on_button_click] that follows the duplicate check. *)
Definition submit (voter_id : string) (self : t) (w : world) : t * world :=
  let fm := _file_manager self in
  match checked self with
  | Some janeRadio =>
      let w := FileManager.log_vote fm voter_id "Jane" w in
      (idInput_clear (setText "Thank you for voting for Jane!" self), w)
  | Some johnRadio =>
      let w := FileManager.log_vote fm voter_id "John" w in
      (idInput_clear (setText "Thank you for voting for John!" self), w)
  | Some otherRadio =>
      let user_input := Py.strip (lineEdit self) in
      if validate_input user_input then
        match Py.int user_input with
        | Some _ =>
            (idInput_clear
               (show_error_message
                  "Please enter a valid name, not a number." self), w)
        | None =>
            let w := FileManager.log_vote fm voter_id user_input w in
            (idInput_clear
               (lineEdit_clear
                  (setText ("Thank you for voting for " +:+ user_input +:+ "!")
                           self)), w)
        end
      else
        (show_error_message "Invalid input. Please enter non-empty text." self,
         w)
  | None => (show_error_message "Please select an option." self, w)
  end.

Definition on_button_click (self : t) (w : world)
  : Py.completion (t * world) :=
  let voter_id := Py.strip (idInput self) in
  if negb (validate_input voter_id) then
    Py.Return (show_error_message "Voter ID is required." self, w)
  else
    match Py.int voter_id with
    | None =>
        Py.Return (show_error_message "Voter ID must be a number." self, w)
    | Some _ =>
        match OS.open_r (disk w) (FileManager._filename (_file_manager self)) with
        | inl _ => Py.Return (show_error_message "Error reading file." self, w)
        | inr rows =>
            match Csv.fieldnames rows with
            | None => Py.Raise Py.TypeError
            | Some headers =>
                if negb (bool_decide ("VoterID" ∈ headers)) then
                  Py.Return
                    (show_error_message
                       "CSV file is missing the required 'VoterID' column."
                       self, w)
                else if voter_id_used voter_id rows then
                  Py.Return
                    (show_error_message
                       "This Voter ID has already been used. You cannot vote again."
                       self, w)
                else Py.Return (submit voter_id self w)
            end
        end
    end.

(** [view_results]: the total and the per-name counts the results dialog
    displays ([total = data.pop("Total", 0)], then the remaining items). *)
Definition view_results (self : t) (w : world)
  : Py.completion (Z * FileManager.results) * world :=
  match FileManager.read_results (_file_manager self) w with
  | (Py.Return data, w) =>
      (Py.Return (default 0 (data !! Some "Total"), delete (Some "Total") data),
       w)
  | (Py.Raise e, w) => (Py.Raise e, w)
  end.

Definition reset_votes (self : t) (w : world) : t * world :=
  let w := FileManager.reset_counts (_file_manager self) w in
  (setText "Votes reset successfully!" self, w).

End ProjectWindow.

(** ** The remaining methods of [FileManager]: the summary row

    [read_data], [write_data] and [update_count] keep one row of counts under
    a header of names.  Nothing in the program calls them; they are modelled
    here on the disk alone, each returning the lines it prints (one of which,
    the text of a [StopIteration], is not an [OSError]). *)

Module Summary.

(** The values a dictionary of [read_data] can hold: a field of the file (a
    [str]), a count (an [int]), [None] for a field the row lacks, and the list
    of the fields a row has beyond the header. *)
Inductive value :=
| Str (s : string)
| Int (n : Z)
| NoneValue
| Rest (fields : list string).

(** A [dict], in insertion order; its keys are field names, or [None] for
    the surplus fields of a row. *)
Abbreviation dict := (list (option string * value)).

(** [d[k] = v]: an existing key keeps its place. *)
Fixpoint dict_set (k : option string) (v : value) (d : dict) : dict :=
  match d with
  | [] => [(k, v)]
  | (k', v') :: d' =>
      if decide (k' = k) then (k, v) :: d' else (k', v') :: dict_set k v d'
  end.

(** [d.get(k)]; [None] when the key is missing. *)
Fixpoint dict_get (k : option string) (d : dict) : option value :=
  match d with
  | [] => None
  | (k', v') :: d' => if decide (k' = k) then Some v' else dict_get k d'
  end.

(** The dictionary [DictReader] yields for a row, as a [dict]:
    [dict(zip(fieldnames, row))], then the surplus fields under the key
    [None], or [None] for every field name the row is too short for. *)
Definition row_dict (fieldnames : list string) (r : Csv.row) : dict :=
  let d := foldl (λ d kv, dict_set (Some kv.1) (Str kv.2) d) [] (zip fieldnames r) in
  if (length fieldnames <? length r)%nat
  then dict_set None (Rest (drop (length fieldnames) r)) d
  else foldl (λ d k, dict_set (Some k) NoneValue d) d (drop (length r) fieldnames).

(** A line printed by these methods. *)
Inductive line :=
| Printed (p : printed)
| Error_reading_file_StopIteration.

(** [repr(s)] of a [str], on the ASCII range: in single quotes, or in double
    quotes when the text has a single quote and no double quote; the quote
    and the backslash are escaped, TAB, LF and CR are written [\t], [\n],
    [\r], the other control characters [\xhh]. *)
Definition hex_digit (n : N) : ascii :=
  ascii_of_N (if (n <? 10)%N then 48 + n else 87 + n).

Definition repr_char (quote c : ascii) : string :=
  let n := N_of_ascii c in
  if Ascii.eqb c quote || Ascii.eqb c "092" then String "092" (String c "")
  else if Ascii.eqb c "009" then String "092" "t"
  else if Ascii.eqb c "010" then String "092" "n"
  else if Ascii.eqb c "013" then String "092" "r"
  else if (n <? 32)%N || (n =? 127)%N
  then String "092" (String "x" (String (hex_digit (n / 16)) (String (hex_digit (n mod 16)) "")))
  else String c "".

Fixpoint has_char (c : ascii) (s : string) : bool :=
  match s with
  | EmptyString => false
  | String c' s' => Ascii.eqb c' c || has_char c s'
  end.

Fixpoint repr_chars (quote : ascii) (s : string) : string :=
  match s with
  | EmptyString => EmptyString
  | String c s' => repr_char quote c +:+ repr_chars quote s'
  end.

Definition repr (s : string) : string :=
  let quote : ascii :=
    if has_char "'" s && negb (has_char "034" s) then "034"%char else "'"%char in
  String quote (repr_chars quote s +:+ String quote "").

Fixpoint join (sep : string) (l : list string) : string :=
  match l with
  | [] => ""
  | [s] => s
  | s :: l' => s +:+ sep +:+ join sep l'
  end.

(** The field [csv.writer] writes for a value: the text itself, [str(n)] for
    a number, nothing for [None], [str(l)] for a list. *)
Definition field_of (v : value) : string :=
  match v with
  | Str s => s
  | Int n => pretty n
  | NoneValue => ""
  | Rest l => "[" +:+ join ", " (repr <$> l) +:+ "]"
  end.

(** The field written for a key in the header row. *)
Definition key_field (k : option string) : string := default "" k.

(** [int(v)] *)
Definition int_value (v : value) : Py.completion Z :=
  match v with
  | Str s =>
      match Py.int s with
      | Some n => Py.Return n
      | None => Py.Raise Py.ValueError
      end
  | Int n => Py.Return n
  | NoneValue | Rest _ => Py.Raise Py.TypeError
  end.

(** The dictionary [read_data] returns when it cannot read a row. *)
Definition defaults : dict :=
  [(Some "Jane", Int 0); (Some "John", Int 0); (Some "Total", Int 0)].

(** [read_data]: the dictionary of the first row after the header ([next(reader)]),
    or the defaults when the file cannot be opened or has no such row. *)
Definition read_data (self : FileManager.t) (d : OS.fs) : dict * list line :=
  match OS.open_r d (FileManager._filename self) with
  | inl e => (defaults, [Printed (Error_reading_file e)])
  | inr rows =>
      match rows with
      | [] => (defaults, [Error_reading_file_StopIteration])
      | fieldnames :: data =>
          match filter (λ r, r ≠ []) data with
          | [] => (defaults, [Error_reading_file_StopIteration])
          | r :: _ => (row_dict fieldnames r, [])
          end
      end
  end.

(** [write_data]: the file is overwritten with the keys as header and the
    values as the one row. *)
Definition write_data (self : FileManager.t) (data : dict) (d : OS.fs)
  : OS.fs * list line :=
  let f := FileManager._filename self in
  match OS.open_w d f with
  | inl e => (d, [Printed (Error_writing_to_file e)])
  | inr d' =>
      (OS.writerow f (field_of <$> data.*2)
         (OS.writerow f (key_field <$> data.*1) d'), [])
  end.

(** [update_count]: the disk it leaves when it returns (when it raises, the
    disk is as it was), and the lines printed. *)
Definition update_count (self : FileManager.t) (name : string) (d : OS.fs)
  : Py.completion OS.fs * list line :=
  let '(data, out) := read_data self d in
  let data :=
    if bool_decide (is_Some (dict_get (Some name) data)) then data
    else dict_set (Some name) (Int 0) data in
  match int_value (default (Int 0) (dict_get (Some name) data)) with
  | Py.Raise e => (Py.Raise e, out)
  | Py.Return n =>
      let data := dict_set (Some name) (Int (n + 1)) data in
      match int_value (default (Int 0) (dict_get (Some "Total") data)) with
      | Py.Raise e => (Py.Raise e, out)
      | Py.Return total =>
          let data := dict_set (Some "Total") (Int (total + 1)) data in
          let '(d', out') := write_data self data d in
          (Py.Return d', out ++ out')
      end
  end.

End Summary.

(** ** The vocabulary of the specification, in terms of the source *)

(** The error kinds of the specification. *)
Inductive error_kind := InvalidInputError | DuplicateVoterError | StorageError.

Global Instance error_kind_eq_dec : EqDecision error_kind.
Proof. solve_decision. Defined.

(** The error kind each error dialog of [on_button_click] stands for. *)
Definition error_kind_of (message : string) : option error_kind :=
  if decide (message = "Voter ID is required.") then Some InvalidInputError
  else if decide (message = "Voter ID must be a number.") then Some InvalidInputError
  else if decide (message = "Please enter a valid name, not a number.")
  then Some InvalidInputError
  else if decide (message = "Invalid input. Please enter non-empty text.")
  then Some InvalidInputError
  else if decide (message = "Please select an option.") then Some InvalidInputError
  else if decide (message
                  = "This Voter ID has already been used. You cannot vote again.")
  then Some DuplicateVoterError
  else if decide (message = "Error reading file.") then Some StorageError
  else if decide (message = "CSV file is missing the required 'VoterID' column.")
  then Some StorageError
  else None.

(** The state of the application: the window and the world around it. *)
Abbreviation app := (ProjectWindow.t * world)%type.

(** The user fills in the form: the voter id, a radio button (or none), and
    the text of the free-text field. *)
Definition fill_form (voterId : string) (choice : option ProjectWindow.radio)
    (freeText : string) (self : ProjectWindow.t) : ProjectWindow.t :=
  {| ProjectWindow._file_manager := ProjectWindow._file_manager self;
     ProjectWindow.idInput := voterId;
     ProjectWindow.checked := choice;
     ProjectWindow.lineEdit := freeText;
     ProjectWindow.label := ProjectWindow.label self;
     ProjectWindow.dialogs := ProjectWindow.dialogs self |}.

(** [castVote]: the form is filled in and the vote button is clicked. *)
Definition castVote (voterId : string) (choice : option ProjectWindow.radio)
    (freeText : string) (s : app) : Py.completion app :=
  ProjectWindow.on_button_click (fill_form voterId choice freeText s.1) s.2.

(** [getResults] and [resetElection] are [view_results] and [reset_votes]. *)
Definition getResults (s : app) : Py.completion (Z * FileManager.results) :=
  (ProjectWindow.view_results s.1 s.2).1.

Definition resetElection (s : app) : app :=
  ProjectWindow.reset_votes s.1 s.2.

(** The error dialogs shown between the state [s] and the later state [s']. *)
Definition shown (s s' : app) : list string :=
  drop (length (ProjectWindow.dialogs s.1)) (ProjectWindow.dialogs s'.1).

(** What the caller sees of a call that took [s] to [s']: success when no
    error dialog was shown, a failure of kind [k] when one dialog of that
    kind was shown. *)
Definition succeeded (s s' : app) : bool := bool_decide (shown s s' = []).

Definition failed_with (k : error_kind) (s s' : app) : bool :=
  match shown s s' with
  | [message] => bool_decide (error_kind_of message = Some k)
  | _ => false
  end.

(** The vote records of the store [f]: the rows [DictReader] yields. *)
Definition store_rows (f : string) (w : world) : list Csv.row :=
  filter (λ r, r ≠ []) (tail (OS.rows_of (disk w) f)).

(** [hasVoted]: some record of the store [f] carries the voter id. *)
Definition hasVoted (f : string) (w : world) (voterId : string) : bool :=
  ProjectWindow.voter_id_used voterId (OS.rows_of (disk w) f).

(** A store in working order: a readable and writable file in a writable
    directory, whose first row is the header the program writes.  [records]
    gives its data rows. *)
Definition records (f : string) (w : world) : option (list Csv.row) :=
  match OS.entries (disk w) !! OS.resolve (disk w) f with
  | Some (OS.File true true (h :: data)) =>
      if decide (h = FileManager.header) then
        if OS.dir_writable (disk w) then Some data else None
      else None
  | _ => None
  end.

(** What the user does with the window. *)
Inductive action :=
| Vote (voterId : string) (choice : option ProjectWindow.radio) (freeText : string)
| ViewResults
| Reset.

Definition step (a : action) (s : app) : Py.completion app :=
  match a with
  | Vote voterId choice freeText => castVote voterId choice freeText s
  | ViewResults =>
      match ProjectWindow.view_results s.1 s.2 with
      | (Py.Return _, w) => Py.Return (s.1, w)
      | (Py.Raise e, _) => Py.Raise e
      end
  | Reset => Py.Return (resetElection s)
  end.

Fixpoint run (acts : list action) (s : app) : Py.completion app :=
  match acts with
  | [] => Py.Return s
  | a :: acts' =>
      match step a s with
      | Py.Return s' => run acts' s'
      | Py.Raise e => Py.Raise e
      end
  end.

Definition is_vote (a : action) : bool :=
  match a with Vote _ _ _ => true | _ => false end.

Definition is_reset (a : action) : bool :=
  match a with Reset => true | _ => false end.

(** The number of [castVote] calls of a run that succeeded. *)
Fixpoint successes (acts : list action) (s : app) : nat :=
  match acts with
  | [] => 0
  | a :: acts' =>
      match step a s with
      | Py.Return s' =>
          ((if is_vote a && succeeded s s' then 1 else 0) + successes acts' s')%nat
      | Py.Raise _ => 0
      end
  end.

(** The candidate a filled-in form names, when it names one: a default
    candidate, or a free-text name that is not blank and not a number. *)
Definition candidate_of (choice : option ProjectWindow.radio) (freeText : string)
  : option string :=
  match choice with
  | Some ProjectWindow.janeRadio => Some "Jane"
  | Some ProjectWindow.johnRadio => Some "John"
  | Some ProjectWindow.otherRadio =>
      let user_input := Py.strip freeText in
      if ProjectWindow.validate_input user_input then
        match Py.int user_input with
        | Some _ => None
        | None => Some user_input
        end
      else None
  | None => None
  end.

(** A voter id the form accepts: not blank, and a number for [int]. *)
Definition valid_voter_id (voterId : string) : bool :=
  ProjectWindow.validate_input (Py.strip voterId)
  && bool_decide (is_Some (Py.int (Py.strip voterId))).

(** The number of rows of [rs] whose vote field (the second one; [None] when
    the row has a single field) is [k]. *)
Definition votes_for (k : option string) (rs : list Csv.row) : Z :=
  Z.of_nat (length (filter (λ r, r !! 1%nat = k) rs)).

(** The non-blank rows: what [DictReader] makes records of. *)
Definition nonblank (rs : list Csv.row) : list Csv.row :=
  filter (λ r, r ≠ []) rs.

(** The sequence numbers (the [Total] fields) of the rows [rs]. *)
Definition sequence_numbers (rs : list Csv.row) : list (option string) :=
  (λ r, r !! 2%nat) <$> rs.

(** The row [log_vote] appends to a store whose data rows are [data]: the
    sequence number is the number of records plus one. *)
Definition vote_row (v c : string) (data : list Csv.row) : Csv.row :=
  [v; c; Py.str (length (nonblank data) + 1)].

(** The loop of [read_results] over rows read under the program's header:
    each row adds one to the count of its vote field. *)
Definition tally (res : FileManager.results) (rs : list Csv.row)
  : FileManager.results :=
  foldl (λ res r, <[r !! 1%nat := default 0 (res !! (r !! 1%nat)) + 1]> res) res rs.

(** Whether a filled-in form is accepted by a store in working order whose
    data rows are [data], and for which candidate: the voter id is valid and
    not used by a row, and the form names a candidate. *)
Definition accepts (data : list Csv.row) (voterId : string)
    (choice : option ProjectWindow.radio) (freeText : string) : option string :=
  if valid_voter_id voterId
     && negb (ProjectWindow.voter_id_used (Py.strip voterId)
                (FileManager.header :: data))
  then candidate_of choice freeText
  else None.

(** A sequence of appends: [log_vote] called for each (voter id, name), in
    order. *)
Definition log_votes (self : FileManager.t) (votes : list (string * string))
    (w : world) : world :=
  foldl (λ w vc, FileManager.log_vote self vc.1 vc.2 w) w votes.

(** The entries of a results dictionary beside the default candidates all
    come from the vote field of some row of [rows], and count at least 1. *)
Definition write_ins_voted (rows : list (gmap string (option string)))
    (res : FileManager.results) : Prop :=
  ∀ k n, res !! k = Some n → k ≠ Some "Jane" → k ≠ Some "John" →
         1 ≤ n ∧ ∃ row, row ∈ rows ∧ row !! "Vote" = Some k.

(** The two default candidates have an entry. *)
Definition has_defaults (res : FileManager.results) : Prop :=
  is_Some (res !! Some "Jane") ∧ is_Some (res !! Some "John").

(** The trimmed voter ids of the votes of a run. *)
Definition voter_ids (acts : list action) : list string :=
  omap (λ a, match a with
             | Vote voterId _ _ => Some (Py.strip voterId)
             | _ => None
             end) acts.

(** A vote whose form is valid: a valid voter id, and a candidate named. *)
Definition well_formed (a : action) : bool :=
  match a with
  | Vote voterId choice freeText =>
      valid_voter_id voterId
      && bool_decide (is_Some (candidate_of choice freeText))
  | _ => false
  end.

(** ** States used in examples *)

(** A window on ['data.csv'] with an empty form. *)
Definition window0 : ProjectWindow.t :=
  {| ProjectWindow._file_manager := FileManager.New "data.csv";
     ProjectWindow.idInput := ""; ProjectWindow.checked := None;
     ProjectWindow.lineEdit := ""; ProjectWindow.label := "";
     ProjectWindow.dialogs := [] |}.

(** The resolution of paths in the examples: a path is the name of an
    entry of the working directory, and a leading ['./'] is of no effect. *)
Fixpoint in_cwd (path : string) : string :=
  match path with
  | String "." (String "/" rest) => in_cwd rest
  | _ => path
  end.

(** A writable directory without any file. *)
Definition empty_directory : world :=
  {| disk := {| OS.entries := ∅; OS.dir_writable := true;
                OS.resolve := in_cwd |};
     console := [] |}.

(** A directory that holds one file [f] with the given permissions and rows,
    and a console with nothing printed. *)
Definition one_file (f : string) (readable writable : bool)
    (rows : list Csv.row) (dir_writable : bool) : world :=
  {| disk := {| OS.entries := {[ in_cwd f := OS.File readable writable rows ]};
                OS.dir_writable := dir_writable;
                OS.resolve := in_cwd |};
     console := [] |}.

(** The store ['data.csv'] in working order, holding the given data rows. *)
Definition working_store (data : list Csv.row) : world :=
  one_file "data.csv" true true (FileManager.header :: data) true.

(** The window and the store after voter ["1"] voted for Jane and voter
    ["2"] for John, from an empty store. *)
Definition window_after_two_votes : ProjectWindow.t :=
  ProjectWindow.idInput_clear
    (ProjectWindow.setText "Thank you for voting for John!"
       (fill_form "2" (Some ProjectWindow.johnRadio) ""
          (ProjectWindow.idInput_clear
             (ProjectWindow.setText "Thank you for voting for Jane!"
                (fill_form "1" (Some ProjectWindow.janeRadio) "" window0))))).

Definition store_after_two_votes : world :=
  working_store [["1"; "Jane"; "1"]; ["2"; "John"; "2"]].

(** ['data.csv'] as a read-only file that holds the header only. *)
Definition read_only_store : world :=
  one_file "data.csv" true false [FileManager.header] true.

(** ['data.csv'] with one vote, in a directory from which nothing can be
    removed. *)
Definition locked_directory_store : world :=
  one_file "data.csv" true true [FileManager.header; ["1"; "Jane"; "1"]] false.

(** A directory with two stores: ['data.csv'] and ['votes.csv'], one vote
    in each. *)
Definition two_stores : world :=
  {| disk :=
       {| OS.entries :=
            <["votes.csv" := OS.File true true [FileManager.header; ["5"; "John"; "1"]]]>
              {[ "data.csv" := OS.File true true [FileManager.header; ["1"; "Jane"; "1"]] ]};
          OS.dir_writable := true;
          OS.resolve := in_cwd |};
     console := [] |}.

(** ** Vocabulary of the further properties *)

(** Whether [log_vote] can write to the file [f]: it is a readable and
    writable file, or it does not exist and can be created. *)
Definition can_append (d : OS.fs) (f : string) : bool :=
  match OS.entries d !! OS.resolve d f with
  | Some (OS.File true true _) => true
  | Some _ => false
  | None => OS.dir_writable d
  end.

(** Every character of the string is white space for [str.strip]. *)
Fixpoint all_space (s : string) : bool :=
  match s with
  | EmptyString => true
  | String c s' => Py.isspace c && all_space s'
  end.

(** The sum of the counts of a results mapping. *)
Definition sum_counts (m : FileManager.results) : Z :=
  foldr Z.add 0 (map_to_list m).*2.

(** ['data.csv'] as a file that can be written but not read. *)
Definition write_only_store : world :=
  one_file "data.csv" false true [FileManager.header] true.

(** ['data.csv'] as a file that cannot be read. *)
Definition unreadable_store : world :=
  one_file "data.csv" false false [FileManager.header; ["7"; "Jane"; "1"]] true.

(** ['data.csv'] in the summary format of [write_data]: one row of counts
    under the header [Jane, John, Total]. *)
Definition summary_store : world :=
  one_file "data.csv" true true [["Jane"; "John"; "Total"]; ["2"; "1"; "3"]] true.

(** ['data.csv'] as a file without any row. *)
Definition empty_file_store : world :=
  one_file "data.csv" true true [] true.

(** No character of the string is white space for [str.strip]. *)
Fixpoint no_space (s : string) : bool :=
  match s with
  | EmptyString => true
  | String c s' => negb (Py.isspace c) && no_space s'
  end.

(** The rows of a summary file: the header [Jane, John, Total] followed by
    the other names, and the one row of their counts. *)
Definition summary_rows (jane john total : Z) (others : list (string * Z))
  : list Csv.row :=
  [ "Jane" :: "John" :: "Total" :: others.*1;
    pretty jane :: pretty john :: pretty total :: (pretty <$> others.*2) ].

(** One more for [name] among the other names: its count is increased where
    it stands, or the name is added last with the count 1. *)
Fixpoint bump (name : string) (others : list (string * Z)) : list (string * Z) :=
  match others with
  | [] => [(name, 1)]
  | (k, n) :: others' =>
      if decide (k = name) then (k, n + 1) :: others'
      else (k, n) :: bump name others'
  end.

(** The counts after [update_count name] on the counts of a summary file. *)
Definition bumped (name : string) (jane john total : Z)
    (others : list (string * Z)) : list Csv.row :=
  if decide (name = "Jane") then summary_rows (jane + 1) john (total + 1) others
  else if decide (name = "John") then summary_rows jane (john + 1) (total + 1) others
  else summary_rows jane john (total + 1) (bump name others).

(** The dictionary [DictReader] yields for the counts [others] read as
    fields. *)
Definition count_dict (others : list (string * Z)) : Summary.dict :=
  (λ kn, (Some kn.1, Summary.Str (pretty kn.2))) <$> others.


(** [update_count] called for each name in turn, as long as it returns. *)
Fixpoint update_counts (self : FileManager.t) (names : list string) (d : OS.fs)
  : Py.completion OS.fs :=
  match names with
  | [] => Py.Return d
  | name :: names' =>
      match (Summary.update_count self name d).1 with
      | Py.Return d' => update_counts self names' d'
      | Py.Raise e => Py.Raise e
      end
  end.

(** The number of times [name] is in [names]. *)
Definition occurrences (name : string) (names : list string) : Z :=
  Z.of_nat (length (filter (λ n, n = name) names)).

(** Whether the file [f] has no row for [read_data] to return: no nonblank
    row after its first one (a missing file has no row at all). *)
Definition no_data_row (d : OS.fs) (f : string) : bool :=
  bool_decide (filter (λ r, r ≠ []) (tail (OS.rows_of d f)) = []).



(** The disk after [os.remove('data.csv')], whether it removed the file or
    failed. *)
Definition without_data_csv (d : OS.fs) : OS.fs :=
  match OS.remove d "data.csv" with
  | inr d' => d'
  | inl _ => d
  end.

(** The disk after [_ensure_file_exists] for the file name [f]. *)
Definition with_file (f : string) (d : OS.fs) : OS.fs :=
  if OS.exists_ d f then d
  else
    match OS.open_w d f with
    | inr d' => OS.writerow f FileManager.header d'
    | inl _ => d
    end.

(** ** Auxiliary results *)

(** *** Rows read under the header the program writes *)

Section header_rows.
Implicit Types (r : Csv.row) (rs data : list Csv.row).

Lemma zip_dict_header_VoterID r :
  r ≠ [] → Csv.zip_dict FileManager.header r !! "VoterID" = Some (head r).
Proof.
  intros Hr. destruct r as [|a [|b [|c [|x r']]]]; [done|..]; reflexivity.
Qed.

Lemma read_row_header r (res : FileManager.results) (t : Z) :
  r ≠ [] →
  FileManager.read_row (res, t) (Csv.zip_dict FileManager.header r)
  = Py.Return (<[r !! 1%nat := default 0 (res !! (r !! 1%nat)) + 1]> res, t + 1).
Proof.
  intros Hr. destruct r as [|a [|b [|c [|x r']]]]; [done|..]; reflexivity.
Qed.

(** Every field name is a key of the dictionary of a row. *)
Lemma zip_dict_has_key (fields : list string) r (k : string) :
  k ∈ fields → Csv.has_key k (Csv.zip_dict fields r) = true.
Proof.
  intros Hk. apply bool_decide_eq_true_2. unfold Csv.zip_dict.
  assert (∀ (l : list string) (d : gmap string (option string)),
            is_Some (d !! k) ∨ k ∈ l →
            is_Some (foldl (λ d k, <[k := None]> d) d l !! k)) as Hnone.
  { induction l as [|x l IH]; intros d [Hd|Hl]; simpl.
    - done.
    - by apply elem_of_nil in Hl.
    - apply IH. left. rewrite lookup_insert_is_Some.
      destruct (decide (x = k)); auto.
    - apply IH. apply elem_of_cons in Hl as [->|Hl]; [|by right].
      left. rewrite lookup_insert_eq. by eexists. }
  cut (∀ (d : gmap string (option string)),
         is_Some (d !! k) ∨ k ∈ fields →
         is_Some (foldl (λ d k, <[k := None]> d)
                    (foldl (λ d kv, <[kv.1 := Some kv.2]> d) d (zip fields r))
                    (drop (length r) fields) !! k)).
  { intros Hcut. apply Hcut. by right. }
  clear Hk. revert r. induction fields as [|x fs IH]; intros r d Hd.
  - destruct r; simpl; destruct Hd as [Hd|Hd]; try done;
      by apply elem_of_nil in Hd.
  - destruct r as [|y r]; [by apply Hnone|].
    simpl. apply IH. destruct Hd as [Hd|Hd].
    + left. rewrite lookup_insert_is_Some. destruct (decide (x = k)); auto.
    + apply elem_of_cons in Hd as [->|Hd]; [|by right].
      left. rewrite lookup_insert_eq. by eexists.
Qed.

(** The count of [log_vote] under any header that has the voter id column:
    the number of non-blank data rows. *)
Lemma count_votes_VoterID (h : Csv.row) data :
  "VoterID" ∈ h →
  FileManager.count_votes (h :: data) = length (nonblank data).
Proof.
  intros Hh. unfold FileManager.count_votes, nonblank. simpl.
  assert (∀ rs, length (filter (λ d, Csv.has_key "VoterID" d = true)
                          (Csv.zip_dict h <$> rs))
                = length rs) as Hlen; [|apply Hlen].
  induction rs as [|r rs IH]; [reflexivity|].
  rewrite fmap_cons, filter_cons_True by by apply zip_dict_has_key.
  simpl. by rewrite IH.
Qed.

Lemma count_votes_header data :
  FileManager.count_votes (FileManager.header :: data) = length (nonblank data).
Proof. apply count_votes_VoterID. constructor. Qed.

Lemma nonblank_app rs1 rs2 : nonblank (rs1 ++ rs2) = nonblank rs1 ++ nonblank rs2.
Proof. apply filter_app. Qed.

Lemma nonblank_all rs : Forall (λ r, r ≠ []) (nonblank rs).
Proof. apply Forall_forall. intros r Hr. by apply list_elem_of_filter in Hr as [? _]. Qed.

(** The duplicate check of [on_button_click], on such a file: some data
    row starts with the voter id. *)
Lemma voter_id_used_header v data :
  ProjectWindow.voter_id_used v (FileManager.header :: data) = true
  ↔ ∃ r, r ∈ data ∧ head r = Some v.
Proof.
  unfold ProjectWindow.voter_id_used. rewrite bool_decide_eq_true, Exists_exists.
  simpl. split.
  - intros (d & Hd & Hv). apply list_elem_of_fmap in Hd as (r & -> & Hr).
    apply list_elem_of_filter in Hr as [Hne Hr].
    rewrite zip_dict_header_VoterID in Hv by done. exists r. split; [done|].
    by simplify_eq.
  - intros (r & Hr & Hv). exists (Csv.zip_dict FileManager.header r).
    assert (r ≠ []) by (intros ->; done). split.
    + apply list_elem_of_fmap. exists r. split; [done|].
      by apply list_elem_of_filter.
    + rewrite zip_dict_header_VoterID by done. by rewrite Hv.
Qed.

End header_rows.

(** *** A store in working order *)

Section working_store.
Implicit Types (f v c : string) (w : world) (data : list Csv.row).

Lemma records_inv f w data :
  records f w = Some data →
  OS.entries (disk w) !! OS.resolve (disk w) f
  = Some (OS.File true true (FileManager.header :: data))
  ∧ OS.dir_writable (disk w) = true.
Proof.
  unfold records. intros H.
  destruct (OS.entries (disk w) !! OS.resolve (disk w) f) as [[[] [] [|h rows]|]|]; try done.
  destruct (decide (h = FileManager.header)) as [->|]; [|done].
  destruct (OS.dir_writable (disk w)); [|done]. by simplify_eq.
Qed.

Lemma records_intro f w data :
  OS.entries (disk w) !! OS.resolve (disk w) f
  = Some (OS.File true true (FileManager.header :: data)) →
  OS.dir_writable (disk w) = true →
  records f w = Some data.
Proof.
  unfold records. intros -> ->. by rewrite decide_True.
Qed.

Lemma records_rows_of f w data :
  records f w = Some data →
  OS.rows_of (disk w) f = FileManager.header :: data.
Proof. intros [H _]%records_inv. unfold OS.rows_of. by rewrite H. Qed.

Lemma records_open_r f w data :
  records f w = Some data →
  OS.open_r (disk w) f = inr (FileManager.header :: data).
Proof. intros [H _]%records_inv. unfold OS.open_r. by rewrite H. Qed.

(** [log_vote] on a readable and writable file whose header has the voter id
    column: one more row, numbered after the rows held. *)
Lemma log_vote_appends f v c w (h : Csv.row) data :
  OS.entries (disk w) !! OS.resolve (disk w) f = Some (OS.File true true (h :: data)) →
  "VoterID" ∈ h →
  FileManager.log_vote (FileManager.New f) v c w
  = on_disk
      (OS.set_entry (OS.resolve (disk w) f)
         (OS.File true true (h :: data ++ [vote_row v c data]))
         (disk w)) w.
Proof.
  intros H Hh. unfold FileManager.log_vote. simpl.
  unfold OS.exists_, OS.open_r, OS.open_a. rewrite H.
  rewrite bool_decide_eq_true_2 by eauto.
  rewrite count_votes_VoterID by done.
  unfold OS.at_start, OS.rows_of, OS.writerow. rewrite H.
  rewrite bool_decide_eq_false_2 by done. rewrite H. reflexivity.
Qed.

(** [log_vote] when the file does not exist: it is created with the header
    and the row numbered 1. *)
Lemma log_vote_creates f v c w :
  OS.entries (disk w) !! OS.resolve (disk w) f = None →
  OS.dir_writable (disk w) = true →
  OS.rows_of (disk (FileManager.log_vote (FileManager.New f) v c w)) f
  = [FileManager.header; [v; c; Py.str 1]].
Proof.
  intros H Hd. unfold FileManager.log_vote. simpl.
  unfold OS.exists_, OS.open_a. rewrite H, Hd.
  rewrite bool_decide_eq_false_2 by (by intros [? ?]).
  unfold OS.at_start, OS.rows_of, OS.writerow, OS.set_entry. simpl.
  rewrite lookup_insert_eq. rewrite bool_decide_eq_true_2 by done.
  simpl. rewrite lookup_insert_eq. simpl. by rewrite lookup_insert_eq.
Qed.

(** [log_vote] on a store in working order: one more row, nothing else. *)
Lemma log_vote_working f v c w data :
  records f w = Some data →
  FileManager.log_vote (FileManager.New f) v c w
  = on_disk
      (OS.set_entry (OS.resolve (disk w) f)
         (OS.File true true (FileManager.header :: data ++ [vote_row v c data]))
         (disk w)) w.
Proof.
  intros [H Hd]%records_inv. apply log_vote_appends; [done|constructor].
Qed.

Lemma records_log_vote f v c w data :
  records f w = Some data →
  records f (FileManager.log_vote (FileManager.New f) v c w)
  = Some (data ++ [vote_row v c data]).
Proof.
  intros H. rewrite (log_vote_working _ _ _ _ _ H).
  apply records_inv in H as [H Hd]. apply records_intro; simpl; [|done].
  apply lookup_insert_eq.
Qed.

End working_store.

(** *** The tally [read_results] computes *)

Section tally.
Implicit Types (res : FileManager.results) (rs : list Csv.row) (k : option string).

Lemma read_rows_header rs res (t : Z) :
  Forall (λ r, r ≠ []) rs →
  FileManager.read_rows (res, t) (Csv.zip_dict FileManager.header <$> rs)
  = Py.Return (tally res rs, t + Z.of_nat (length rs)).
Proof.
  intros Hrs. revert res t.
  induction Hrs as [|r rs Hr _ IH]; intros res t.
  - simpl. do 2 f_equal. lia.
  - rewrite fmap_cons.
    cbn [FileManager.read_rows]. rewrite read_row_header by done.
    rewrite IH. cbn [tally foldl length]. do 2 f_equal. lia.
Qed.

Lemma tally_lookup rs res k :
  tally res rs !! k
  = if decide (votes_for k rs = 0) then res !! k
    else Some (default 0 (res !! k) + votes_for k rs).
Proof.
  unfold votes_for. revert res.
  induction rs as [|r rs IH]; intros res; simpl; [done|].
  rewrite IH. destruct (decide (r !! 1%nat = k)) as [Heq|Hne].
  - rewrite filter_cons_True by done. simpl. subst k.
    rewrite lookup_insert_eq. simpl.
    repeat case_decide; try lia; f_equal; lia.
  - rewrite filter_cons_False by done.
    rewrite lookup_insert_ne by done. done.
Qed.

(** [read_results] on a store in working order. *)
Lemma read_results_working f w data :
  records f w = Some data →
  FileManager.read_results (FileManager.New f) w
  = (Py.Return (<[Some "Total" := Z.of_nat (length (nonblank data))]>
                  (tally FileManager.initial_results (nonblank data))), w).
Proof.
  intros H. unfold FileManager.read_results. simpl.
  rewrite (records_open_r _ _ _ H). simpl.
  fold (nonblank data). rewrite read_rows_header by apply nonblank_all.
  reflexivity.
Qed.

End tally.

(** *** Casting a vote *)

Section casting.
Implicit Types (self : ProjectWindow.t) (w : world) (s : app)
  (f v name : string) (data : list Csv.row).

Lemma shown_same self self' w w' :
  ProjectWindow.dialogs self' = ProjectWindow.dialogs self →
  shown (self, w) (self', w') = [].
Proof. unfold shown. simpl. intros ->. apply drop_all. Qed.

Lemma shown_one self self' w w' message :
  ProjectWindow.dialogs self' = ProjectWindow.dialogs self ++ [message] →
  shown (self, w) (self', w') = [message].
Proof.
  unfold shown. simpl. intros ->. by rewrite drop_app_length.
Qed.

(** [on_button_click] when the store is in working order: the file is
    read, its header has the voter id column. *)
Lemma on_button_click_working self w f data :
  ProjectWindow._file_manager self = FileManager.New f →
  records f w = Some data →
  ProjectWindow.on_button_click self w
  = let voter_id := Py.strip (ProjectWindow.idInput self) in
    if negb (ProjectWindow.validate_input voter_id) then
      Py.Return (ProjectWindow.show_error_message "Voter ID is required." self, w)
    else
      match Py.int voter_id with
      | None =>
          Py.Return
            (ProjectWindow.show_error_message "Voter ID must be a number." self, w)
      | Some _ =>
          if ProjectWindow.voter_id_used voter_id (FileManager.header :: data)
          then
            Py.Return
              (ProjectWindow.show_error_message
                 "This Voter ID has already been used. You cannot vote again."
                 self, w)
          else Py.Return (ProjectWindow.submit voter_id self w)
      end.
Proof.
  intros Hf H. unfold ProjectWindow.on_button_click. rewrite Hf. simpl.
  rewrite (records_open_r _ _ _ H). reflexivity.
Qed.

(** What [submit] does, by the candidate the form names. *)
Lemma submit_candidate v self w name :
  candidate_of (ProjectWindow.checked self) (ProjectWindow.lineEdit self)
  = Some name →
  ∃ self',
    ProjectWindow.submit v self w
    = (self', FileManager.log_vote (ProjectWindow._file_manager self) v name w)
    ∧ ProjectWindow.dialogs self' = ProjectWindow.dialogs self
    ∧ ProjectWindow._file_manager self' = ProjectWindow._file_manager self
    ∧ ProjectWindow.label self' = "Thank you for voting for " +:+ name +:+ "!".
Proof.
  unfold candidate_of, ProjectWindow.submit. intros Hc.
  destruct (ProjectWindow.checked self) as [[]|]; [| | |done].
  - simplify_eq. eexists; split; [reflexivity|done].
  - simplify_eq. eexists; split; [reflexivity|done].
  - cbv zeta in *.
    destruct (ProjectWindow.validate_input (Py.strip (ProjectWindow.lineEdit self)));
      [|done].
    destruct (Py.int (Py.strip (ProjectWindow.lineEdit self))); simplify_eq.
    eexists; split; [reflexivity|done].
Qed.

Lemma submit_no_candidate v self w :
  candidate_of (ProjectWindow.checked self) (ProjectWindow.lineEdit self) = None →
  ∃ self' message,
    ProjectWindow.submit v self w = (self', w)
    ∧ ProjectWindow.dialogs self' = ProjectWindow.dialogs self ++ [message]
    ∧ ProjectWindow._file_manager self' = ProjectWindow._file_manager self
    ∧ error_kind_of message = Some InvalidInputError.
Proof.
  unfold candidate_of, ProjectWindow.submit. intros Hc.
  destruct (ProjectWindow.checked self) as [[]|]; [done|done| |].
  - cbv zeta in *.
    destruct (ProjectWindow.validate_input (Py.strip (ProjectWindow.lineEdit self))).
    + destruct (Py.int (Py.strip (ProjectWindow.lineEdit self))); simplify_eq.
      do 2 eexists; split; [reflexivity|]. split; [reflexivity|done].
    + do 2 eexists; split; [reflexivity|]. split; [reflexivity|done].
  - do 2 eexists; split; [reflexivity|]. split; [reflexivity|done].
Qed.

(** One [castVote] on a store in working order: it returns; the vote is
    logged and no dialog is shown when the form is accepted; otherwise one
    error dialog is shown and the world is as before. *)
Lemma castVote_working voterId choice freeText s f data :
  ProjectWindow._file_manager s.1 = FileManager.New f →
  records f s.2 = Some data →
  ∃ s',
    castVote voterId choice freeText s = Py.Return s'
    ∧ ProjectWindow._file_manager s'.1 = FileManager.New f
    ∧ match accepts data voterId choice freeText with
      | Some name =>
          shown s s' = []
          ∧ s'.2 = FileManager.log_vote (FileManager.New f) (Py.strip voterId) name s.2
      | None =>
          (∃ message, shown s s' = [message] ∧ is_Some (error_kind_of message))
          ∧ s'.2 = s.2
      end.
Proof.
  destruct s as [self w]. simpl. intros Hf H. unfold castVote. simpl.
  rewrite (on_button_click_working _ _ f data) by done. simpl.
  unfold accepts, valid_voter_id.
  destruct (ProjectWindow.validate_input (Py.strip voterId)); simpl.
  2:{ eexists. split; [reflexivity|]. simpl. split; [done|]. split; [|done].
      eexists. split; [by apply shown_one|]. by eexists. }
  destruct (Py.int (Py.strip voterId)) as [n|]; simpl.
  2:{ eexists. split; [reflexivity|]. simpl. split; [done|]. split; [|done].
      eexists. split; [by apply shown_one|]. by eexists. }
  rewrite ?bool_decide_eq_true_2 by eauto. simpl.
  destruct (ProjectWindow.voter_id_used _ _); simpl.
  { eexists. split; [reflexivity|]. simpl. split; [done|]. split; [|done].
    eexists. split; [by apply shown_one|]. by eexists. }
  destruct (candidate_of choice freeText) as [name|] eqn:Hc.
  - destruct (submit_candidate (Py.strip voterId)
                (fill_form voterId choice freeText self) w name Hc)
      as (self' & -> & Hd & Hfm & _).
    eexists. split; [reflexivity|]. simpl in *.
    rewrite Hfm, Hf. split; [done|]. split; [|done]. by apply shown_same.
  - destruct (submit_no_candidate (Py.strip voterId)
                (fill_form voterId choice freeText self) w Hc)
      as (self' & message & -> & Hd & Hfm & Hk).
    eexists. split; [reflexivity|]. simpl in *.
    rewrite Hfm. split; [done|]. split; [|done].
    exists message. split; [by apply shown_one|]. by rewrite Hk.
Qed.

End casting.

(** *** Results, reset and runs on a store in working order *)

Section runs.
Implicit Types (s : app) (w : world) (f : string) (data : list Csv.row)
  (a : action) (acts : list action).

Lemma view_results_working self w f data :
  ProjectWindow._file_manager self = FileManager.New f →
  records f w = Some data →
  ProjectWindow.view_results self w
  = (Py.Return (Z.of_nat (length (nonblank data)),
                delete (Some "Total")
                  (tally FileManager.initial_results (nonblank data))), w).
Proof.
  intros Hf H. unfold ProjectWindow.view_results.
  rewrite Hf, (read_results_working _ _ _ H).
  by rewrite lookup_insert_eq, delete_insert_eq.
Qed.

Lemma ensure_file_exists_present f w :
  is_Some (OS.entries (disk w) !! OS.resolve (disk w) f) →
  FileManager._ensure_file_exists (FileManager.New f) w = w.
Proof.
  intros H. unfold FileManager._ensure_file_exists, OS.exists_. simpl.
  by rewrite bool_decide_eq_true_2.
Qed.

Lemma ensure_file_exists_absent f w :
  OS.entries (disk w) !! OS.resolve (disk w) f = None →
  OS.dir_writable (disk w) = true →
  FileManager._ensure_file_exists (FileManager.New f) w
  = on_disk
      (OS.set_entry (OS.resolve (disk w) f) (OS.File true true [FileManager.header])
         (disk w)) w.
Proof.
  intros H Hd. unfold FileManager._ensure_file_exists, OS.exists_, OS.open_w.
  simpl. rewrite H, Hd.
  rewrite bool_decide_eq_false_2 by (by intros [? ?]).
  unfold OS.writerow, OS.set_entry. simpl. rewrite lookup_insert_eq.
  by rewrite insert_insert_eq.
Qed.

(** [reset_counts] keeps a store in working order in working order; the
    store ['data.csv'] is left without a record. *)
Lemma reset_counts_working f w data :
  records f w = Some data →
  records f (FileManager.reset_counts (FileManager.New f) w)
  = Some (if decide (OS.resolve (disk w) f = OS.resolve (disk w) "data.csv")
          then [] else data).
Proof.
  intros H. pose proof (records_inv _ _ _ H) as [He Hd].
  unfold FileManager.reset_counts, OS.remove.
  destruct (decide (OS.resolve (disk w) f = OS.resolve (disk w) "data.csv"))
    as [Heq|Hne].
  - rewrite <-Heq, He, Hd. rewrite ensure_file_exists_absent; simpl;
      [|apply lookup_delete_eq|done].
    apply records_intro; simpl; [apply lookup_insert_eq|done].
  - destruct (OS.entries (disk w) !! OS.resolve (disk w) "data.csv") as [[rd wr rows|]|] eqn:Hdata.
    + rewrite Hd. rewrite ensure_file_exists_present; simpl.
      * apply records_intro; simpl; [|done]. by rewrite lookup_delete_ne.
      * rewrite lookup_delete_ne by done. rewrite He. eauto.
    + rewrite ensure_file_exists_present; simpl; [|rewrite He; eauto].
      by apply records_intro.
    + rewrite ensure_file_exists_present; simpl; [|rewrite He; eauto].
      by apply records_intro.
Qed.

(** One step on a store in working order returns, and leaves the store in
    working order: a vote adds its row when it is accepted, viewing the
    results changes nothing. *)
Lemma step_working a s f data :
  ProjectWindow._file_manager s.1 = FileManager.New f →
  records f s.2 = Some data →
  ∃ s' data',
    step a s = Py.Return s'
    ∧ ProjectWindow._file_manager s'.1 = FileManager.New f
    ∧ records f s'.2 = Some data'
    ∧ match a with
      | Vote voterId choice freeText =>
          match accepts data voterId choice freeText with
          | Some name =>
              data' = data ++ [vote_row (Py.strip voterId) name data]
              ∧ succeeded s s' = true
          | None => data' = data ∧ succeeded s s' = false ∧ s'.2 = s.2
          end
      | ViewResults => s' = s ∧ data' = data
      | Reset =>
          data' = if decide (OS.resolve (disk s.2) f = OS.resolve (disk s.2) "data.csv")
                  then [] else data
      end.
Proof.
  intros Hf H. destruct a as [voterId choice freeText| |].
  - destruct (castVote_working voterId choice freeText s f data Hf H)
      as (s' & Hs' & Hf' & Hacc).
    unfold step. rewrite Hs'.
    destruct (accepts data voterId choice freeText) as [name|].
    + destruct Hacc as [Hshown Hw]. exists s'. eexists.
      split; [done|]. split; [done|]. rewrite Hw.
      split; [by apply records_log_vote|]. split; [done|].
      unfold succeeded. by rewrite Hshown.
    + destruct Hacc as [(message & Hshown & _) Hw]. exists s', data.
      split; [done|]. split; [done|]. rewrite Hw. split; [done|].
      split; [done|]. split; [|done]. unfold succeeded. by rewrite Hshown.
  - exists s, data. unfold step.
    rewrite (view_results_working _ _ f data) by done.
    by destruct s.
  - destruct s as [self w]. simpl in *.
    exists (resetElection (self, w)),
      (if decide (OS.resolve (disk w) f = OS.resolve (disk w) "data.csv")
       then [] else data).
    split; [reflexivity|]. unfold resetElection. simpl. split; [done|].
    rewrite Hf. split; [by apply reset_counts_working|done].
Qed.

(** A run on a store in working order returns. *)
Lemma run_working acts s f data :
  ProjectWindow._file_manager s.1 = FileManager.New f →
  records f s.2 = Some data →
  ∃ s' data',
    run acts s = Py.Return s'
    ∧ ProjectWindow._file_manager s'.1 = FileManager.New f
    ∧ records f s'.2 = Some data'.
Proof.
  revert s data. induction acts as [|a acts IH]; intros s data Hf H.
  - by exists s, data.
  - destruct (step_working a s f data Hf H) as (s1 & data1 & Hs & Hf1 & H1 & _).
    destruct (IH s1 data1 Hf1 H1) as (s' & data' & Hr & ? & ?).
    exists s', data'. simpl. by rewrite Hs.
Qed.

(** Without a reset, the rows of the store are kept, in their order. *)
Lemma run_keeps_rows acts s s' f data :
  Forall (λ a, is_reset a = false) acts →
  ProjectWindow._file_manager s.1 = FileManager.New f →
  records f s.2 = Some data →
  run acts s = Py.Return s' →
  ∃ more, records f s'.2 = Some (data ++ more)
          ∧ ProjectWindow._file_manager s'.1 = FileManager.New f.
Proof.
  intros Hacts. revert s data.
  induction Hacts as [|a acts Ha _ IH]; intros s data Hf H Hrun.
  - simpl in Hrun. simplify_eq. exists []. by rewrite app_nil_r.
  - destruct (step_working a s f data Hf H) as (s1 & data1 & Hs & Hf1 & H1 & Hstep).
    simpl in Hrun. rewrite Hs in Hrun.
    destruct (IH s1 data1 Hf1 H1 Hrun) as (more & Hmore & Hf').
    assert (∃ one, data1 = data ++ one) as [one ->].
    { destruct a as [voterId choice freeText| |]; [| |done].
      - destruct (accepts data voterId choice freeText).
        + destruct Hstep as [-> _]. eauto.
        + destruct Hstep as [-> _]. exists []. by rewrite app_nil_r.
      - destruct Hstep as [_ ->]. exists []. by rewrite app_nil_r. }
    exists (one ++ more). by rewrite app_assoc.
Qed.

End runs.

(** *** The duplicate check *)

Section duplicates.
Implicit Types (s : app) (f : string) (data : list Csv.row).

Lemma failed_with_one self self' w w' message k :
  ProjectWindow.dialogs self' = ProjectWindow.dialogs self ++ [message] →
  error_kind_of message = Some k →
  failed_with k (self, w) (self', w') = true.
Proof.
  intros Hd Hk. unfold failed_with. rewrite (shown_one _ _ _ _ _ Hd).
  by apply bool_decide_eq_true_2.
Qed.

Lemma valid_voter_id_strip voterId voterId' :
  Py.strip voterId' = Py.strip voterId →
  valid_voter_id voterId' = valid_voter_id voterId.
Proof. unfold valid_voter_id. by intros ->. Qed.

(** A valid voter id that a row of the store carries: [on_button_click]
    shows the duplicate dialog and does nothing else. *)
Lemma castVote_duplicate voterId choice freeText s f data :
  ProjectWindow._file_manager s.1 = FileManager.New f →
  records f s.2 = Some data →
  valid_voter_id voterId = true →
  ProjectWindow.voter_id_used (Py.strip voterId) (FileManager.header :: data) = true →
  ∃ s',
    castVote voterId choice freeText s = Py.Return s'
    ∧ failed_with DuplicateVoterError s s' = true
    ∧ s'.2 = s.2
    ∧ ProjectWindow._file_manager s'.1 = ProjectWindow._file_manager s.1.
Proof.
  destruct s as [self w]. simpl. intros Hf H Hv Hused.
  unfold castVote. simpl.
  rewrite (on_button_click_working _ _ f data) by done. simpl.
  unfold valid_voter_id in Hv. apply andb_true_iff in Hv as [Hv1 Hv2].
  rewrite Hv1. simpl. apply bool_decide_eq_true in Hv2 as [n Hn].
  rewrite Hn, Hused. eexists. split; [reflexivity|]. simpl.
  split; [|done]. by eapply failed_with_one.
Qed.

End duplicates.

(** *** The store the program starts from *)

(** [ProjectWindow.__init__] in an empty directory creates the store
    ['data.csv'] in working order, without a record. *)
Example init_creates_store :
  ProjectWindow.__init__ window0 empty_directory = (window0, working_store []).
Proof. reflexivity. Qed.

(** ** The claims *)

(** C1, as stated, fails: [log_vote] has no duplicate check.  On a store that
    already holds a record of voter ["1"], [log_vote("1", "John")] appends a
    second record for that voter. *)
Lemma log_vote_duplicate_counterexample :
  hasVoted "data.csv" (working_store [["1"; "Jane"; "1"]]) "1" = true
  ∧ OS.rows_of
      (disk (FileManager.log_vote (FileManager.New "data.csv") "1" "John"
               (working_store [["1"; "Jane"; "1"]])))
      "data.csv"
    = [FileManager.header; ["1"; "Jane"; "1"]; ["1"; "John"; "2"]].
Proof. split; reflexivity. Qed.

(** C1, amended: [log_vote] itself performs no duplicate check.  On every
    store in working order that holds a record of voter [v],
    [log_vote(v, c)] appends one more record for [v]; the duplicate is
    refused only by the check of [on_button_click], which for a valid voter
    id carried by a record shows the duplicate dialog, does not call
    [log_vote] and leaves the world as it was. *)
Theorem log_vote_appends_duplicate f w data v c :
  records f w = Some data →
  hasVoted f w v = true →
  records f (FileManager.log_vote (FileManager.New f) v c w)
  = Some (data ++ [vote_row v c data])
  ∧ ∀ self voterId choice freeText,
      ProjectWindow._file_manager self = FileManager.New f →
      Py.strip voterId = v →
      valid_voter_id voterId = true →
      ∃ s', castVote voterId choice freeText (self, w) = Py.Return s'
            ∧ failed_with DuplicateVoterError (self, w) s' = true
            ∧ s'.2 = w.
Proof.
  intros H Hv. split; [by apply records_log_vote|].
  intros self voterId choice freeText Hf <- Hvalid.
  unfold hasVoted in Hv. rewrite (records_rows_of _ _ _ H) in Hv.
  destruct (castVote_duplicate voterId choice freeText (self, w) f data)
    as (s' & ? & ? & ? & _); eauto.
Qed.

Lemma log_vote_appends_duplicate_witness :
  records "data.csv" (working_store [["7"; "John"; "1"]]) = Some [["7"; "John"; "1"]]
  ∧ hasVoted "data.csv" (working_store [["7"; "John"; "1"]]) "7" = true
  ∧ records "data.csv"
      (FileManager.log_vote (FileManager.New "data.csv") "7" "Jane"
         (working_store [["7"; "John"; "1"]]))
    = Some [["7"; "John"; "1"]; ["7"; "Jane"; "2"]]
  ∧ ∃ s', castVote " 7 " (Some ProjectWindow.janeRadio) ""
            (window0, working_store [["7"; "John"; "1"]]) = Py.Return s'
          ∧ failed_with DuplicateVoterError
              (window0, working_store [["7"; "John"; "1"]]) s' = true
          ∧ s'.2 = working_store [["7"; "John"; "1"]].
Proof.
  split; [reflexivity|]. split; [reflexivity|].
  destruct (log_vote_appends_duplicate "data.csv"
              (working_store [["7"; "John"; "1"]]) [["7"; "John"; "1"]] "7" "Jane"
              eq_refl eq_refl) as [Happend Hcaller].
  split; [exact Happend|].
  exact (Hcaller window0 " 7 " (Some ProjectWindow.janeRadio) ""
           eq_refl eq_refl eq_refl).
Defined.

(** C2: on a store in working order, after any run of votes, result views and
    resets, once a vote with voter id [v1] has been accepted, and whatever
    votes and result views follow it (until the election is reset), a vote
    with the same voter id (up to surrounding white space) returns with the
    duplicate-voter dialog, changes nothing in the world, and the results
    read after it are the results read before it. *)
Theorem second_vote_rejected
    (before after : list action) (s0 s1 s2 s3 : app) (f : string)
    (data : list Csv.row) (v1 v2 t1 t2 : string)
    (c1 c2 : option ProjectWindow.radio) :
  ProjectWindow._file_manager s0.1 = FileManager.New f →
  records f s0.2 = Some data →
  run before s0 = Py.Return s1 →
  castVote v1 c1 t1 s1 = Py.Return s2 →
  succeeded s1 s2 = true →
  Forall (λ a, is_reset a = false) after →
  run after s2 = Py.Return s3 →
  Py.strip v2 = Py.strip v1 →
  ∃ s4,
    castVote v2 c2 t2 s3 = Py.Return s4
    ∧ failed_with DuplicateVoterError s3 s4 = true
    ∧ s4.2 = s3.2
    ∧ getResults s4 = getResults s3.
Proof.
  intros Hf0 H0 Hbefore Hcast Hok Hafter Hrun Hstrip.
  destruct (run_working before s0 f data Hf0 H0) as (s1' & data1 & Hb & Hf1 & H1).
  rewrite Hbefore in Hb. simplify_eq.
  destruct (castVote_working v1 c1 t1 s1' f data1 Hf1 H1) as (s2' & Hc & Hf2 & Hacc).
  rewrite Hcast in Hc. simplify_eq.
  destruct (accepts data1 v1 c1 t1) as [name|] eqn:Haccepts.
  2:{ destruct Hacc as [(message & Hshown & _) _].
      unfold succeeded in Hok. by rewrite Hshown in Hok. }
  destruct Hacc as [_ Hw2].
  assert (records f s2'.2 = Some (data1 ++ [vote_row (Py.strip v1) name data1])) as H2.
  { rewrite Hw2. by apply records_log_vote. }
  destruct (run_keeps_rows after s2' s3 f _ Hafter Hf2 H2 Hrun) as (more & H3 & Hf3).
  assert (valid_voter_id v2 = true) as Hvalid.
  { rewrite (valid_voter_id_strip v1 v2 Hstrip).
    unfold accepts in Haccepts. by destruct (valid_voter_id v1). }
  assert (ProjectWindow.voter_id_used (Py.strip v2)
            (FileManager.header :: (data1 ++ [vote_row (Py.strip v1) name data1]) ++ more)
          = true) as Hused.
  { rewrite Hstrip. apply voter_id_used_header.
    exists (vote_row (Py.strip v1) name data1). split; [|done].
    rewrite !elem_of_app, list_elem_of_singleton. auto. }
  destruct (castVote_duplicate v2 c2 t2 s3 f _ Hf3 H3 Hvalid Hused)
    as (s4 & Hs4 & Hfail & Hw4 & Hf4).
  exists s4. split; [done|]. split; [done|]. split; [done|].
  unfold getResults.
  rewrite (view_results_working s4.1 s4.2 f _) by (by rewrite ?Hw4, ?Hf4).
  by rewrite (view_results_working s3.1 s3.2 f _) by done.
Qed.

Lemma second_vote_rejected_witness :
  ∃ s4,
    castVote "1" (Some ProjectWindow.johnRadio) ""
      (window_after_two_votes, store_after_two_votes) = Py.Return s4
    ∧ failed_with DuplicateVoterError
        (window_after_two_votes, store_after_two_votes) s4 = true
    ∧ s4.2 = store_after_two_votes
    ∧ getResults s4
      = getResults (window_after_two_votes, store_after_two_votes).
Proof.
  apply (second_vote_rejected
           [ViewResults]
           [Vote "2" (Some ProjectWindow.johnRadio) ""; ViewResults]
           (window0, working_store [])
           (window0, working_store [])
           (ProjectWindow.idInput_clear
              (ProjectWindow.setText "Thank you for voting for Jane!"
                 (fill_form "1" (Some ProjectWindow.janeRadio) "" window0)),
            working_store [["1"; "Jane"; "1"]])
           (window_after_two_votes, store_after_two_votes)
           "data.csv" [] "1" "1" "" "" (Some ProjectWindow.janeRadio)
           (Some ProjectWindow.johnRadio)).
  - reflexivity.
  - reflexivity.
  - reflexivity.
  - reflexivity.
  - reflexivity.
  - repeat constructor.
  - reflexivity.
  - reflexivity.
Defined.

(** C3 does not hold of the source: an I/O failure while appending or
    resetting is printed on the console and the caller is told the operation
    succeeded.  With ['data.csv'] read-only, a valid vote for Jane is
    answered "Thank you for voting for Jane!", without an error dialog, and
    no record is written.  With a directory from which ['data.csv'] cannot be
    removed, the reset is answered "Votes reset successfully!" and the vote
    already recorded is still counted afterwards. *)
Theorem io_failure_reported_as_success :
  (∃ s',
     castVote "1" (Some ProjectWindow.janeRadio) "" (window0, read_only_store)
     = Py.Return s'
     ∧ succeeded (window0, read_only_store) s' = true
     ∧ ProjectWindow.label s'.1 = "Thank you for voting for Jane!"
     ∧ disk s'.2 = disk read_only_store
     ∧ console s'.2 = [Error_writing_to_file OS.PermissionError])
  ∧ (ProjectWindow.label (resetElection (window0, locked_directory_store)).1
     = "Votes reset successfully!"
     ∧ ProjectWindow.dialogs (resetElection (window0, locked_directory_store)).1 = []
     ∧ disk (resetElection (window0, locked_directory_store)).2
       = disk locked_directory_store
     ∧ console (resetElection (window0, locked_directory_store)).2
       = [Error_deleting_file OS.PermissionError]
     ∧ ∃ m, getResults (resetElection (window0, locked_directory_store))
            = Py.Return (1, m)).
Proof.
  split.
  - eexists. split; [reflexivity|]. repeat split; reflexivity.
  - repeat split; try reflexivity. eexists. reflexivity.
Qed.

(** *** Counting accepted votes *)

Lemma accepts_fresh data voterId choice freeText name :
  valid_voter_id voterId = true →
  ProjectWindow.voter_id_used (Py.strip voterId) (FileManager.header :: data) = false →
  candidate_of choice freeText = Some name →
  accepts data voterId choice freeText = Some name.
Proof. unfold accepts. by intros -> -> ->. Qed.

Lemma voter_id_unused_snoc v v' c data :
  v ≠ v' →
  ProjectWindow.voter_id_used v (FileManager.header :: data) = false →
  ProjectWindow.voter_id_used v
    (FileManager.header :: data ++ [vote_row v' c data]) = false.
Proof.
  intros Hne Hunused.
  destruct (ProjectWindow.voter_id_used v
              (FileManager.header :: data ++ [vote_row v' c data])) eqn:Hused; [|done].
  apply voter_id_used_header in Hused as (r & Hr & Hhead).
  apply elem_of_app in Hr as [Hr|Hr].
  - assert (ProjectWindow.voter_id_used v (FileManager.header :: data) = true)
      as Hyes by (apply voter_id_used_header; eauto).
    by rewrite Hyes in Hunused.
  - apply list_elem_of_singleton in Hr as ->. simpl in Hhead. by simplify_eq.
Qed.

Lemma nonblank_vote_row v c data :
  nonblank [vote_row v c data] = [vote_row v c data].
Proof. reflexivity. Qed.

Lemma length_nonblank_snoc data v c :
  length (nonblank (data ++ [vote_row v c data])) = S (length (nonblank data)).
Proof.
  rewrite nonblank_app, length_app, nonblank_vote_row. simpl. lia.
Qed.

(** C4: on a store in working order that holds [data], after any sequence of
    [castVote] calls (result views may be interleaved; no reset), the run
    returns and the total reported by [getResults] is the number of records
    the store held before plus the number of [castVote] calls that
    succeeded; from an empty store it is the number of successful calls.
    This holds whether or not the voter ids are pairwise distinct: a call
    with an id already used fails and is not counted. *)
Theorem total_counts_successes (acts : list action) (s : app) (f : string)
    (data : list Csv.row) :
  ProjectWindow._file_manager s.1 = FileManager.New f →
  records f s.2 = Some data →
  Forall (λ a, is_reset a = false) acts →
  ∃ s' m,
    run acts s = Py.Return s'
    ∧ getResults s'
      = Py.Return (Z.of_nat (length (nonblank data) + successes acts s), m).
Proof.
  intros Hf H Hacts. revert s data Hf H.
  induction Hacts as [|a acts Ha _ IH]; intros s data Hf H.
  - exists s. eexists. split; [done|]. unfold getResults.
    rewrite (view_results_working _ _ f data) by done. simpl.
    by rewrite Nat.add_0_r.
  - destruct (step_working a s f data Hf H) as (s1 & data1 & Hs & Hf1 & H1 & Hstep).
    destruct (IH s1 data1 Hf1 H1) as (s' & m & Hrun & Hres).
    exists s', m. simpl. rewrite Hs. split; [done|]. rewrite Hres.
    do 3 f_equal.
    destruct a as [voterId choice freeText| |]; [| |done].
    + destruct (accepts data voterId choice freeText) as [name|].
      * destruct Hstep as [-> ->]. rewrite length_nonblank_snoc. simpl. lia.
      * destruct Hstep as (-> & -> & _). simpl. lia.
    + destruct Hstep as [-> ->]. simpl. lia.
Qed.

Lemma total_counts_successes_witness :
  ∃ s' m,
    run [Vote "1" (Some ProjectWindow.janeRadio) "";
         Vote "2" (Some ProjectWindow.johnRadio) "";
         Vote "3" (Some ProjectWindow.janeRadio) ""]
        (window0, working_store []) = Py.Return s'
    ∧ getResults s'
      = Py.Return
          (Z.of_nat
             (length (nonblank [])
              + successes
                  [Vote "1" (Some ProjectWindow.janeRadio) "";
                   Vote "2" (Some ProjectWindow.johnRadio) "";
                   Vote "3" (Some ProjectWindow.janeRadio) ""]
                  (window0, working_store [])), m).
Proof.
  apply (total_counts_successes _ (window0, working_store []) "data.csv" []).
  - reflexivity.
  - reflexivity.
  - repeat constructor.
Defined.

(** With C4's premise spelled out: when the votes are valid, their voter ids
    pairwise distinct and carried by no record, every call succeeds, so the
    total is the number of calls (plus the records held before). *)
Lemma distinct_valid_votes_all_succeed (acts : list action) (s : app)
    (f : string) (data : list Csv.row) :
  ProjectWindow._file_manager s.1 = FileManager.New f →
  records f s.2 = Some data →
  Forall (λ a, well_formed a = true) acts →
  NoDup (voter_ids acts) →
  Forall (λ v, ProjectWindow.voter_id_used v (FileManager.header :: data) = false)
         (voter_ids acts) →
  successes acts s = length acts.
Proof.
  intros Hf H Hacts. revert s data Hf H.
  induction Hacts as [|a acts Ha _ IH]; intros s data Hf H Hnodup Hfresh; [done|].
  destruct a as [voterId choice freeText| |]; [|done..].
  simpl in Ha. apply andb_true_iff in Ha as [Hvalid Hcand].
  apply bool_decide_eq_true in Hcand as [name Hname].
  change (voter_ids (Vote voterId choice freeText :: acts))
    with (Py.strip voterId :: voter_ids acts) in *.
  apply NoDup_cons in Hnodup as [Hnotin Hnodup].
  apply Forall_cons in Hfresh as [Hfresh1 Hfresh].
  destruct (step_working (Vote voterId choice freeText) s f data Hf H)
    as (s1 & data1 & Hs & Hf1 & H1 & Hstep).
  rewrite (accepts_fresh _ _ _ _ name) in Hstep by done.
  destruct Hstep as [-> Hok].
  cbn [successes]. rewrite Hs, Hok. simpl. f_equal.
  apply (IH s1 _ Hf1 H1 Hnodup).
  apply Forall_forall. intros v Hv.
  apply voter_id_unused_snoc.
  - intros ->. done.
  - by eapply Forall_forall in Hfresh.
Qed.

(** The scenario of the specification: three votes by three voters. *)
Example three_votes_scenario :
  ∃ s',
    run [Vote "1" (Some ProjectWindow.janeRadio) "";
         Vote "2" (Some ProjectWindow.johnRadio) "";
         Vote "3" (Some ProjectWindow.janeRadio) ""]
        (window0, working_store []) = Py.Return s'
    ∧ successes [Vote "1" (Some ProjectWindow.janeRadio) "";
                 Vote "2" (Some ProjectWindow.johnRadio) "";
                 Vote "3" (Some ProjectWindow.janeRadio) ""]
        (window0, working_store []) = 3%nat
    ∧ getResults s'
      = Py.Return (3, <[Some "John" := 1]> (<[Some "Jane" := 2]> ∅)).
Proof. eexists. split; [reflexivity|]. split; reflexivity. Qed.

(** *** Sequence numbers *)

Lemma str_inj : Inj (=) (=) Py.str.
Proof. unfold Py.str. apply _. Qed.

Lemma NoDup_numerals (k n : nat) :
  NoDup ((λ i, Some (Py.str i)) <$> seq k n).
Proof.
  apply NoDup_fmap_2; [|apply NoDup_seq].
  intros i j Hij. apply str_inj. congruence.
Qed.

Lemma log_votes_numbered (f : string) (w : world) (data : list Csv.row)
    (votes : list (string * string)) :
  records f w = Some data →
  ∃ new,
    records f (log_votes (FileManager.New f) votes w) = Some (data ++ new)
    ∧ length new = length votes
    ∧ (∀ i v c,
         votes !! i = Some (v, c) →
         new !! i = Some [v; c; Py.str (length (nonblank data) + i + 1)])
    ∧ sequence_numbers new
      = (λ n, Some (Py.str n)) <$> seq (length (nonblank data) + 1) (length votes).
Proof.
  revert w data. induction votes as [|[v c] votes IH]; intros w data H.
  - exists []. rewrite app_nil_r. simpl. split; [done|]. split; [done|].
    split; [by intros i ? ? ?|done].
  - pose proof (records_log_vote f v c w data H) as H1.
    destruct (IH _ _ H1) as (new & Hrec & Hlen & Hrows & Hseq).
    rewrite length_nonblank_snoc in Hrows, Hseq.
    exists (vote_row v c data :: new).
    split; [|split; [|split]].
    + change (log_votes (FileManager.New f) ((v, c) :: votes) w)
        with (log_votes (FileManager.New f) votes
                (FileManager.log_vote (FileManager.New f) v c w)).
      rewrite Hrec. by rewrite <-app_assoc.
    + simpl. by rewrite Hlen.
    + intros [|i] v' c' Hi.
      * simpl in Hi. simplify_eq. simpl. unfold vote_row.
        by rewrite Nat.add_0_r.
      * change (votes !! i = Some (v', c')) in Hi.
        change (new !! i
                = Some [v'; c'; Py.str (length (nonblank data) + S i + 1)]).
        rewrite (Hrows i v' c' Hi).
        by replace (S (length (nonblank data)) + i + 1)%nat
          with (length (nonblank data) + S i + 1)%nat by lia.
    + unfold sequence_numbers in *. rewrite fmap_cons, Hseq. simpl.
      by rewrite Nat.add_1_r.
Qed.

(** C5.  (1) [log_vote] gives the record it appends the sequence number
    "number of records in the store plus one": on a readable and writable
    file whose header has the voter id column and that holds [k] records, the
    row appended carries [k + 1].  (2) When the file does not exist yet it is
    created with the header and the record numbered 1.  (3) Hence, on a store
    in working order that holds [k] records, any sequence of appends adds, in
    order, one record per append, the [i]-th of them (from 0) numbered
    [k + i + 1]: the sequence numbers of the added records are
    [k+1, k+2, ...] without gap, and no number is used twice. *)
Theorem sequence_numbers_consecutive :
  (∀ (f : string) (w : world) (h : Csv.row) (data : list Csv.row) (v c : string),
     OS.entries (disk w) !! OS.resolve (disk w) f = Some (OS.File true true (h :: data)) →
     "VoterID" ∈ h →
     OS.rows_of (disk (FileManager.log_vote (FileManager.New f) v c w)) f
     = h :: data ++ [[v; c; Py.str (length (nonblank data) + 1)]])
  ∧ (∀ (f : string) (w : world) (v c : string),
       OS.entries (disk w) !! OS.resolve (disk w) f = None →
       OS.dir_writable (disk w) = true →
       OS.rows_of (disk (FileManager.log_vote (FileManager.New f) v c w)) f
       = [FileManager.header; [v; c; Py.str 1]])
  ∧ (∀ (f : string) (w : world) (data : list Csv.row)
       (votes : list (string * string)),
       records f w = Some data →
       ∃ new,
         records f (log_votes (FileManager.New f) votes w) = Some (data ++ new)
         ∧ length new = length votes
         ∧ (∀ i v c,
              votes !! i = Some (v, c) →
              new !! i = Some [v; c; Py.str (length (nonblank data) + i + 1)])
         ∧ sequence_numbers new
           = (λ n, Some (Py.str n))
               <$> seq (length (nonblank data) + 1) (length votes)
         ∧ NoDup (sequence_numbers new)).
Proof.
  split; [|split].
  - intros f w h data v c H Hh. rewrite (log_vote_appends _ _ _ _ h data) by done.
    unfold OS.rows_of. simpl. by rewrite lookup_insert_eq.
  - intros f w v c. apply log_vote_creates.
  - intros f w data votes H.
    destruct (log_votes_numbered f w data votes H)
      as (new & Hrec & Hlen & Hrows & Hseq).
    exists new. do 4 (split; [done|]). rewrite Hseq. apply NoDup_numerals.
Qed.

Lemma sequence_numbers_consecutive_witness :
  OS.rows_of
    (disk (FileManager.log_vote (FileManager.New "data.csv") "2" "John"
             (working_store [["1"; "Jane"; "1"]]))) "data.csv"
  = FileManager.header
    :: [["1"; "Jane"; "1"]]
       ++ [["2"; "John"; Py.str (length (nonblank [["1"; "Jane"; "1"]]) + 1)]]
  ∧ OS.rows_of
      (disk (FileManager.log_vote (FileManager.New "data.csv") "1" "Jane"
               empty_directory)) "data.csv"
    = [FileManager.header; ["1"; "Jane"; Py.str 1]]
  ∧ ∃ new,
      records "data.csv"
        (log_votes (FileManager.New "data.csv")
           [("1", "Jane"); ("2", "John"); ("3", "Bob")] (working_store []))
      = Some ([] ++ new)
      ∧ length new = 3%nat
      ∧ (∀ i v c,
           [("1", "Jane"); ("2", "John"); ("3", "Bob")] !! i = Some (v, c) →
           new !! i = Some [v; c; Py.str (length (nonblank []) + i + 1)])
      ∧ sequence_numbers new
        = (λ n, Some (Py.str n)) <$> seq (length (nonblank []) + 1) 3
      ∧ NoDup (sequence_numbers new).
Proof.
  destruct sequence_numbers_consecutive as (Hone & Hfirst & Hseq).
  split; [|split].
  - apply (Hone "data.csv" (working_store [["1"; "Jane"; "1"]]) FileManager.header);
      [reflexivity|constructor].
  - apply (Hfirst "data.csv" empty_directory); reflexivity.
  - apply (Hseq "data.csv" (working_store []) []
             [("1", "Jane"); ("2", "John"); ("3", "Bob")]).
    reflexivity.
Defined.

(** The sequence numbers of three votes into an empty store, written out. *)
Example three_sequence_numbers :
  sequence_numbers
    (tail (OS.rows_of
             (disk (log_votes (FileManager.New "data.csv")
                      [("1", "Jane"); ("2", "John"); ("3", "Bob")]
                      (working_store []))) "data.csv"))
  = [Some "1"; Some "2"; Some "3"].
Proof. reflexivity. Qed.

(** *** What [read_results] returns when nothing is recorded *)

Lemma delete_Total_initial_results :
  delete (Some "Total") FileManager.initial_results = FileManager.initial_results.
Proof. by apply delete_id. Qed.

(** C6, as stated, fails: on a store without a record the mapping
    [read_results] returns is not empty; it holds the two default candidates,
    each at 0, besides the total 0. *)
Lemma empty_store_tally_counterexample :
  store_rows "data.csv" (working_store []) = []
  ∧ ∃ m,
      FileManager.read_results (FileManager.New "data.csv") (working_store [])
      = (Py.Return m, working_store [])
      ∧ m !! Some "Total" = Some 0
      ∧ m !! Some "Jane" = Some 0
      ∧ m !! Some "John" = Some 0
      ∧ delete (Some "Total") m ≠ ∅.
Proof.
  split; [reflexivity|]. eexists. split; [reflexivity|].
  split; [reflexivity|]. split; [reflexivity|]. split; [reflexivity|].
  intros Hempty.
  apply (f_equal (λ m : FileManager.results, m !! Some "Jane")) in Hempty.
  rewrite lookup_empty in Hempty. discriminate Hempty.
Qed.

(** C6, amended: when the store can be read and holds no vote record,
    [read_results] returns the total 0 and a mapping that holds exactly the
    two default candidates, Jane and John, each at 0; [view_results] shows
    that total and that mapping. *)
Theorem read_results_no_records (self : ProjectWindow.t) (w : world)
    (f : string) (rows : list Csv.row) :
  ProjectWindow._file_manager self = FileManager.New f →
  OS.open_r (disk w) f = inr rows →
  Csv.DictReader rows = [] →
  FileManager.read_results (FileManager.New f) w
  = (Py.Return (<[Some "Total" := 0]> (<[Some "John" := 0]> (<[Some "Jane" := 0]> ∅))),
     w)
  ∧ ProjectWindow.view_results self w
    = (Py.Return (0, <[Some "John" := 0]> (<[Some "Jane" := 0]> ∅)), w).
Proof.
  intros Hf Hopen Hrows.
  assert (FileManager.read_results (FileManager.New f) w
          = (Py.Return (<[Some "Total" := 0]> FileManager.initial_results), w))
    as Hread.
  { unfold FileManager.read_results. simpl. by rewrite Hopen, Hrows. }
  split; [exact Hread|].
  unfold ProjectWindow.view_results. rewrite Hf, Hread.
  rewrite lookup_insert_eq, delete_insert_eq. simpl.
  by rewrite delete_Total_initial_results.
Qed.

Lemma read_results_no_records_witness :
  FileManager.read_results (FileManager.New "data.csv") (working_store [[]; []])
  = (Py.Return (<[Some "Total" := 0]> (<[Some "John" := 0]> (<[Some "Jane" := 0]> ∅))),
     working_store [[]; []])
  ∧ ProjectWindow.view_results window0 (working_store [[]; []])
    = (Py.Return (0, <[Some "John" := 0]> (<[Some "Jane" := 0]> ∅)),
       working_store [[]; []]).
Proof.
  apply (read_results_no_records window0 (working_store [[]; []]) "data.csv"
           [FileManager.header; []; []]); reflexivity.
Defined.

(** *** Invariants of the loop of [read_results], on any file *)

Section read_rows_invariants.
Implicit Types (res : FileManager.results) (t : Z)
  (row : gmap string (option string)) (rows : list (gmap string (option string))).

Lemma read_row_cases row res t res' t' :
  FileManager.read_row (res, t) row = Py.Return (res', t') →
  (∃ jane john, res' = <[Some "John" := john]> (<[Some "Jane" := jane]> res))
  ∨ (∃ vote, row !! "Vote" = Some vote
             ∧ res' = <[vote := default 0 (res !! vote) + 1]> res)
  ∨ res' = res.
Proof.
  unfold FileManager.read_row.
  destruct (Csv.has_key "Jane" row && Csv.has_key "John" row
            && Csv.has_key "Total" row && negb (Csv.has_key "VoterID" row)).
  - destruct (FileManager.int_field "Jane" row) as [jane|]; [|done].
    destruct (FileManager.int_field "John" row) as [john|]; [|done].
    destruct (FileManager.int_field "Total" row) as [total|]; [|done].
    intros ?; simplify_eq. left. eauto.
  - destruct (row !! "Vote") as [vote|]; intros ?; simplify_eq.
    + right. left. eauto.
    + by right; right.
Qed.

Lemma read_row_has_defaults row res t res' t' :
  FileManager.read_row (res, t) row = Py.Return (res', t') →
  has_defaults res → has_defaults res'.
Proof.
  intros Hrow [HJane HJohn]. unfold has_defaults.
  destruct (read_row_cases _ _ _ _ _ Hrow)
    as [(jane & john & ->)|[(vote & _ & ->)| ->]];
    rewrite ?lookup_insert_is_Some; auto 10.
  split; [destruct (decide (vote = Some "Jane")); auto
         |destruct (decide (vote = Some "John")); auto].
Qed.

Lemma read_row_write_ins all row res t res' t' :
  FileManager.read_row (res, t) row = Py.Return (res', t') →
  row ∈ all →
  write_ins_voted all res → write_ins_voted all res'.
Proof.
  intros Hrow Hin Hinv k n Hk HJane HJohn.
  destruct (read_row_cases _ _ _ _ _ Hrow)
    as [(? & ? & ->)|[(vote & Hvote & ->)| ->]].
  - rewrite !lookup_insert_ne in Hk by done. by apply Hinv.
  - destruct (decide (vote = k)) as [->|Hne].
    + rewrite lookup_insert_eq in Hk. simplify_eq. split; [|eauto].
      destruct (res !! k) as [n0|] eqn:Hn0; simpl; [|lia].
      destruct (Hinv k n0 Hn0 HJane HJohn). lia.
    + rewrite lookup_insert_ne in Hk by done. by apply Hinv.
  - by apply Hinv.
Qed.

Lemma read_rows_invariants all rows res t res' t' :
  FileManager.read_rows (res, t) rows = Py.Return (res', t') →
  (∀ row, row ∈ rows → row ∈ all) →
  has_defaults res → write_ins_voted all res →
  has_defaults res' ∧ write_ins_voted all res'.
Proof.
  revert res t. induction rows as [|row rows IH]; intros res t Hrun Hsub Hd Hw.
  - simpl in Hrun. by simplify_eq.
  - cbn [FileManager.read_rows] in Hrun.
    destruct (FileManager.read_row (res, t) row) as [[res1 t1]|] eqn:Hrow; [|done].
    apply (IH res1 t1 Hrun).
    + intros r Hr. apply Hsub. by right.
    + by eapply read_row_has_defaults.
    + eapply read_row_write_ins; [done| |done]. apply Hsub. by left.
Qed.

Lemma initial_results_has_defaults : has_defaults FileManager.initial_results.
Proof. split; by eexists. Qed.

Lemma initial_results_write_ins all : write_ins_voted all FileManager.initial_results.
Proof.
  intros k n Hk HJane HJohn. unfold FileManager.initial_results in Hk.
  rewrite !lookup_insert_ne in Hk by done. by rewrite lookup_empty in Hk.
Qed.

End read_rows_invariants.

(** *** Results after a reset *)

Lemma getResults_after_reset (s : app) :
  ProjectWindow._file_manager s.1 = FileManager.New "data.csv" →
  OS.dir_writable (disk s.2) = true →
  getResults (resetElection s) = Py.Return (0, FileManager.initial_results).
Proof.
  destruct s as [self w]. simpl. intros Hf Hd.
  unfold getResults, resetElection, ProjectWindow.reset_votes. cbn [fst snd].
  rewrite Hf. unfold FileManager.reset_counts, OS.remove.
  destruct (OS.entries (disk w) !! OS.resolve (disk w) "data.csv") as [[rd wr rows|]|] eqn:He.
  - rewrite Hd, ensure_file_exists_absent; simpl; [|apply lookup_delete_eq|done].
    erewrite (view_results_working _ _ "data.csv" []);
      [|done|apply records_intro; simpl; [apply lookup_insert_eq|done]].
    simpl. by rewrite delete_Total_initial_results.
  - rewrite ensure_file_exists_present by (simpl; rewrite He; eauto).
    unfold ProjectWindow.view_results, FileManager.read_results, OS.open_r.
    cbn [ProjectWindow._file_manager ProjectWindow.setText].
    rewrite Hf. simpl. rewrite He. simpl.
    by rewrite delete_Total_initial_results.
  - rewrite ensure_file_exists_absent by done.
    erewrite (view_results_working _ _ "data.csv" []);
      [|done|apply records_intro; simpl; [apply lookup_insert_eq|done]].
    simpl. by rewrite delete_Total_initial_results.
Qed.

(** C7.  (1) In every state in which [getResults] returns, its mapping has an
    entry for Jane and one for John, and every other entry has a count of at
    least 1 and is the vote field of some row read from the store.  (2) On a
    store in working order [getResults] returns, the entry of each default
    candidate is the number of its votes (0 without any), and a write-in has
    an entry exactly when it has a vote.  (3) After [resetElection] on
    ['data.csv'], [getResults] gives Jane 0, John 0 and the total 0. *)
Theorem results_defaults_and_write_ins :
  (∀ (s : app) total m,
     getResults s = Py.Return (total, m) →
     is_Some (m !! Some "Jane") ∧ is_Some (m !! Some "John")
     ∧ ∀ k n, m !! k = Some n → k ≠ Some "Jane" → k ≠ Some "John" →
         1 ≤ n
         ∧ ∃ rows row,
             OS.open_r (disk s.2)
               (FileManager._filename (ProjectWindow._file_manager s.1)) = inr rows
             ∧ row ∈ Csv.DictReader rows
             ∧ row !! "Vote" = Some k)
  ∧ (∀ (s : app) f data,
       ProjectWindow._file_manager s.1 = FileManager.New f →
       records f s.2 = Some data →
       ∃ m,
         getResults s = Py.Return (Z.of_nat (length (nonblank data)), m)
         ∧ m !! Some "Jane" = Some (votes_for (Some "Jane") (nonblank data))
         ∧ m !! Some "John" = Some (votes_for (Some "John") (nonblank data))
         ∧ ∀ k, k ≠ Some "Jane" → k ≠ Some "John" → k ≠ Some "Total" →
             m !! k = if decide (votes_for k (nonblank data) = 0) then None
                      else Some (votes_for k (nonblank data)))
  ∧ (∀ s : app,
       ProjectWindow._file_manager s.1 = FileManager.New "data.csv" →
       OS.dir_writable (disk s.2) = true →
       getResults (resetElection s)
       = Py.Return (0, <[Some "John" := 0]> (<[Some "Jane" := 0]> ∅))).
Proof.
  split; [|split].
  - intros [self w] total m. unfold getResults, ProjectWindow.view_results,
      FileManager.read_results. simpl.
    destruct (OS.open_r (disk w) _) as [e|rows] eqn:Hopen; simpl.
    + intros ?; simplify_eq. rewrite delete_Total_initial_results.
      destruct initial_results_has_defaults as [? ?]. split; [done|]. split; [done|].
      intros k n Hk HJane HJohn.
      destruct (initial_results_write_ins [] k n Hk HJane HJohn)
        as [_ (row & Hrow & _)].
      by apply elem_of_nil in Hrow.
    + destruct (FileManager.read_rows _ _) as [[res t]|] eqn:Hrows; simpl; [|done].
      intros ?; simplify_eq.
      destruct (read_rows_invariants (Csv.DictReader rows) _ _ _ _ _ Hrows)
        as [[HJane HJohn] Hw];
        [done|apply initial_results_has_defaults|apply initial_results_write_ins|].
      rewrite delete_insert_eq.
      split; [by rewrite lookup_delete_ne|]. split; [by rewrite lookup_delete_ne|].
      intros k n Hk HkJane HkJohn.
      destruct (decide (k = Some "Total")) as [->|Hne];
        [by rewrite lookup_delete_eq in Hk|].
      rewrite lookup_delete_ne in Hk by done.
      destruct (Hw k n Hk HkJane HkJohn) as [Hn (row & Hrow & Hvote)].
      split; [done|]. by exists rows, row.
  - intros [self w] f data Hf H. simpl in *. unfold getResults. simpl.
    rewrite (view_results_working _ _ f data) by done. simpl.
    eexists. split; [reflexivity|].
    rewrite !lookup_delete_ne by done. rewrite !tally_lookup.
    split; [|split].
    + case_decide as Hz; [by rewrite Hz|]. simpl; f_equal; lia.
    + case_decide as Hz; [by rewrite Hz|]. simpl; f_equal; lia.
    + intros k HJane HJohn HTotal. rewrite lookup_delete_ne by done.
      rewrite tally_lookup. unfold FileManager.initial_results.
      rewrite !lookup_insert_ne, lookup_empty by done.
      case_decide; [done|]. simpl; f_equal; lia.
  - apply getResults_after_reset.
Qed.

Lemma results_defaults_and_write_ins_witness :
  (is_Some ((<[Some "Bob" := 1]> FileManager.initial_results) !! Some "Jane")
   ∧ is_Some ((<[Some "Bob" := 1]> FileManager.initial_results) !! Some "John")
   ∧ ∀ k n,
       (<[Some "Bob" := 1]> FileManager.initial_results) !! k = Some n →
       k ≠ Some "Jane" → k ≠ Some "John" →
       1 ≤ n
       ∧ ∃ rows row,
           OS.open_r (disk (working_store [["1"; "Bob"; "1"]])) "data.csv" = inr rows
           ∧ row ∈ Csv.DictReader rows
           ∧ row !! "Vote" = Some k)
  ∧ (∃ m,
     getResults (window0, working_store [["1"; "Bob"; "1"]])
     = Py.Return (Z.of_nat (length (nonblank [["1"; "Bob"; "1"]])), m)
     ∧ m !! Some "Jane" = Some (votes_for (Some "Jane") (nonblank [["1"; "Bob"; "1"]]))
     ∧ m !! Some "John" = Some (votes_for (Some "John") (nonblank [["1"; "Bob"; "1"]]))
     ∧ ∀ k, k ≠ Some "Jane" → k ≠ Some "John" → k ≠ Some "Total" →
         m !! k
         = if decide (votes_for k (nonblank [["1"; "Bob"; "1"]]) = 0) then None
           else Some (votes_for k (nonblank [["1"; "Bob"; "1"]])))
  ∧ getResults (resetElection (window0, working_store [["1"; "Bob"; "1"]]))
    = Py.Return (0, <[Some "John" := 0]> (<[Some "Jane" := 0]> ∅)).
Proof.
  destruct results_defaults_and_write_ins as (Hany & Hworking & Hreset).
  split; [|split].
  - apply (Hany (window0, working_store [["1"; "Bob"; "1"]]) 1
             (<[Some "Bob" := 1]> FileManager.initial_results)).
    reflexivity.
  - apply (Hworking (window0, working_store [["1"; "Bob"; "1"]]) "data.csv");
      reflexivity.
  - apply (Hreset (window0, working_store [["1"; "Bob"; "1"]])); reflexivity.
Defined.

Section strip_facts.
Implicit Types (s t : string) (c : ascii).

Lemma lstrip_nil_iff s : Py.lstrip s = "" ↔ all_space s = true.
Proof.
  induction s as [|c s IH]; simpl; [done|].
  destruct (Py.isspace c); simpl; [done|]. split; discriminate.
Qed.

(** The result of [lstrip] is empty or starts with a character that is not
    white space. *)
Lemma lstrip_head s :
  Py.lstrip s = "" ∨ ∃ c t, Py.lstrip s = String c t ∧ Py.isspace c = false.
Proof.
  induction s as [|c s IH]; simpl; [by left|].
  destruct (Py.isspace c) eqn:Hc; [done|]. right. eauto.
Qed.

Lemma lstrip_all_space s : all_space (Py.lstrip s) = true → Py.lstrip s = "".
Proof.
  destruct (lstrip_head s) as [->|(c & t & -> & Hc)]; [done|].
  simpl. by rewrite Hc.
Qed.

Lemma all_space_rev_app s t :
  all_space (String.rev_app s t) = all_space s && all_space t.
Proof.
  revert t. induction s as [|c s IH]; intros t; simpl; [done|].
  rewrite IH. simpl. by destruct (Py.isspace c), (all_space s), (all_space t).
Qed.

Lemma all_space_rev s : all_space (String.rev s) = all_space s.
Proof. unfold String.rev. rewrite all_space_rev_app. simpl. apply andb_true_r. Qed.

Lemma rev_app_nil s t : String.rev_app s t = "" → s = "" ∧ t = "".
Proof.
  revert t. induction s as [|c s IH]; intros t; simpl; [done|].
  intros [_ ?]%IH. discriminate.
Qed.

Lemma rev_nil s : String.rev s = "" → s = "".
Proof. intros H. by apply rev_app_nil in H as [? _]. Qed.

Lemma strip_nil_iff s : Py.strip s = "" ↔ all_space s = true.
Proof.
  unfold Py.strip. split.
  - intros H%rev_nil. apply lstrip_nil_iff in H.
    rewrite all_space_rev in H. apply lstrip_all_space in H.
    by apply lstrip_nil_iff.
  - intros H%lstrip_nil_iff. by rewrite H.
Qed.

Lemma all_space_strip s : all_space (Py.strip s) = all_space s.
Proof.
  destruct (all_space s) eqn:Hs.
  - apply strip_nil_iff in Hs. by rewrite Hs.
  - destruct (all_space (Py.strip s)) eqn:Hs'; [|done].
    unfold Py.strip in Hs'. rewrite all_space_rev in Hs'.
    apply lstrip_all_space in Hs'.
    assert (Py.strip s = "") as Hnil by (unfold Py.strip; by rewrite Hs').
    apply strip_nil_iff in Hnil. congruence.
Qed.

End strip_facts.

Section int_facts.
Implicit Types (s t : string) (c : ascii) (n : Z).

(** The white space of [int] is white space for [str.strip]. *)
Lemma isspace_int_isspace c : Py.isspace_int c = true → Py.isspace c = true.
Proof. by destruct c as [[] [] [] [] [] [] [] []]. Qed.




Lemma no_space_rev_app s t :
  no_space (String.rev_app s t) = no_space s && no_space t.
Proof.
  revert t. induction s as [|c s IH]; intros t; simpl; [done|].
  rewrite IH. simpl. by destruct (Py.isspace c), (no_space s), (no_space t).
Qed.

Lemma rev_app_rev_app s t u :
  String.rev_app (String.rev_app s t) u = String.rev_app t (s +:+ u).
Proof.
  revert t u. induction s as [|c s IH]; intros t u; [done|].
  change (String.rev_app (String.rev_app s (String c t)) u
          = String.rev_app t (String c (s +:+ u))).
  by rewrite IH.
Qed.

Lemma rev_involutive s : String.rev (String.rev s) = s.
Proof.
  unfold String.rev. rewrite rev_app_rev_app. simpl.
  induction s as [|c s IH]; [done|].
  change (String c s +:+ "") with (String c (s +:+ "")). by rewrite IH.
Qed.

Lemma lstrip_int_no_space s : no_space s = true → Py.lstrip_int s = s.
Proof.
  destruct s as [|c s]; simpl; [done|]. intros [Hc _]%andb_true_iff.
  destruct (Py.isspace_int c) eqn:Hi; [|done].
  apply isspace_int_isspace in Hi. by rewrite Hi in Hc.
Qed.

(** The trimming of [int] leaves a text without white space as it is. *)
Lemma strip_int_no_space s : no_space s = true → Py.strip_int s = s.
Proof.
  intros Hs. unfold Py.strip_int. rewrite (lstrip_int_no_space s Hs).
  rewrite lstrip_int_no_space; [apply rev_involutive|].
  unfold String.rev. rewrite no_space_rev_app, Hs. done.
Qed.





End int_facts.

(** *** Invalid input *)

Section invalid_input.
Implicit Types (s : app) (self : ProjectWindow.t) (w : world).





End invalid_input.




(** *** Voter ids are compared as strings *)

Lemma vote_row_snoc v c v' c' data :
  vote_row v c (data ++ [vote_row v' c' data])
  = [v; c; Py.str (length (nonblank data) + 2)].
Proof.
  unfold vote_row at 1. rewrite length_nonblank_snoc.
  by replace (S (length (nonblank data)) + 1)%nat
    with (length (nonblank data) + 2)%nat by lia.
Qed.

(** C9.  The duplicate check compares the trimmed voter id with the first
    field of each record as text.  So on a store in working order two valid
    voter ids that differ as trimmed strings, neither carried by a record,
    are both accepted, one after the other, and recorded as two records with
    consecutive sequence numbers, even when they denote the same number, as
    ["1"] and ["01"] do. *)
Theorem voter_ids_compared_as_text (s : app) (f : string) (data : list Csv.row)
    (id1 id2 t1 t2 name1 name2 : string) (c1 c2 : option ProjectWindow.radio) :
  ProjectWindow._file_manager s.1 = FileManager.New f →
  records f s.2 = Some data →
  valid_voter_id id1 = true →
  valid_voter_id id2 = true →
  Py.strip id1 ≠ Py.strip id2 →
  ProjectWindow.voter_id_used (Py.strip id1) (FileManager.header :: data) = false →
  ProjectWindow.voter_id_used (Py.strip id2) (FileManager.header :: data) = false →
  candidate_of c1 t1 = Some name1 →
  candidate_of c2 t2 = Some name2 →
  (∀ v, ProjectWindow.voter_id_used v (FileManager.header :: data) = true
        ↔ ∃ r, r ∈ data ∧ head r = Some v)
  ∧ ∃ s1 s2,
      castVote id1 c1 t1 s = Py.Return s1
      ∧ succeeded s s1 = true
      ∧ castVote id2 c2 t2 s1 = Py.Return s2
      ∧ succeeded s1 s2 = true
      ∧ records f s2.2
        = Some (data ++ [[Py.strip id1; name1; Py.str (length (nonblank data) + 1)];
                         [Py.strip id2; name2; Py.str (length (nonblank data) + 2)]]).
Proof.
  intros Hf H Hv1 Hv2 Hne Hu1 Hu2 Hc1 Hc2.
  split; [intros v; apply voter_id_used_header|].
  destruct (castVote_working id1 c1 t1 s f data Hf H) as (s1 & Hs1 & Hf1 & Hacc1).
  rewrite (accepts_fresh _ _ _ _ name1) in Hacc1 by done.
  destruct Hacc1 as [Hshown1 Hw1].
  assert (records f s1.2 = Some (data ++ [vote_row (Py.strip id1) name1 data])) as H1.
  { rewrite Hw1. by apply records_log_vote. }
  destruct (castVote_working id2 c2 t2 s1 f _ Hf1 H1) as (s2 & Hs2 & Hf2 & Hacc2).
  rewrite (accepts_fresh _ _ _ _ name2) in Hacc2;
    [|done|by apply voter_id_unused_snoc|done].
  destruct Hacc2 as [Hshown2 Hw2].
  exists s1, s2. split; [done|].
  split; [unfold succeeded; by rewrite Hshown1|]. split; [done|].
  split; [unfold succeeded; by rewrite Hshown2|].
  rewrite Hw2, (records_log_vote _ _ _ _ _ H1).
  rewrite <-app_assoc, vote_row_snoc. reflexivity.
Qed.

Lemma voter_ids_compared_as_text_witness :
  Py.int "1" = Py.int "01"
  ∧ ∃ s1 s2,
      castVote "1" (Some ProjectWindow.janeRadio) "" (window0, working_store [])
      = Py.Return s1
      ∧ succeeded (window0, working_store []) s1 = true
      ∧ castVote "01" (Some ProjectWindow.janeRadio) "" s1 = Py.Return s2
      ∧ succeeded s1 s2 = true
      ∧ records "data.csv" s2.2
        = Some ([] ++ [[Py.strip "1"; "Jane"; Py.str (length (nonblank []) + 1)];
                       [Py.strip "01"; "Jane"; Py.str (length (nonblank []) + 2)]]).
Proof.
  split; [reflexivity|].
  apply (voter_ids_compared_as_text (window0, working_store []) "data.csv" []
           "1" "01" "" "" "Jane" "Jane"
           (Some ProjectWindow.janeRadio) (Some ProjectWindow.janeRadio));
    try reflexivity.
  discriminate.
Defined.

(** The two records of that run, written out. *)
Example one_and_zero_one :
  ∃ s, run [Vote "1" (Some ProjectWindow.janeRadio) "";
            Vote "01" (Some ProjectWindow.janeRadio) ""]
           (window0, working_store []) = Py.Return s
       ∧ OS.rows_of (disk s.2) "data.csv"
         = [FileManager.header; ["1"; "Jane"; "1"]; ["01"; "Jane"; "2"]].
Proof. eexists. split; reflexivity. Qed.

(** *** The path [reset_counts] removes *)

Section reset_path.
Implicit Types (f : string) (w : world).

(** The world after the first half of [reset_counts]: the attempt to remove
    ['data.csv']. *)
Lemma reset_counts_unfold f w :
  FileManager.reset_counts (FileManager.New f) w
  = FileManager._ensure_file_exists (FileManager.New f)
      match OS.remove (disk w) "data.csv" with
      | inr d => print File_deleted_successfully (on_disk d w)
      | inl e => print (Error_deleting_file e) w
      end.
Proof. reflexivity. Qed.

Lemma remove_other (g : string) w :
  g ≠ OS.resolve (disk w) "data.csv" →
  OS.entries
    (disk match OS.remove (disk w) "data.csv" with
          | inr d => print File_deleted_successfully (on_disk d w)
          | inl e => print (Error_deleting_file e) w
          end) !! g
  = OS.entries (disk w) !! g.
Proof.
  intros Hne. unfold OS.remove.
  destruct (OS.entries (disk w) !! OS.resolve (disk w) "data.csv")
    as [[rd wr rows|]|]; [|done..].
  destruct (OS.dir_writable (disk w)); [|done].
  simpl. by rewrite lookup_delete_ne.
Qed.

Lemma remove_dir_writable w :
  OS.dir_writable
    (disk match OS.remove (disk w) "data.csv" with
          | inr d => print File_deleted_successfully (on_disk d w)
          | inl e => print (Error_deleting_file e) w
          end)
  = OS.dir_writable (disk w).
Proof.
  unfold OS.remove.
  destruct (OS.entries (disk w) !! OS.resolve (disk w) "data.csv")
    as [[rd wr rows|]|]; [|done..].
  destruct (OS.dir_writable (disk w)) eqn:Hd; simpl; by rewrite ?Hd.
Qed.

Lemma remove_resolve w :
  OS.resolve
    (disk match OS.remove (disk w) "data.csv" with
          | inr d => print File_deleted_successfully (on_disk d w)
          | inl e => print (Error_deleting_file e) w
          end)
  = OS.resolve (disk w).
Proof.
  unfold OS.remove.
  destruct (OS.entries (disk w) !! OS.resolve (disk w) "data.csv")
    as [[rd wr rows|]|]; [|done..].
  by destruct (OS.dir_writable (disk w)).
Qed.

Lemma ensure_file_exists_other f g w :
  OS.resolve (disk w) f ≠ g →
  OS.entries (disk (FileManager._ensure_file_exists (FileManager.New f) w)) !! g
  = OS.entries (disk w) !! g.
Proof.
  intros Hne. unfold FileManager._ensure_file_exists, OS.open_w. simpl.
  destruct (OS.exists_ (disk w) f); [done|].
  destruct (OS.entries (disk w) !! OS.resolve (disk w) f) as [[rd [] rows|]|] eqn:He;
    try done.
  - unfold OS.writerow. simpl. rewrite lookup_insert_eq. simpl.
    by rewrite !lookup_insert_ne.
  - destruct (OS.dir_writable (disk w)); [|done].
    unfold OS.writerow. simpl. rewrite lookup_insert_eq. simpl.
    by rewrite !lookup_insert_ne.
Qed.

Lemma ensure_file_exists_resolve f w :
  OS.resolve (disk (FileManager._ensure_file_exists (FileManager.New f) w))
  = OS.resolve (disk w).
Proof.
  unfold FileManager._ensure_file_exists, OS.open_w. simpl.
  destruct (OS.exists_ (disk w) f); [done|].
  destruct (OS.entries (disk w) !! OS.resolve (disk w) f) as [[rd [] rows|]|] eqn:He;
    try done.
  - unfold OS.writerow. simpl. by rewrite lookup_insert_eq.
  - destruct (OS.dir_writable (disk w)); [|done].
    unfold OS.writerow. simpl. by rewrite lookup_insert_eq.
Qed.

End reset_path.

(** C10, as stated, fails: what counts is the file a path denotes, not the
    text of the path.  ['./data.csv'] is not the text ['data.csv'] and
    denotes the same file, so the store of a file manager constructed with
    ['./data.csv'] loses its records by a reset. *)
Lemma reset_wipes_alias_counterexample :
  "./data.csv" ≠ "data.csv"
  ∧ records "./data.csv" (working_store [["1"; "Jane"; "1"]])
    = Some [["1"; "Jane"; "1"]]
  ∧ records "./data.csv"
      (FileManager.reset_counts (FileManager.New "./data.csv")
         (working_store [["1"; "Jane"; "1"]]))
    = Some [].
Proof. split; [discriminate|]. split; reflexivity. Qed.

(** C10, amended.  [reset_counts] removes the fixed path ['data.csv'],
    whatever file name the file manager was constructed with, and then makes
    sure the constructed file exists.  For a file manager whose file name
    [f] denotes another file than ['data.csv'] does: ['data.csv'], when it
    is a file that can be removed, is gone after the reset; the file [f],
    when it exists, is left exactly as it was, records included; when [f]
    does not exist it is created with the header only.  For a file manager
    whose file name denotes the file ['data.csv'] denotes, under whatever
    spelling, the removed file is created again with the header only. *)
Theorem reset_counts_fixed_path (f : string) (w : world) :
  (OS.resolve (disk w) f ≠ OS.resolve (disk w) "data.csv" →
   ∀ rd wr rows,
     OS.entries (disk w) !! OS.resolve (disk w) "data.csv"
     = Some (OS.File rd wr rows) →
     OS.dir_writable (disk w) = true →
     OS.entries (disk (FileManager.reset_counts (FileManager.New f) w))
       !! OS.resolve (disk w) "data.csv"
     = None)
  ∧ (OS.resolve (disk w) f ≠ OS.resolve (disk w) "data.csv" →
     is_Some (OS.entries (disk w) !! OS.resolve (disk w) f) →
     OS.entries (disk (FileManager.reset_counts (FileManager.New f) w))
       !! OS.resolve (disk w) f
     = OS.entries (disk w) !! OS.resolve (disk w) f)
  ∧ (OS.resolve (disk w) f ≠ OS.resolve (disk w) "data.csv" →
     OS.entries (disk w) !! OS.resolve (disk w) f = None →
     OS.dir_writable (disk w) = true →
     OS.entries (disk (FileManager.reset_counts (FileManager.New f) w))
       !! OS.resolve (disk w) f
     = Some (OS.File true true [FileManager.header]))
  ∧ (OS.resolve (disk w) f = OS.resolve (disk w) "data.csv" →
     ∀ rd wr rows,
       OS.entries (disk w) !! OS.resolve (disk w) "data.csv"
       = Some (OS.File rd wr rows) →
       OS.dir_writable (disk w) = true →
       OS.entries (disk (FileManager.reset_counts (FileManager.New f) w))
         !! OS.resolve (disk w) f
       = Some (OS.File true true [FileManager.header]))
  ∧ OS.resolve (disk (FileManager.reset_counts (FileManager.New f) w))
    = OS.resolve (disk w).
Proof.
  rewrite reset_counts_unfold. split; [|split; [|split; [|split]]].
  - intros Hne rd wr rows He Hd.
    rewrite ensure_file_exists_other by (by rewrite remove_resolve).
    unfold OS.remove. rewrite He, Hd. simpl. apply lookup_delete_eq.
  - intros Hne Hsome.
    rewrite ensure_file_exists_present
      by (by rewrite remove_resolve, remove_other).
    by apply remove_other.
  - intros Hne He Hd.
    rewrite ensure_file_exists_absent;
      [|by rewrite remove_resolve, remove_other|by rewrite remove_dir_writable].
    simpl. rewrite remove_resolve. apply lookup_insert_eq.
  - intros Heq rd wr rows He Hd. unfold OS.remove. rewrite He, Hd.
    rewrite ensure_file_exists_absent; simpl;
      [|rewrite Heq; apply lookup_delete_eq|done].
    apply lookup_insert_eq.
  - rewrite ensure_file_exists_resolve. apply remove_resolve.
Qed.

Lemma reset_counts_fixed_path_witness :
  OS.rows_of
    (disk (FileManager.reset_counts (FileManager.New "votes.csv") two_stores))
    "votes.csv"
  = [FileManager.header; ["5"; "John"; "1"]]
  ∧ OS.entries
      (disk (FileManager.reset_counts (FileManager.New "votes.csv") two_stores))
    !! "data.csv" = None
  ∧ OS.entries
      (disk (FileManager.reset_counts (FileManager.New "./data.csv") two_stores))
    !! "data.csv" = Some (OS.File true true [FileManager.header])
  ∧ OS.entries
      (disk (FileManager.reset_counts (FileManager.New "new.csv") two_stores))
    !! "new.csv" = Some (OS.File true true [FileManager.header]).
Proof.
  split; [|split; [|split]].
  - unfold OS.rows_of.
    rewrite (proj2 (proj2 (proj2 (proj2
               (reset_counts_fixed_path "votes.csv" two_stores))))).
    rewrite (proj1 (proj2 (reset_counts_fixed_path "votes.csv" two_stores)));
      [reflexivity|discriminate|by eexists].
  - apply (proj1 (reset_counts_fixed_path "votes.csv" two_stores)
             ltac:(discriminate) true true [FileManager.header; ["1"; "Jane"; "1"]]);
      reflexivity.
  - apply (proj1 (proj2 (proj2 (proj2 (reset_counts_fixed_path "./data.csv" two_stores))))
             eq_refl true true [FileManager.header; ["1"; "Jane"; "1"]]);
      reflexivity.
  - apply (proj1 (proj2 (proj2 (reset_counts_fixed_path "new.csv" two_stores))));
      [discriminate|reflexivity|reflexivity].
Defined.

(** ** Further properties of the code *)

(** *** [log_vote] on any file system *)

(** What [log_vote] does, by the entry it finds at [f]. *)
Lemma log_vote_cases (f v c : string) (w : world) :
  FileManager.log_vote (FileManager.New f) v c w
  = match OS.entries (disk w) !! OS.resolve (disk w) f with
    | Some (OS.File true true rows) =>
        on_disk
          (OS.set_entry (OS.resolve (disk w) f)
             (OS.File true true
                (rows ++ (if bool_decide (rows = []) then [FileManager.header] else [])
                      ++ [[v; c; Py.str (FileManager.count_votes rows + 1)]]))
             (disk w)) w
    | Some (OS.File _ _ _) => print (Error_writing_to_file OS.PermissionError) w
    | Some OS.Dir => print (Error_writing_to_file OS.IsADirectoryError) w
    | None =>
        if OS.dir_writable (disk w) then
          on_disk
            (OS.set_entry (OS.resolve (disk w) f)
               (OS.File true true [FileManager.header; [v; c; Py.str 1]])
               (disk w)) w
        else print (Error_writing_to_file OS.PermissionError) w
    end.
Proof.
  unfold FileManager.log_vote, OS.exists_, OS.open_r, OS.open_a. simpl.
  destruct (OS.entries (disk w) !! OS.resolve (disk w) f) as [[[] [] rows|]|] eqn:He.
  - rewrite bool_decide_eq_true_2 by eauto.
    unfold OS.at_start, OS.rows_of. rewrite He.
    destruct rows as [|h rows].
    + rewrite !bool_decide_eq_true_2 by done.
      unfold OS.writerow. rewrite He. unfold OS.set_entry. simpl.
      rewrite lookup_insert_eq. simpl. by rewrite insert_insert_eq.
    + rewrite !bool_decide_eq_false_2 by done.
      unfold OS.writerow. by rewrite He.
  - by rewrite bool_decide_eq_true_2 by eauto.
  - by rewrite bool_decide_eq_true_2 by eauto.
  - by rewrite bool_decide_eq_true_2 by eauto.
  - by rewrite bool_decide_eq_true_2 by eauto.
  - rewrite bool_decide_eq_false_2 by (by intros [? ?]).
    destruct (OS.dir_writable (disk w)); [|done].
    unfold OS.at_start, OS.rows_of, OS.writerow, OS.set_entry. simpl.
    rewrite lookup_insert_eq. rewrite bool_decide_eq_true_2 by done. simpl.
    rewrite lookup_insert_eq. simpl. by rewrite !insert_insert_eq.
Qed.

(** X1. [log_vote] only ever appends: in every world, the rows the file held
    are still there, in order, followed by nothing, by the new record, or
    (for a file that held no row) by the header and the new record; no other
    entry of the directory changes, and a file keeps its permissions. *)
Theorem log_vote_append_only (f v c : string) (w : world) :
  (∃ added,
     OS.rows_of (disk (FileManager.log_vote (FileManager.New f) v c w)) f
     = OS.rows_of (disk w) f ++ added
     ∧ (added = []
        ∨ (∃ n, added = [[v; c; Py.str n]])
        ∨ (OS.rows_of (disk w) f = []
           ∧ added = [FileManager.header; [v; c; Py.str 1]])))
  ∧ (∀ g, g ≠ OS.resolve (disk w) f →
       OS.entries (disk (FileManager.log_vote (FileManager.New f) v c w)) !! g
       = OS.entries (disk w) !! g)
  ∧ (∀ rd wr rows,
       OS.entries (disk w) !! OS.resolve (disk w) f = Some (OS.File rd wr rows) →
       ∃ rows',
         OS.entries (disk (FileManager.log_vote (FileManager.New f) v c w)) !! OS.resolve (disk w) f
         = Some (OS.File rd wr rows'))
  ∧ OS.dir_writable (disk (FileManager.log_vote (FileManager.New f) v c w))
    = OS.dir_writable (disk w).
Proof.
  rewrite log_vote_cases. unfold OS.rows_of.
  destruct (OS.entries (disk w) !! OS.resolve (disk w) f) as [[[] [] rows|]|] eqn:He; simpl;
    rewrite ?He; try (split; [exists []; rewrite ?app_nil_r; by auto|by eauto]).
  - rewrite lookup_insert_eq. split; [|split; [|split]].
    + eexists. split; [reflexivity|].
      destruct rows as [|h rows]; [|rewrite bool_decide_eq_false_2 by done; eauto].
      rewrite bool_decide_eq_true_2 by done. auto.
    + intros g Hg. by rewrite lookup_insert_ne.
    + intros rd wr rows' ?. simplify_eq. eauto.
    + done.
  - destruct (OS.dir_writable (disk w)) eqn:Hd; simpl; rewrite ?He;
      [|split; [exists []; by auto|by eauto]].
    rewrite lookup_insert_eq. split; [|split; [|split]].
    + eexists. split; [reflexivity|]. auto.
    + intros g Hg. by rewrite lookup_insert_ne.
    + done.
    + done.
Qed.

(** X2. [log_vote] records the vote exactly when the file is a readable and
    writable file, or does not exist in a directory where it can be created:
    then nothing is printed and the new record is the last row.  In every
    other case (a directory, a file that cannot be read, even when it could
    be written, or cannot be written, a missing file that cannot be created)
    it prints one "Error writing to file" line and changes nothing else. *)
Theorem log_vote_records_iff (f v c : string) (w : world) :
  (can_append (disk w) f = true →
   console (FileManager.log_vote (FileManager.New f) v c w) = console w
   ∧ ∃ n, last (OS.rows_of (disk (FileManager.log_vote (FileManager.New f) v c w)) f)
          = Some [v; c; Py.str n])
  ∧ (can_append (disk w) f = false →
     ∃ e, FileManager.log_vote (FileManager.New f) v c w
          = print (Error_writing_to_file e) w).
Proof.
  rewrite log_vote_cases. unfold can_append, OS.rows_of.
  destruct (OS.entries (disk w) !! OS.resolve (disk w) f) as [[[] [] rows|]|] eqn:He; simpl;
    try (split; [done|eauto]).
  - split; [|done]. intros _. split; [done|].
    rewrite lookup_insert_eq. eexists. by rewrite app_assoc, last_snoc.
  - destruct (OS.dir_writable (disk w)); simpl; (split; [|by eauto]); [|done].
    intros _. split; [done|]. rewrite lookup_insert_eq. by eexists.
Qed.

Lemma log_vote_records_iff_witness :
  (console (FileManager.log_vote (FileManager.New "data.csv") "1" "Jane" empty_directory)
   = console empty_directory
   ∧ ∃ n, last (OS.rows_of
                  (disk (FileManager.log_vote (FileManager.New "data.csv") "1" "Jane"
                           empty_directory)) "data.csv")
          = Some ["1"; "Jane"; Py.str n])
  ∧ ∃ e, FileManager.log_vote (FileManager.New "data.csv") "1" "Jane" write_only_store
         = print (Error_writing_to_file e) write_only_store.
Proof.
  split.
  - apply (proj1 (log_vote_records_iff "data.csv" "1" "Jane" empty_directory)).
    reflexivity.
  - apply (proj2 (log_vote_records_iff "data.csv" "1" "Jane" write_only_store)).
    reflexivity.
Defined.

(** *** [_ensure_file_exists], [__init__] and [reset_counts] *)

(** X3. [_ensure_file_exists] never changes an entry that exists, whether a
    file (whatever its rows) or a directory: the world is left as it is.
    And in every world, calling it twice leaves the disk as calling it
    once. *)
Theorem ensure_file_exists_idempotent (f : string) (w : world) :
  (is_Some (OS.entries (disk w) !! OS.resolve (disk w) f) →
   FileManager._ensure_file_exists (FileManager.New f) w = w)
  ∧ disk (FileManager._ensure_file_exists (FileManager.New f)
            (FileManager._ensure_file_exists (FileManager.New f) w))
    = disk (FileManager._ensure_file_exists (FileManager.New f) w).
Proof.
  split; [apply ensure_file_exists_present|].
  destruct (OS.entries (disk w) !! OS.resolve (disk w) f) as [n|] eqn:He.
  - assert (is_Some (OS.entries (disk w) !! OS.resolve (disk w) f)) as Hsome by (rewrite He; eauto).
    by rewrite !(ensure_file_exists_present f w Hsome).
  - destruct (OS.dir_writable (disk w)) eqn:Hd.
    + rewrite (ensure_file_exists_absent f w) by done.
      rewrite ensure_file_exists_present; [done|].
      simpl. rewrite lookup_insert_eq. eauto.
    + assert (FileManager._ensure_file_exists (FileManager.New f) w
              = print (Error_creating_file OS.PermissionError) w) as Hfail.
      { unfold FileManager._ensure_file_exists, OS.exists_, OS.open_w. simpl.
        rewrite He, Hd. by rewrite bool_decide_eq_false_2 by (by intros [? ?]). }
      rewrite Hfail.
      unfold FileManager._ensure_file_exists, OS.exists_, OS.open_w. simpl.
      rewrite He, Hd. by rewrite bool_decide_eq_false_2 by (by intros [? ?]).
Qed.

Lemma ensure_file_exists_idempotent_witness :
  FileManager._ensure_file_exists (FileManager.New "data.csv") store_after_two_votes
  = store_after_two_votes.
Proof.
  apply (proj1 (ensure_file_exists_idempotent "data.csv" store_after_two_votes)).
  by eexists.
Defined.

(** X4. Votes survive a restart: after any run on a store ['data.csv'] in
    working order, constructing the window again ([ProjectWindow.__init__])
    leaves the world exactly as it was, and the results read through the new
    window are the results read before. *)
Theorem restart_keeps_votes (acts : list action) (s s' : app)
    (ui : ProjectWindow.t) (data : list Csv.row) :
  ProjectWindow._file_manager s.1 = FileManager.New "data.csv" →
  records "data.csv" s.2 = Some data →
  run acts s = Py.Return s' →
  (ProjectWindow.__init__ ui s'.2).2 = s'.2
  ∧ getResults (ProjectWindow.__init__ ui s'.2) = getResults s'.
Proof.
  intros Hf H Hrun.
  destruct (run_working acts s "data.csv" data Hf H) as (s1 & data1 & Hr & Hf1 & H1).
  rewrite Hrun in Hr. simplify_eq.
  pose proof (records_inv _ _ _ H1) as [He _].
  unfold ProjectWindow.__init__, FileManager.__init__.
  rewrite ensure_file_exists_present by (rewrite He; eauto).
  split; [done|]. unfold getResults. simpl.
  rewrite (view_results_working _ _ "data.csv" data1) by done.
  by rewrite (view_results_working s1.1 _ "data.csv" data1) by done.
Qed.

Lemma restart_keeps_votes_witness :
  (ProjectWindow.__init__ window0 store_after_two_votes).2 = store_after_two_votes
  ∧ getResults (ProjectWindow.__init__ window0 store_after_two_votes)
    = getResults (window_after_two_votes, store_after_two_votes).
Proof.
  apply (restart_keeps_votes
           [Vote "1" (Some ProjectWindow.janeRadio) "";
            Vote "2" (Some ProjectWindow.johnRadio) ""]
           (window0, working_store [])
           (window_after_two_votes, store_after_two_votes) window0 []);
    reflexivity.
Defined.

Lemma fs_eq (d1 d2 : OS.fs) :
  OS.entries d1 = OS.entries d2 → OS.dir_writable d1 = OS.dir_writable d2 →
  OS.resolve d1 = OS.resolve d2 → d1 = d2.
Proof. destruct d1, d2. simpl. by intros -> -> ->. Qed.

Ltac map_lookups :=
  apply map_eq; intros ?;
  repeat first [rewrite lookup_insert | rewrite lookup_delete];
  repeat case_decide; congruence.

(** The disk [reset_counts] leaves. *)
Lemma reset_counts_disk (f : string) (w : world) :
  disk (FileManager.reset_counts (FileManager.New f) w)
  = with_file f (without_data_csv (disk w)).
Proof.
  unfold FileManager.reset_counts, FileManager._ensure_file_exists, with_file,
    without_data_csv.
  cbn [FileManager._filename].
  destruct (OS.remove (disk w) "data.csv") as [e|d']; cbn [disk print on_disk].
  - destruct (OS.exists_ (disk w) f); [done|].
    by destruct (OS.open_w (disk w) f).
  - destruct (OS.exists_ d' f); [done|]. by destruct (OS.open_w d' f).
Qed.

Section reset_disk.
Implicit Types (f : string) (d : OS.fs).

Lemma without_data_csv_file d rd wr rows :
  OS.entries d !! OS.resolve d "data.csv" = Some (OS.File rd wr rows) →
  OS.dir_writable d = true →
  without_data_csv d
  = {| OS.entries := delete (OS.resolve d "data.csv") (OS.entries d);
       OS.dir_writable := true; OS.resolve := OS.resolve d |}.
Proof. unfold without_data_csv, OS.remove. by intros -> ->. Qed.

Lemma without_data_csv_locked d :
  OS.dir_writable d = false → without_data_csv d = d.
Proof.
  unfold without_data_csv, OS.remove. intros ->.
  by destruct (OS.entries d !! _) as [[? ? ?|]|].
Qed.

Lemma without_data_csv_none d :
  OS.entries d !! OS.resolve d "data.csv" = None → without_data_csv d = d.
Proof. unfold without_data_csv, OS.remove. by intros ->. Qed.

Lemma without_data_csv_dir d :
  OS.entries d !! OS.resolve d "data.csv" = Some OS.Dir → without_data_csv d = d.
Proof. unfold without_data_csv, OS.remove. by intros ->. Qed.

Lemma with_file_present f d :
  is_Some (OS.entries d !! OS.resolve d f) → with_file f d = d.
Proof. intros H. unfold with_file, OS.exists_. by rewrite bool_decide_eq_true_2. Qed.

Lemma with_file_absent f d :
  OS.entries d !! OS.resolve d f = None →
  OS.dir_writable d = true →
  with_file f d
  = OS.set_entry (OS.resolve d f) (OS.File true true [FileManager.header]) d.
Proof.
  intros He Hd. unfold with_file, OS.exists_, OS.open_w. rewrite He, Hd.
  rewrite bool_decide_eq_false_2 by (by intros [? ?]).
  unfold OS.writerow, OS.set_entry. simpl. rewrite lookup_insert_eq.
  by rewrite insert_insert_eq.
Qed.

Lemma with_file_locked f d :
  OS.entries d !! OS.resolve d f = None →
  OS.dir_writable d = false →
  with_file f d = d.
Proof.
  intros He Hd. unfold with_file, OS.exists_, OS.open_w. rewrite He, Hd.
  by rewrite bool_decide_eq_false_2 by (by intros [? ?]).
Qed.

Ltac innermost lem :=
  match goal with
  | |- context [with_file ?f ?x] =>
      lazymatch x with
      | context [with_file _ _] => fail
      | context [without_data_csv _] => fail
      | _ => erewrite (lem f x)
      end
  end.

Ltac innermost_removal lem :=
  match goal with
  | |- context [without_data_csv ?x] =>
      lazymatch x with
      | context [with_file _ _] => fail
      | context [without_data_csv _] => fail
      | _ => erewrite (lem x)
      end
  end.

Ltac lookups :=
  simpl;
  repeat first [rewrite lookup_insert_eq | rewrite lookup_delete_eq
               | rewrite lookup_insert_ne by congruence
               | rewrite lookup_delete_ne by congruence];
  eauto.

Lemma with_file_without_data_csv_twice f d :
  with_file f (without_data_csv (with_file f (without_data_csv d)))
  = with_file f (without_data_csv d).
Proof.
  destruct (OS.dir_writable d) eqn:Hd.
  2:{ rewrite (without_data_csv_locked d) by done.
      destruct (OS.entries d !! OS.resolve d f) as [n|] eqn:Hf.
      - rewrite (with_file_present f d) by eauto.
        rewrite (without_data_csv_locked d) by done.
        by rewrite (with_file_present f d) by eauto.
      - rewrite (with_file_locked f d) by done.
        rewrite (without_data_csv_locked d) by done.
        by rewrite (with_file_locked f d) by done. }
  destruct (decide (OS.resolve d f = OS.resolve d "data.csv")) as [Heq|Hne];
    destruct (OS.entries d !! OS.resolve d "data.csv") as [[rd wr rows|]|] eqn:He.
  - rewrite (without_data_csv_file d rd wr rows) by done.
    innermost with_file_absent; [|simpl; rewrite ?Heq; lookups|lookups].
    innermost_removal without_data_csv_file; [|simpl; rewrite ?Heq; lookups|lookups].
    innermost with_file_absent; [|simpl; rewrite ?Heq; lookups|lookups].
    apply fs_eq; simpl; [|done|done]. rewrite Heq. map_lookups.
  - rewrite (without_data_csv_dir d) by done.
    rewrite (with_file_present f d) by (rewrite Heq, He; eauto).
    rewrite (without_data_csv_dir d) by done.
    by rewrite (with_file_present f d) by (rewrite Heq, He; eauto).
  - rewrite (without_data_csv_none d) by done.
    rewrite (with_file_absent f d) by (by rewrite ?Heq).
    innermost_removal without_data_csv_file; [|simpl; rewrite ?Heq; lookups|lookups].
    innermost with_file_absent; [|simpl; rewrite ?Heq; lookups|lookups].
    apply fs_eq; simpl; [|done|done]. rewrite Heq. map_lookups.
  - rewrite (without_data_csv_file d rd wr rows) by done.
    destruct (OS.entries d !! OS.resolve d f) as [n|] eqn:Hf.
    + innermost with_file_present; [|lookups].
      innermost_removal without_data_csv_none; [|lookups].
      innermost with_file_present; [done|lookups].
    + innermost with_file_absent; [|lookups..].
      innermost_removal without_data_csv_none; [|lookups].
      innermost with_file_present; [done|lookups].
  - rewrite (without_data_csv_dir d) by done.
    destruct (OS.entries d !! OS.resolve d f) as [n|] eqn:Hf.
    + rewrite (with_file_present f d) by eauto.
      rewrite (without_data_csv_dir d) by done.
      by rewrite (with_file_present f d) by eauto.
    + rewrite (with_file_absent f d) by done.
      innermost_removal without_data_csv_dir; [|lookups].
      innermost with_file_present; [done|lookups].
  - rewrite (without_data_csv_none d) by done.
    destruct (OS.entries d !! OS.resolve d f) as [n|] eqn:Hf.
    + rewrite (with_file_present f d) by eauto.
      rewrite (without_data_csv_none d) by done.
      by rewrite (with_file_present f d) by eauto.
    + rewrite (with_file_absent f d) by done.
      innermost_removal without_data_csv_none; [|lookups].
      innermost with_file_present; [done|lookups].
Qed.

End reset_disk.

Lemma reset_twice (f : string) (w : world) :
  disk (FileManager.reset_counts (FileManager.New f)
          (FileManager.reset_counts (FileManager.New f) w))
  = disk (FileManager.reset_counts (FileManager.New f) w).
Proof.
  rewrite !reset_counts_disk. apply with_file_without_data_csv_twice.
Qed.

(** What [view_results] displays depends on the disk only, not on the
    console. *)
Lemma getResults_disk (s1 s2 : app) :
  ProjectWindow._file_manager s1.1 = ProjectWindow._file_manager s2.1 →
  disk s1.2 = disk s2.2 →
  getResults s1 = getResults s2.
Proof.
  destruct s1 as [self1 w1], s2 as [self2 w2]. simpl. intros Hf Hd.
  unfold getResults, ProjectWindow.view_results, FileManager.read_results. simpl.
  rewrite Hf, Hd.
  destruct (OS.open_r (disk w2) _); [done|].
  by destruct (FileManager.read_rows _ _) as [[? ?]|].
Qed.

(** X5. Resetting twice is resetting once, as far as the disk, the window
    and the results go (the console gets the lines of both resets): this
    holds in every world and for every file manager. *)
Theorem reset_idempotent (s : app) :
  disk (resetElection (resetElection s)).2 = disk (resetElection s).2
  ∧ (resetElection (resetElection s)).1 = (resetElection s).1
  ∧ getResults (resetElection (resetElection s)) = getResults (resetElection s).
Proof.
  destruct s as [self w].
  assert (disk (resetElection (resetElection (self, w))).2
          = disk (resetElection (self, w)).2) as Hdisk.
  { unfold resetElection, ProjectWindow.reset_votes. simpl.
    destruct (ProjectWindow._file_manager self) as [f]. apply reset_twice. }
  split; [done|]. split; [done|]. by apply getResults_disk.
Qed.

(** *** [on_button_click] when the store is not in order *)

(** X6. With a valid voter id in the form: when the store cannot be opened
    for reading, the handler shows "Error reading file."; when the first row
    of the store lacks the [VoterID] column (a file of the summary format, for
    one), it shows the missing-column dialog; in both cases nothing is
    written, printed or changed in the form.  When the store file holds no row
    at all, the handler raises [TypeError] ([headers] is [None]). *)
Theorem store_not_in_order (voterId freeText : string)
    (choice : option ProjectWindow.radio) (s : app) :
  valid_voter_id voterId = true →
  (∀ e, OS.open_r (disk s.2)
          (FileManager._filename (ProjectWindow._file_manager s.1)) = inl e →
        castVote voterId choice freeText s
        = Py.Return
            (ProjectWindow.show_error_message "Error reading file."
               (fill_form voterId choice freeText s.1), s.2))
  ∧ (∀ h data,
       OS.open_r (disk s.2)
         (FileManager._filename (ProjectWindow._file_manager s.1)) = inr (h :: data) →
       "VoterID" ∉ h →
       castVote voterId choice freeText s
       = Py.Return
           (ProjectWindow.show_error_message
              "CSV file is missing the required 'VoterID' column."
              (fill_form voterId choice freeText s.1), s.2))
  ∧ (OS.open_r (disk s.2)
       (FileManager._filename (ProjectWindow._file_manager s.1)) = inr [] →
     castVote voterId choice freeText s = Py.Raise Py.TypeError).
Proof.
  destruct s as [self w]. simpl. intros Hv.
  unfold valid_voter_id in Hv. apply andb_true_iff in Hv as [Hv1 Hv2].
  apply bool_decide_eq_true in Hv2 as [n Hn].
  unfold castVote, ProjectWindow.on_button_click. simpl. rewrite Hv1, Hn. simpl.
  split; [|split].
  - by intros e ->.
  - intros h data -> Hh. simpl. by rewrite bool_decide_eq_false_2.
  - by intros ->.
Qed.

Lemma store_not_in_order_witness :
  castVote "7" (Some ProjectWindow.janeRadio) "" (window0, unreadable_store)
  = Py.Return
      (ProjectWindow.show_error_message "Error reading file."
         (fill_form "7" (Some ProjectWindow.janeRadio) "" window0),
       unreadable_store)
  ∧ castVote "7" (Some ProjectWindow.janeRadio) "" (window0, summary_store)
    = Py.Return
        (ProjectWindow.show_error_message
           "CSV file is missing the required 'VoterID' column."
           (fill_form "7" (Some ProjectWindow.janeRadio) "" window0),
         summary_store)
  ∧ castVote "7" (Some ProjectWindow.janeRadio) "" (window0, empty_file_store)
    = Py.Raise Py.TypeError.
Proof.
  split; [|split].
  - apply (proj1 (store_not_in_order "7" "" (Some ProjectWindow.janeRadio)
                    (window0, unreadable_store) eq_refl) OS.PermissionError).
    reflexivity.
  - apply (proj1 (proj2 (store_not_in_order "7" "" (Some ProjectWindow.janeRadio)
                           (window0, summary_store) eq_refl))
             ["Jane"; "John"; "Total"] [["2"; "1"; "3"]]).
    + reflexivity.
    + apply (bool_decide_unpack _). vm_compute. exact I.
  - apply (proj2 (proj2 (store_not_in_order "7" "" (Some ProjectWindow.janeRadio)
                           (window0, empty_file_store) eq_refl))).
    reflexivity.
Defined.

(** *** [strip] and [validate_input] *)


(** X12. [validate_input] accepts a text exactly when some character of it
    is not white space; and since it trims its argument itself, it gives the
    same answer on a text and on the trimmed text (the handler passes it
    texts it has trimmed already). *)
Theorem validate_input_spec (input_text : string) :
  ProjectWindow.validate_input input_text = negb (all_space input_text)
  ∧ ProjectWindow.validate_input (Py.strip input_text)
    = ProjectWindow.validate_input input_text.
Proof.
  assert (∀ t, ProjectWindow.validate_input t = negb (all_space t)) as Hspec.
  { intros t. unfold ProjectWindow.validate_input. f_equal.
    destruct (all_space t) eqn:Ht.
    - apply bool_decide_eq_true_2. by apply strip_nil_iff.
    - apply bool_decide_eq_false_2. intros H%strip_nil_iff. congruence. }
  split; [apply Hspec|]. by rewrite !Hspec, all_space_strip.
Qed.

(** *** The form of [on_button_click] *)

(** The handler up to the call of [submit], when the checks on the voter id
    and on the store pass. *)
Lemma on_button_click_submit (self : ProjectWindow.t) (w : world)
    (rows : list Csv.row) (headers : list string) :
  valid_voter_id (ProjectWindow.idInput self) = true →
  OS.open_r (disk w) (FileManager._filename (ProjectWindow._file_manager self))
  = inr rows →
  Csv.fieldnames rows = Some headers →
  "VoterID" ∈ headers →
  ProjectWindow.voter_id_used (Py.strip (ProjectWindow.idInput self)) rows = false →
  ProjectWindow.on_button_click self w
  = Py.Return (ProjectWindow.submit (Py.strip (ProjectWindow.idInput self)) self w).
Proof.
  intros Hv Hopen Hh Hin Hused.
  unfold valid_voter_id in Hv. apply andb_true_iff in Hv as [Hv1 Hv2].
  apply bool_decide_eq_true in Hv2 as [n Hn].
  unfold ProjectWindow.on_button_click. cbv zeta.
  rewrite Hv1, Hn, Hopen, Hh, Hused. simpl.
  by rewrite bool_decide_eq_true_2.
Qed.

(** X7. With a valid voter id that no record carries and a store that can be
    read: when no radio button is checked the handler shows "Please select an
    option."; when the free-text button is checked and the text is blank
    (empty or white space only) it shows "Invalid input. Please enter
    non-empty text.".  In both cases nothing is recorded and the form is left
    as the user filled it in (the voter id is not cleared). *)
Theorem no_candidate_rejected (voterId freeText : string) (s : app)
    (rows : list Csv.row) (headers : list string) :
  valid_voter_id voterId = true →
  OS.open_r (disk s.2) (FileManager._filename (ProjectWindow._file_manager s.1))
  = inr rows →
  Csv.fieldnames rows = Some headers →
  "VoterID" ∈ headers →
  ProjectWindow.voter_id_used (Py.strip voterId) rows = false →
  castVote voterId None freeText s
  = Py.Return
      (ProjectWindow.show_error_message "Please select an option."
         (fill_form voterId None freeText s.1), s.2)
  ∧ (all_space freeText = true →
     castVote voterId (Some ProjectWindow.otherRadio) freeText s
     = Py.Return
         (ProjectWindow.show_error_message
            "Invalid input. Please enter non-empty text."
            (fill_form voterId (Some ProjectWindow.otherRadio) freeText s.1), s.2)).
Proof.
  destruct s as [self w]. simpl. intros Hv Hopen Hh Hin Hused. unfold castVote.
  split.
  - by rewrite (on_button_click_submit _ _ rows headers).
  - intros Hblank. rewrite (on_button_click_submit _ _ rows headers) by done.
    unfold ProjectWindow.submit. simpl.
    destruct (validate_input_spec (Py.strip freeText)) as [Hval _].
    by rewrite Hval, all_space_strip, Hblank.
Qed.

Lemma no_candidate_rejected_witness :
  castVote "3" None "" (window0, store_after_two_votes)
  = Py.Return
      (ProjectWindow.show_error_message "Please select an option."
         (fill_form "3" None "" window0), store_after_two_votes)
  ∧ castVote "3" (Some ProjectWindow.otherRadio) "   " (window0, store_after_two_votes)
    = Py.Return
        (ProjectWindow.show_error_message
           "Invalid input. Please enter non-empty text."
           (fill_form "3" (Some ProjectWindow.otherRadio) "   " window0),
         store_after_two_votes).
Proof.
  split.
  - apply (no_candidate_rejected "3" "" (window0, store_after_two_votes)
             [FileManager.header; ["1"; "Jane"; "1"]; ["2"; "John"; "2"]]
             FileManager.header); try reflexivity.
    constructor.
  - apply (proj2 (no_candidate_rejected "3" "   " (window0, store_after_two_votes)
                    [FileManager.header; ["1"; "Jane"; "1"]; ["2"; "John"; "2"]]
                    FileManager.header eq_refl eq_refl eq_refl
                    ltac:(constructor) eq_refl)).
    reflexivity.
Defined.

(** X8. An accepted vote, on a store in working order: the handler appends
    exactly one record, made of the trimmed voter id, the candidate (Jane,
    John, or the trimmed free text) and the next sequence number; it prints
    nothing, shows no dialog, thanks the voter by the candidate's name, clears
    the voter id field, and clears the free-text field when the vote was a
    free-text one (and only then). *)
Theorem accepted_vote_effect (voterId freeText name f : string)
    (choice : option ProjectWindow.radio) (s : app) (data : list Csv.row) :
  ProjectWindow._file_manager s.1 = FileManager.New f →
  records f s.2 = Some data →
  accepts data voterId choice freeText = Some name →
  ∃ s',
    castVote voterId choice freeText s = Py.Return s'
    ∧ OS.rows_of (disk s'.2) f
      = FileManager.header
        :: data ++ [[Py.strip voterId; name; Py.str (length (nonblank data) + 1)]]
    ∧ console s'.2 = console s.2
    ∧ ProjectWindow.dialogs s'.1 = ProjectWindow.dialogs s.1
    ∧ ProjectWindow.label s'.1 = "Thank you for voting for " +:+ name +:+ "!"
    ∧ ProjectWindow.idInput s'.1 = ""
    ∧ ProjectWindow.checked s'.1 = choice
    ∧ ProjectWindow.lineEdit s'.1
      = (if decide (choice = Some ProjectWindow.otherRadio) then "" else freeText)
    ∧ name = match choice with
             | Some ProjectWindow.janeRadio => "Jane"
             | Some ProjectWindow.johnRadio => "John"
             | _ => Py.strip freeText
             end.
Proof.
  destruct s as [self w]. simpl. intros Hf H Hacc.
  unfold accepts in Hacc.
  destruct (valid_voter_id voterId) eqn:Hv; [|done].
  destruct (ProjectWindow.voter_id_used _ _) eqn:Hused; [done|].
  simpl in Hacc. unfold castVote. simpl.
  rewrite (on_button_click_submit _ _ (FileManager.header :: data) FileManager.header);
    [|done|simpl; rewrite Hf; by apply records_open_r|done|constructor|done].
  unfold ProjectWindow.submit. simpl. rewrite Hf.
  unfold candidate_of in Hacc.
  destruct choice as [[]|]; [| | |done].
  - simplify_eq. rewrite (log_vote_working _ _ _ _ _ H). eexists.
    split; [reflexivity|]. simpl. unfold OS.rows_of. simpl.
    rewrite lookup_insert_eq. by repeat split.
  - simplify_eq. rewrite (log_vote_working _ _ _ _ _ H). eexists.
    split; [reflexivity|]. simpl. unfold OS.rows_of. simpl.
    rewrite lookup_insert_eq. by repeat split.
  - cbv zeta in Hacc.
    destruct (ProjectWindow.validate_input (Py.strip freeText)); [|done].
    destruct (Py.int (Py.strip freeText)); simplify_eq.
    rewrite (log_vote_working _ _ _ _ _ H). eexists.
    split; [reflexivity|]. simpl. unfold OS.rows_of. simpl.
    rewrite lookup_insert_eq. by repeat split.
Qed.

Lemma accepted_vote_effect_witness :
  ∃ s',
    castVote " 3 " (Some ProjectWindow.otherRadio) " Bob "
      (window0, store_after_two_votes) = Py.Return s'
    ∧ OS.rows_of (disk s'.2) "data.csv"
      = FileManager.header
        :: [["1"; "Jane"; "1"]; ["2"; "John"; "2"]]
           ++ [[Py.strip " 3 "; "Bob";
                Py.str (length (nonblank [["1"; "Jane"; "1"]; ["2"; "John"; "2"]]) + 1)]]
    ∧ console s'.2 = console store_after_two_votes
    ∧ ProjectWindow.dialogs s'.1 = ProjectWindow.dialogs window0
    ∧ ProjectWindow.label s'.1 = "Thank you for voting for " +:+ "Bob" +:+ "!"
    ∧ ProjectWindow.idInput s'.1 = ""
    ∧ ProjectWindow.checked s'.1 = Some ProjectWindow.otherRadio
    ∧ ProjectWindow.lineEdit s'.1
      = (if decide (Some ProjectWindow.otherRadio = Some ProjectWindow.otherRadio)
         then "" else " Bob ")
    ∧ "Bob" = Py.strip " Bob ".
Proof.
  apply (accepted_vote_effect " 3 " " Bob " "Bob" "data.csv"
           (Some ProjectWindow.otherRadio) (window0, store_after_two_votes)
           [["1"; "Jane"; "1"]; ["2"; "John"; "2"]]); reflexivity.
Defined.

(** *** From a vote to the results *)

Lemma tally_snoc (res : FileManager.results) (rs : list Csv.row) (r : Csv.row) :
  tally res (rs ++ [r])
  = <[r !! 1%nat := default 0 (tally res rs !! (r !! 1%nat)) + 1]> (tally res rs).
Proof. unfold tally. by rewrite foldl_app. Qed.

(** The results before and after an accepted vote, on a store in working
    order. *)
Lemma getResults_after_vote (voterId freeText name f : string)
    (choice : option ProjectWindow.radio) (s : app) (data : list Csv.row) :
  ProjectWindow._file_manager s.1 = FileManager.New f →
  records f s.2 = Some data →
  accepts data voterId choice freeText = Some name →
  ∃ s',
    castVote voterId choice freeText s = Py.Return s'
    ∧ records f s'.2 = Some (data ++ [vote_row (Py.strip voterId) name data])
    ∧ getResults s
      = Py.Return (Z.of_nat (length (nonblank data)),
                   delete (Some "Total")
                     (tally FileManager.initial_results (nonblank data)))
    ∧ getResults s'
      = Py.Return
          (Z.of_nat (length (nonblank data)) + 1,
           delete (Some "Total")
             (<[Some name :=
                  default 0 (tally FileManager.initial_results (nonblank data)
                               !! Some name) + 1]>
                (tally FileManager.initial_results (nonblank data)))).
Proof.
  intros Hf H Hacc.
  destruct (castVote_working voterId choice freeText s f data Hf H)
    as (s' & Hs' & Hf' & Hstep).
  rewrite Hacc in Hstep. destruct Hstep as [_ Hw].
  assert (records f s'.2 = Some (data ++ [vote_row (Py.strip voterId) name data]))
    as H'.
  { rewrite Hw. by apply records_log_vote. }
  exists s'. split; [done|]. split; [done|]. unfold getResults.
  rewrite (view_results_working s.1 s.2 f data) by done.
  rewrite (view_results_working s'.1 s'.2 f _) by done.
  split; [done|]. simpl.
  rewrite nonblank_app, nonblank_vote_row, length_app, tally_snoc. simpl.
  do 2 f_equal. lia.
Qed.

(** X9. An accepted vote counts once, for its candidate only: on a store in
    working order, after an accepted vote for a candidate whose name is not
    "Total", [getResults] gives the total increased by one and the same
    counts as before, except the candidate's, which is increased by one (from
    0 when the candidate had no entry). *)
Theorem vote_counted_once (voterId freeText name f : string)
    (choice : option ProjectWindow.radio) (s : app) (data : list Csv.row) :
  ProjectWindow._file_manager s.1 = FileManager.New f →
  records f s.2 = Some data →
  accepts data voterId choice freeText = Some name →
  name ≠ "Total" →
  ∃ s' total m,
    castVote voterId choice freeText s = Py.Return s'
    ∧ getResults s = Py.Return (total, m)
    ∧ getResults s'
      = Py.Return (total + 1, <[Some name := default 0 (m !! Some name) + 1]> m).
Proof.
  intros Hf H Hacc Hname.
  destruct (getResults_after_vote voterId freeText name f choice s data Hf H Hacc)
    as (s' & Hs' & _ & Hbefore & Hafter).
  exists s'. do 2 eexists. split; [done|]. split; [done|].
  rewrite Hafter. rewrite delete_insert_ne by congruence.
  by rewrite lookup_delete_ne by congruence.
Qed.

Lemma vote_counted_once_witness :
  ∃ s' total m,
    castVote "3" (Some ProjectWindow.otherRadio) "Bob" (window0, store_after_two_votes)
    = Py.Return s'
    ∧ getResults (window0, store_after_two_votes) = Py.Return (total, m)
    ∧ getResults s'
      = Py.Return (total + 1, <[Some "Bob" := default 0 (m !! Some "Bob") + 1]> m).
Proof.
  apply (vote_counted_once "3" "Bob" "Bob" "data.csv" (Some ProjectWindow.otherRadio)
           (window0, store_after_two_votes)
           [["1"; "Jane"; "1"]; ["2"; "John"; "2"]]); try reflexivity.
  discriminate.
Defined.

(** X10. A free-text vote for a candidate named "Total" is accepted and
    recorded, and counted in the total, but its count is never displayed:
    [read_results] overwrites the entry of that name with the number of
    votes, and [view_results] takes it out of the mapping.  On a store in
    working order the mapping of [getResults] after such a vote is the
    mapping before it, and it never has an entry "Total". *)
Theorem write_in_Total_not_shown (voterId freeText f : string)
    (choice : option ProjectWindow.radio) (s : app) (data : list Csv.row) :
  ProjectWindow._file_manager s.1 = FileManager.New f →
  records f s.2 = Some data →
  accepts data voterId choice freeText = Some "Total" →
  ∃ s' total m,
    castVote voterId choice freeText s = Py.Return s'
    ∧ records f s'.2
      = Some (data ++ [[Py.strip voterId; "Total";
                        Py.str (length (nonblank data) + 1)]])
    ∧ getResults s = Py.Return (total, m)
    ∧ getResults s' = Py.Return (total + 1, m)
    ∧ m !! Some "Total" = None.
Proof.
  intros Hf H Hacc.
  destruct (getResults_after_vote voterId freeText "Total" f choice s data Hf H Hacc)
    as (s' & Hs' & Hrec & Hbefore & Hafter).
  exists s'. do 2 eexists. split; [done|]. split; [done|]. split; [done|].
  rewrite Hafter, delete_insert_eq. split; [done|]. apply lookup_delete_eq.
Qed.

Lemma write_in_Total_not_shown_witness :
  ∃ s' total m,
    castVote "3" (Some ProjectWindow.otherRadio) "Total"
      (window0, store_after_two_votes) = Py.Return s'
    ∧ records "data.csv" s'.2
      = Some ([["1"; "Jane"; "1"]; ["2"; "John"; "2"]]
              ++ [[Py.strip "3"; "Total";
                   Py.str (length (nonblank [["1"; "Jane"; "1"]; ["2"; "John"; "2"]])
                           + 1)]])
    ∧ getResults (window0, store_after_two_votes) = Py.Return (total, m)
    ∧ getResults s' = Py.Return (total + 1, m)
    ∧ m !! Some "Total" = None.
Proof.
  apply (write_in_Total_not_shown "3" "Total" "data.csv"
           (Some ProjectWindow.otherRadio) (window0, store_after_two_votes)
           [["1"; "Jane"; "1"]; ["2"; "John"; "2"]]); reflexivity.
Defined.

(** *** The total and the sum of the counts *)

Section sums.
Implicit Types (m res : FileManager.results) (k : option string) (v : Z).

Lemma sum_permutation (l1 l2 : list Z) :
  l1 ≡ₚ l2 → foldr Z.add 0 l1 = foldr Z.add 0 l2.
Proof. induction 1; simpl; lia. Qed.

Lemma sum_counts_insert_fresh m k v :
  m !! k = None → sum_counts (<[k := v]> m) = v + sum_counts m.
Proof.
  intros Hk. unfold sum_counts.
  rewrite (sum_permutation _ (v :: (map_to_list m).*2)); [done|].
  by rewrite map_to_list_insert.
Qed.

Lemma sum_counts_delete m k :
  sum_counts (delete k m) = sum_counts m - default 0 (m !! k).
Proof.
  destruct (m !! k) as [x|] eqn:Hk; simpl.
  - rewrite <-(insert_delete_id m k x Hk) at 2.
    rewrite sum_counts_insert_fresh by apply lookup_delete_eq. lia.
  - rewrite delete_id by done. lia.
Qed.

Lemma sum_counts_insert m k v :
  sum_counts (<[k := v]> m) = v + sum_counts m - default 0 (m !! k).
Proof.
  rewrite <-insert_delete_eq.
  rewrite sum_counts_insert_fresh by apply lookup_delete_eq.
  rewrite sum_counts_delete. lia.
Qed.

Lemma sum_counts_tally res (rs : list Csv.row) :
  sum_counts (tally res rs) = sum_counts res + Z.of_nat (length rs).
Proof.
  revert res. induction rs as [|r rs IH]; intros res; simpl; [lia|].
  change (tally res (r :: rs))
    with (tally (<[r !! 1%nat := default 0 (res !! (r !! 1%nat)) + 1]> res) rs).
  rewrite IH, sum_counts_insert. lia.
Qed.

Lemma sum_counts_initial_results : sum_counts FileManager.initial_results = 0.
Proof.
  unfold FileManager.initial_results.
  rewrite !sum_counts_insert_fresh; [done|by rewrite lookup_empty|done].
Qed.

End sums.

(** X11. On a store in working order, the counts [view_results] displays add
    up to the total it displays, less the votes for a candidate named
    "Total" (whose count is not displayed): without such votes, the total is
    the sum of the counts. *)
Theorem total_is_sum_of_counts (s : app) (f : string) (data : list Csv.row) :
  ProjectWindow._file_manager s.1 = FileManager.New f →
  records f s.2 = Some data →
  ∃ total m,
    getResults s = Py.Return (total, m)
    ∧ sum_counts m + votes_for (Some "Total") (nonblank data) = total.
Proof.
  intros Hf H. unfold getResults.
  rewrite (view_results_working _ _ f data) by done. simpl.
  do 2 eexists. split; [reflexivity|].
  rewrite sum_counts_delete, sum_counts_tally, sum_counts_initial_results.
  rewrite tally_lookup.
  assert (FileManager.initial_results !! Some "Total" = None) as -> by done.
  case_decide as Hz; simpl; [rewrite Hz|]; lia.
Qed.

Lemma total_is_sum_of_counts_witness :
  ∃ total m,
    getResults (window0, store_after_two_votes) = Py.Return (total, m)
    ∧ sum_counts m
      + votes_for (Some "Total") (nonblank [["1"; "Jane"; "1"]; ["2"; "John"; "2"]])
      = total.
Proof.
  apply (total_is_sum_of_counts (window0, store_after_two_votes) "data.csv"
           [["1"; "Jane"; "1"]; ["2"; "John"; "2"]]); reflexivity.
Defined.

(** X13. When the store cannot be opened for reading, [read_results] prints
    one line and returns the two default candidates at 0, without a "Total"
    entry; [view_results] then displays the total 0 with Jane 0 and John 0,
    which is what it displays for a store without any vote. *)
Theorem unreadable_store_shows_zeros (self : ProjectWindow.t) (w : world)
    (e : OS.OSError) :
  OS.open_r (disk w) (FileManager._filename (ProjectWindow._file_manager self))
  = inl e →
  FileManager.read_results (ProjectWindow._file_manager self) w
  = (Py.Return (<[Some "John" := 0]> (<[Some "Jane" := 0]> ∅)),
     print (Error_reading_file e) w)
  ∧ ProjectWindow.view_results self w
    = (Py.Return (0, <[Some "John" := 0]> (<[Some "Jane" := 0]> ∅)),
       print (Error_reading_file e) w)
  ∧ getResults (self, w) = getResults (window0, working_store []).
Proof.
  intros Hopen.
  assert (FileManager.read_results (ProjectWindow._file_manager self) w
          = (Py.Return FileManager.initial_results, print (Error_reading_file e) w))
    as Hread.
  { unfold FileManager.read_results. by rewrite Hopen. }
  split; [done|].
  assert (ProjectWindow.view_results self w
          = (Py.Return (0, FileManager.initial_results),
             print (Error_reading_file e) w)) as Hview.
  { unfold ProjectWindow.view_results. rewrite Hread.
    by rewrite delete_Total_initial_results. }
  split; [done|]. unfold getResults. simpl. by rewrite Hview.
Qed.

Lemma unreadable_store_shows_zeros_witness :
  FileManager.read_results (ProjectWindow._file_manager window0) unreadable_store
  = (Py.Return (<[Some "John" := 0]> (<[Some "Jane" := 0]> ∅)),
     print (Error_reading_file OS.PermissionError) unreadable_store)
  ∧ ProjectWindow.view_results window0 unreadable_store
    = (Py.Return (0, <[Some "John" := 0]> (<[Some "Jane" := 0]> ∅)),
       print (Error_reading_file OS.PermissionError) unreadable_store)
  ∧ getResults (window0, unreadable_store) = getResults (window0, working_store []).
Proof.
  apply (unreadable_store_shows_zeros window0 unreadable_store OS.PermissionError).
  reflexivity.
Defined.

(** *** [int] reads back what [str] writes *)

Section int_str.
Implicit Types (s t : string) (x : N) (n : Z).

Lemma digit_pretty_N_char x :
  (x < 10)%N → Py.digit (pretty_N_char x) = Some (Z.of_N x).
Proof.
  intros Hx.
  assert (x = 0 ∨ x = 1 ∨ x = 2 ∨ x = 3 ∨ x = 4 ∨ x = 5 ∨ x = 6 ∨ x = 7
          ∨ x = 8 ∨ x = 9)%N as Hcases by lia.
  repeat (destruct Hcases as [->|Hcases]; [reflexivity|]). by subst.
Qed.

Lemma isspace_pretty_N_char x : Py.isspace (pretty_N_char x) = false.
Proof. unfold pretty_N_char. by repeat case_match. Qed.

(** The digits [pretty_N_go] puts in front of [s], read by [int_digits]. *)
Lemma int_digits_pretty_N_go x :
  (0 < x)%N →
  ∃ p : Z, ∀ s acc b,
    Py.int_digits acc b (pretty_N_go x s) = Py.int_digits (acc * p + Z.of_N x) true s.
Proof.
  induction (N.lt_wf_0 x) as [x _ IH]. intros Hx.
  assert (Py.digit (pretty_N_char (x `mod` 10)) = Some (Z.of_N (x `mod` 10)))
    as Hdigit by (apply digit_pretty_N_char, N.mod_lt; lia).
  destruct (decide (x `div` 10 = 0)%N) as [Hz|Hnz].
  - exists 10. intros s acc b. rewrite pretty_N_go_step by done.
    rewrite Hz, pretty_N_go_0. simpl. rewrite Hdigit. f_equal.
    rewrite (N.div_mod x 10) at 2 by done. rewrite Hz. lia.
  - destruct (IH (x `div` 10)%N) as [p Hp].
    + apply N.div_lt; lia.
    + by apply N.neq_0_lt_0.
    + exists (10 * p). intros s acc b. rewrite pretty_N_go_step by done.
      rewrite Hp. simpl. rewrite Hdigit. f_equal.
      rewrite (N.div_mod x 10) at 3 by done. lia.
Qed.


Lemma lstrip_no_space s : no_space s = true → Py.lstrip s = s.
Proof. destruct s as [|c s]; simpl; [done|]. by destruct (Py.isspace c). Qed.

(** [strip] leaves a text without white space as it is. *)
Lemma strip_no_space s : no_space s = true → Py.strip s = s.
Proof.
  intros Hs. unfold Py.strip. rewrite (lstrip_no_space s Hs).
  rewrite lstrip_no_space; [apply rev_involutive|].
  unfold String.rev. rewrite no_space_rev_app, Hs. done.
Qed.

Lemma no_space_pretty_N_go x s :
  no_space s = true → no_space (pretty_N_go x s) = true.
Proof.
  revert s. induction (N.lt_wf_0 x) as [x _ IH]. intros s Hs.
  destruct (decide (x = 0)%N) as [->|Hx]; [by rewrite pretty_N_go_0|].
  rewrite pretty_N_go_step by (by apply N.neq_0_lt_0).
  apply IH; [apply N.div_lt; lia|].
  simpl. by rewrite isspace_pretty_N_char, Hs.
Qed.

(** A number below 10 to the power [k] is written with at most [k]
    digits. *)
Lemma count_digits_pretty_N_go (k : nat) :
  ∀ x s, (x < 10 ^ N.of_nat k)%N →
         (Py.count_digits (pretty_N_go x s) ≤ k + Py.count_digits s)%nat.
Proof.
  induction k as [|k IH]; intros x s Hx.
  - assert (x = 0)%N as -> by (simpl in Hx; lia). by rewrite pretty_N_go_0.
  - destruct (decide (x = 0)%N) as [->|Hnz]; [rewrite pretty_N_go_0; lia|].
    rewrite pretty_N_go_step by (by apply N.neq_0_lt_0).
    rewrite Nat2N.inj_succ, N.pow_succ_r' in Hx.
    etrans; [apply IH; apply N.Div0.div_lt_upper_bound; exact Hx|].
    cbn [Py.count_digits].
    rewrite digit_pretty_N_char by (apply N.mod_lt; lia). lia.
Qed.

(** A text without white space that is digits for [int_digits], no more of
    them than the limit, is read by [int] as those digits (it has no
    sign). *)
Lemma int_of_digits s n :
  no_space s = true →
  Py.int_digits 0 false s = Some n →
  (Py.count_digits s ≤ Py.int_max_str_digits)%nat →
  Py.int s = Some n.
Proof.
  intros Hs Hn Hcount. unfold Py.int. rewrite strip_int_no_space by done.
  apply Nat.leb_le in Hcount.
  destruct s as [|c r]; [done|].
  destruct c as [[] [] [] [] [] [] [] []];
    try (unfold Py.int_literal; rewrite Hcount; exact Hn); by simpl in Hn.
Qed.

Lemma below_int_bound_N x :
  Z.of_N x < Py.int_bound → (x < 10 ^ N.of_nat Py.int_max_str_digits)%N.
Proof.
  unfold Py.int_bound. intros H. apply N2Z.inj_lt.
  rewrite N2Z.inj_pow, nat_N_Z. exact H.
Qed.

Lemma int_pretty_N x :
  Z.of_N x < Py.int_bound → Py.int (pretty x) = Some (Z.of_N x).
Proof.
  intros Hb%below_int_bound_N.
  unfold pretty, pretty_N. case_decide as Hx; [by subst|].
  destruct (int_digits_pretty_N_go x) as [p Hp]; [by apply N.neq_0_lt_0|].
  apply int_of_digits.
  - by apply no_space_pretty_N_go.
  - rewrite Hp. simpl; f_equal; lia.
  - etrans; [by apply count_digits_pretty_N_go|]. cbn [Py.count_digits]. lia.
Qed.

Lemma int_str (k : nat) :
  Z.of_nat k < Py.int_bound → Py.int (Py.str k) = Some (Z.of_nat k).
Proof.
  intros Hk. unfold Py.str, pretty, pretty_nat.
  rewrite int_pretty_N by (by rewrite nat_N_Z). f_equal. lia.
Qed.

Lemma int_pretty_Z n : Z.abs n < Py.int_bound → Py.int (pretty n) = Some n.
Proof.
  intros Hn.
  destruct n as [|q|q]; unfold pretty, pretty_Z; [done|by apply int_pretty_N|].
  unfold pretty, pretty_positive, pretty, pretty_N.
  rewrite decide_False by done.
  destruct (int_digits_pretty_N_go (N.pos q)) as [p Hp]; [done|].
  change ("-" +:+ pretty_N_go (N.pos q) "")
    with (String "-" (pretty_N_go (N.pos q) "")).
  unfold Py.int. rewrite strip_int_no_space.
  - assert ((Py.count_digits (pretty_N_go (N.pos q) "") <=? Py.int_max_str_digits)%nat
            = true) as Hcount.
    { apply Nat.leb_le.
      etrans; [apply count_digits_pretty_N_go, below_int_bound_N, Hn|].
      cbn [Py.count_digits]. lia. }
    unfold Py.int_literal. rewrite Hcount, Hp. simpl; f_equal; lia.
  - simpl. by apply no_space_pretty_N_go.
Qed.

(** Small numbers are below the bound. *)
Lemma below_int_bound (z : Z) : z < 10 → z < Py.int_bound.
Proof.
  intros Hz. unfold Py.int_bound. apply Z.lt_le_trans with (10 ^ 1); [lia|].
  apply Z.pow_le_mono_r; [lia|]. apply (Nat2Z.inj_le 1). unfold Py.int_max_str_digits.
  apply Nat.lt_0_succ.
Qed.

End int_str.

(** X14. The sequence number [log_vote] writes is a number for [int]: on a
    readable and writable file whose header has the voter id column, the last
    field of the record appended is read by [int] as the number of records the
    file held plus one, as long as that number has no more digits than [int]
    accepts (it is below 10 to the power 4300). *)
Theorem sequence_number_is_a_number (f v c : string) (w : world) (h : Csv.row)
    (data : list Csv.row) :
  OS.entries (disk w) !! OS.resolve (disk w) f
  = Some (OS.File true true (h :: data)) →
  "VoterID" ∈ h →
  Z.of_nat (length (nonblank data)) + 1 < Py.int_bound →
  ∃ r total,
    last (OS.rows_of (disk (FileManager.log_vote (FileManager.New f) v c w)) f)
    = Some r
    ∧ r !! 2%nat = Some total
    ∧ Py.int total = Some (Z.of_nat (length (nonblank data)) + 1).
Proof.
  intros He Hh Hb. rewrite (log_vote_appends _ _ _ _ h data) by done.
  unfold OS.rows_of. simpl. rewrite lookup_insert_eq.
  exists (vote_row v c data), (Py.str (length (nonblank data) + 1)).
  split; [by rewrite app_comm_cons, last_snoc|]. split; [done|].
  rewrite int_str by lia. f_equal. lia.
Qed.

Lemma sequence_number_is_a_number_witness :
  ∃ r total,
    last (OS.rows_of
            (disk (FileManager.log_vote (FileManager.New "data.csv") "3" "Bob"
                     store_after_two_votes)) "data.csv")
    = Some r
    ∧ r !! 2%nat = Some total
    ∧ Py.int total
      = Some (Z.of_nat (length (nonblank [["1"; "Jane"; "1"]; ["2"; "John"; "2"]])) + 1).
Proof.
  apply (sequence_number_is_a_number "data.csv" "3" "Bob" store_after_two_votes
           FileManager.header [["1"; "Jane"; "1"]; ["2"; "John"; "2"]]);
    [reflexivity|constructor|apply below_int_bound; reflexivity].
Defined.

(** *** The summary row: [read_data], [write_data], [update_count] *)

Section dicts.
Implicit Types (k : option string) (v : Summary.value) (d : Summary.dict).

Lemma dict_get_cons_eq k v d : Summary.dict_get k ((k, v) :: d) = Some v.
Proof. simpl. by rewrite decide_True. Qed.

Lemma dict_get_cons_ne k k' v d :
  k' ≠ k → Summary.dict_get k ((k', v) :: d) = Summary.dict_get k d.
Proof. intros. simpl. by rewrite decide_False. Qed.

Lemma dict_set_cons_eq k v v' d :
  Summary.dict_set k v ((k, v') :: d) = (k, v) :: d.
Proof. simpl. by rewrite decide_True. Qed.

Lemma dict_set_cons_ne k k' v v' d :
  k' ≠ k → Summary.dict_set k v ((k', v') :: d) = (k', v') :: Summary.dict_set k v d.
Proof. intros. simpl. by rewrite decide_False. Qed.

Lemma dict_set_fresh k v d : k ∉ d.*1 → Summary.dict_set k v d = d ++ [(k, v)].
Proof.
  induction d as [|[k' v'] d IH]; intros Hk; [done|].
  rewrite fmap_cons, not_elem_of_cons in Hk. destruct Hk as [Hne Hk].
  rewrite dict_set_cons_ne by done. simpl. by rewrite IH.
Qed.

Lemma dict_get_fresh k d : k ∉ d.*1 → Summary.dict_get k d = None.
Proof.
  induction d as [|[k' v'] d IH]; intros Hk; [done|].
  rewrite fmap_cons, not_elem_of_cons in Hk. destruct Hk as [Hne Hk].
  rewrite dict_get_cons_ne by done. by apply IH.
Qed.

(** The dictionary of a row as long as a header without a repeated name:
    the names with the fields, in order. *)
Lemma row_dict_zip (ks : list string) (vs : Csv.row) :
  NoDup ks → length ks = length vs →
  Summary.row_dict ks vs = zip (Some <$> ks) (Summary.Str <$> vs).
Proof.
  intros Hnd Hlen. unfold Summary.row_dict.
  rewrite <-Hlen, Nat.ltb_irrefl, drop_all. simpl.
  enough (∀ acc : Summary.dict,
            (∀ x : string, x ∈ ks → Some x ∉ acc.*1) →
            foldl (λ d kv, Summary.dict_set (Some kv.1) (Summary.Str kv.2) d) acc
              (zip ks vs)
            = acc ++ zip (Some <$> ks) (Summary.Str <$> vs)) as Hgen.
  { apply (Hgen []). intros x _. apply not_elem_of_nil. }
  clear Hlen. revert vs.
  induction Hnd as [|x ks Hx Hnd IH]; intros vs acc Hacc.
  - simpl. by rewrite app_nil_r.
  - destruct vs as [|y vs]; simpl; [by rewrite app_nil_r|].
    rewrite dict_set_fresh by (apply Hacc; by left).
    rewrite IH.
    + by rewrite <-app_assoc.
    + intros x' Hx'. rewrite fmap_app, elem_of_app. simpl.
      rewrite list_elem_of_singleton. intros [Hin|Heq].
      * by apply (Hacc x'); [right|].
      * by simplify_eq.
Qed.

End dicts.

Section summary_file.
Implicit Types (f name : string) (d : OS.fs) (data : Summary.dict).

(** [write_data] where the file can be written: it holds the keys and the
    values, as two rows, and nothing is printed. *)
Lemma write_data_written f data d :
  can_append d f = true →
  ∃ d',
    Summary.write_data (FileManager.New f) data d = (d', [])
    ∧ OS.entries d' !! OS.resolve d f
      = Some (OS.File true true
                [Summary.key_field <$> data.*1; Summary.field_of <$> data.*2])
    ∧ (∀ g, g ≠ OS.resolve d f → OS.entries d' !! g = OS.entries d !! g)
    ∧ OS.dir_writable d' = OS.dir_writable d
    ∧ OS.resolve d' = OS.resolve d.
Proof.
  unfold can_append, Summary.write_data, OS.open_w. simpl. intros Hcan.
  destruct (OS.entries d !! OS.resolve d f) as [[[] [] rows|]|] eqn:He; try done.
  - eexists. split; [reflexivity|].
    unfold OS.writerow, OS.set_entry. simpl. rewrite lookup_insert_eq. simpl.
    rewrite lookup_insert_eq. simpl. split; [by rewrite lookup_insert_eq|].
    split; [|done]. intros g Hg. by rewrite !lookup_insert_ne.
  - rewrite Hcan. eexists. split; [reflexivity|].
    unfold OS.writerow, OS.set_entry. simpl. rewrite lookup_insert_eq. simpl.
    rewrite lookup_insert_eq. simpl. split; [by rewrite lookup_insert_eq|].
    split; [|done]. intros g Hg. by rewrite !lookup_insert_ne.
Qed.



(** [read_data] on a file of two rows, a header without a repeated name and
    a row of as many fields. *)
Lemma read_data_two_rows f d wr (ks : list string) (vs : Csv.row) :
  OS.entries d !! OS.resolve d f = Some (OS.File true wr [ks; vs]) →
  vs ≠ [] → NoDup ks → length ks = length vs →
  Summary.read_data (FileManager.New f) d
  = (zip (Some <$> ks) (Summary.Str <$> vs), []).
Proof.
  intros He Hvs Hnd Hlen. unfold Summary.read_data, OS.open_r. simpl.
  rewrite He. rewrite filter_cons_True by done. simpl.
  by rewrite row_dict_zip.
Qed.

End summary_file.



Section counts.
Implicit Types (f name : string) (d : OS.fs) (others : list (string * Z)).

Lemma count_dict_keys others :
  Summary.key_field <$> (count_dict others).*1 = others.*1.
Proof. induction others as [|[k n] others IH]; csimpl; [done|]. by rewrite IH. Qed.

Lemma count_dict_fields others :
  Summary.field_of <$> (count_dict others).*2 = pretty <$> others.*2.
Proof. induction others as [|[k n] others IH]; csimpl; [done|]. by rewrite IH. Qed.

Lemma zip_count_dict others :
  zip (Some <$> others.*1) (Summary.Str <$> (pretty <$> others.*2))
  = count_dict others.
Proof. induction others as [|[k n] others IH]; csimpl; [done|]. by rewrite IH. Qed.

(** The two assignments of [update_count] to [data[name]], on the part of
    the dictionary that holds the other names, whose counts [int] reads. *)
Lemma count_dict_bump name others :
  Forall (λ kn, Z.abs kn.2 < Py.int_bound) others →
  ∃ n,
    Summary.int_value
      (default (Summary.Int 0)
         (Summary.dict_get (Some name)
            (if bool_decide (is_Some (Summary.dict_get (Some name) (count_dict others)))
             then count_dict others
             else Summary.dict_set (Some name) (Summary.Int 0) (count_dict others))))
    = Py.Return n
    ∧ Summary.key_field
        <$> (Summary.dict_set (Some name) (Summary.Int (n + 1))
               (if bool_decide (is_Some (Summary.dict_get (Some name) (count_dict others)))
                then count_dict others
                else Summary.dict_set (Some name) (Summary.Int 0) (count_dict others))).*1
      = (bump name others).*1
    ∧ Summary.field_of
        <$> (Summary.dict_set (Some name) (Summary.Int (n + 1))
               (if bool_decide (is_Some (Summary.dict_get (Some name) (count_dict others)))
                then count_dict others
                else Summary.dict_set (Some name) (Summary.Int 0) (count_dict others))).*2
      = pretty <$> (bump name others).*2.
Proof.
  induction others as [|[k m] others IH]; intros Hb.
  - exists 0. simpl. rewrite decide_True by done. simpl.
    by rewrite decide_True by done.
  - apply Forall_cons in Hb as [Hm Hb]. simpl in Hm.
    change (count_dict ((k, m) :: others))
      with ((Some k, Summary.Str (pretty m)) :: count_dict others).
    simpl bump. destruct (decide (k = name)) as [->|Hne].
    + exists m. rewrite dict_get_cons_eq.
      rewrite bool_decide_eq_true_2 by eauto.
      rewrite dict_get_cons_eq, dict_set_cons_eq. simpl.
      rewrite int_pretty_Z by done. split; [done|].
      by rewrite count_dict_keys, count_dict_fields.
    + destruct (IH Hb) as (n & Hn & Hkeys & Hfields). exists n.
      rewrite dict_get_cons_ne by congruence.
      destruct (bool_decide (is_Some (Summary.dict_get (Some name) (count_dict others)))).
      * rewrite dict_get_cons_ne, dict_set_cons_ne by congruence.
        split; [done|]. csimpl. by rewrite Hkeys, Hfields.
      * rewrite !dict_set_cons_ne by congruence.
        rewrite dict_get_cons_ne by congruence.
        split; [done|]. csimpl. by rewrite Hkeys, Hfields.
Qed.

End counts.

(** [read_data] on a summary file. *)
Lemma read_data_summary (f : string) (d : OS.fs) (wr : bool)
    (jane john total : Z) (others : list (string * Z)) :
  OS.entries d !! OS.resolve d f
  = Some (OS.File true wr (summary_rows jane john total others)) →
  NoDup ("Jane" :: "John" :: "Total" :: others.*1) →
  Summary.read_data (FileManager.New f) d
  = ((Some "Jane", Summary.Str (pretty jane))
       :: (Some "John", Summary.Str (pretty john))
       :: (Some "Total", Summary.Str (pretty total))
       :: count_dict others, []).
Proof.
  intros He Hnd. unfold summary_rows in He.
  rewrite (read_data_two_rows f d wr _ _ He); [|done|done|].
  - csimpl. by rewrite zip_count_dict.
  - simpl. by rewrite !length_fmap.
Qed.

Lemma dict_get_nil (k : option string) : Summary.dict_get k [] = None.
Proof. done. Qed.

Lemma dict_set_nil (k : option string) (v : Summary.value) :
  Summary.dict_set k v [] = [(k, v)].
Proof. done. Qed.

Ltac dict_steps :=
  repeat first
    [ rewrite dict_get_cons_eq | rewrite dict_get_cons_ne by congruence
    | rewrite dict_set_cons_eq | rewrite dict_set_cons_ne by congruence
    | rewrite dict_get_nil | rewrite dict_set_nil
    | rewrite bool_decide_eq_true_2 by eauto
    | rewrite int_pretty_Z by assumption | progress unfold id
    | progress cbn [Summary.int_value default from_option] ].

(** [update_count] on a summary file that can be read and written and whose
    counts [int] reads. *)
Lemma update_count_on_summary (f name : string) (d : OS.fs)
    (jane john total : Z) (others : list (string * Z)) :
  OS.entries d !! OS.resolve d f
  = Some (OS.File true true (summary_rows jane john total others)) →
  NoDup ("Jane" :: "John" :: "Total" :: others.*1) →
  Z.abs jane < Py.int_bound →
  Z.abs john < Py.int_bound →
  Z.abs total < Py.int_bound →
  Forall (λ kn, Z.abs kn.2 < Py.int_bound) others →
  name ≠ "Total" →
  ∃ d',
    Summary.update_count (FileManager.New f) name d = (Py.Return d', [])
    ∧ OS.entries d' !! OS.resolve d f
      = Some (OS.File true true (bumped name jane john total others))
    ∧ (∀ g, g ≠ OS.resolve d f → OS.entries d' !! g = OS.entries d !! g)
    ∧ OS.dir_writable d' = OS.dir_writable d
    ∧ OS.resolve d' = OS.resolve d.
Proof.
  intros He Hnd HbJane HbJohn HbTotal Hb Hname.
  assert (can_append d f = true) as Hcan by (unfold can_append; by rewrite He).
  unfold Summary.update_count. rewrite (read_data_summary f d true _ _ _ _ He Hnd).
  unfold bumped.
  destruct (decide (name = "Jane")) as [->|HJane];
    [|destruct (decide (name = "John")) as [->|HJohn]].
  - dict_steps.
    destruct (write_data_written f
                ((Some "Jane", Summary.Int (jane + 1))
                   :: (Some "John", Summary.Str (pretty john))
                   :: (Some "Total", Summary.Int (total + 1)) :: count_dict others)
                d Hcan) as (d' & -> & He' & Hframe & Hd & Hres).
    exists d'. split; [done|]. split; [|done]. rewrite He'. csimpl.
    by rewrite count_dict_keys, count_dict_fields.
  - dict_steps.
    destruct (write_data_written f
                ((Some "Jane", Summary.Str (pretty jane))
                   :: (Some "John", Summary.Int (john + 1))
                   :: (Some "Total", Summary.Int (total + 1)) :: count_dict others)
                d Hcan) as (d' & -> & He' & Hframe & Hd & Hres).
    exists d'. split; [done|]. split; [|done]. rewrite He'. csimpl.
    by rewrite count_dict_keys, count_dict_fields.
  - destruct (count_dict_bump name others Hb) as (n & Hn & Hkeys & Hfields).
    rewrite !dict_get_cons_ne by congruence.
    destruct (bool_decide (is_Some (Summary.dict_get (Some name) (count_dict others))))
      eqn:Hhas.
    + rewrite !dict_get_cons_ne by congruence. rewrite Hn. dict_steps.
      destruct (write_data_written f
                  ((Some "Jane", Summary.Str (pretty jane))
                     :: (Some "John", Summary.Str (pretty john))
                     :: (Some "Total", Summary.Int (total + 1))
                     :: Summary.dict_set (Some name) (Summary.Int (n + 1))
                          (count_dict others))
                  d Hcan) as (d' & -> & He' & Hframe & Hd & Hres).
      exists d'. split; [done|]. split; [|done]. rewrite He'. csimpl.
      by rewrite Hkeys, Hfields.
    + rewrite !dict_set_cons_ne by congruence.
      rewrite !dict_get_cons_ne by congruence. rewrite Hn. dict_steps.
      destruct (write_data_written f
                  ((Some "Jane", Summary.Str (pretty jane))
                     :: (Some "John", Summary.Str (pretty john))
                     :: (Some "Total", Summary.Int (total + 1))
                     :: Summary.dict_set (Some name) (Summary.Int (n + 1))
                          (Summary.dict_set (Some name) (Summary.Int 0)
                             (count_dict others)))
                  d Hcan) as (d' & -> & He' & Hframe & Hd & Hres).
      exists d'. split; [done|]. split; [|done]. rewrite He'. csimpl.
      by rewrite Hkeys, Hfields.
Qed.



Section summary_results.
Implicit Types (f : string) (w : world) (ks : list string) (vs : Csv.row).

Lemma zip_insert_notin (x : string) ks vs (m : gmap string (option string)) :
  x ∉ ks →
  foldl (λ d kv, <[kv.1 := Some kv.2]> d) m (zip ks vs) !! x = m !! x.
Proof.
  revert vs m. induction ks as [|y ks IH]; intros [|v vs] m Hx; simpl; try done.
  apply not_elem_of_cons in Hx as [Hne Hx].
  rewrite IH by done. by rewrite lookup_insert_ne.
Qed.

(** The dictionary [DictReader] yields for the row of a summary file. *)
Lemma zip_dict_summary (a b c : string) ks vs :
  length ks = length vs →
  NoDup ("Jane" :: "John" :: "Total" :: "VoterID" :: ks) →
  Csv.zip_dict ("Jane" :: "John" :: "Total" :: ks) (a :: b :: c :: vs) !! "Jane"
  = Some (Some a)
  ∧ Csv.zip_dict ("Jane" :: "John" :: "Total" :: ks) (a :: b :: c :: vs) !! "John"
    = Some (Some b)
  ∧ Csv.zip_dict ("Jane" :: "John" :: "Total" :: ks) (a :: b :: c :: vs) !! "Total"
    = Some (Some c)
  ∧ Csv.zip_dict ("Jane" :: "John" :: "Total" :: ks) (a :: b :: c :: vs) !! "VoterID"
    = None.
Proof.
  intros Hlen Hnd. unfold Csv.zip_dict. simpl length. simpl drop.
  rewrite <-Hlen, drop_all. simpl.
  apply NoDup_cons in Hnd as [HJane Hnd]. apply NoDup_cons in Hnd as [HJohn Hnd].
  apply NoDup_cons in Hnd as [HTotal Hnd]. apply NoDup_cons in Hnd as [HVoter _].
  apply not_elem_of_cons in HJane as (_ & HJane).
  apply not_elem_of_cons in HJane as (_ & HJane).
  apply not_elem_of_cons in HJane as (_ & HJane).
  apply not_elem_of_cons in HJohn as (_ & HJohn).
  apply not_elem_of_cons in HJohn as (_ & HJohn).
  apply not_elem_of_cons in HTotal as (_ & HTotal).
  rewrite !zip_insert_notin by done.
  by rewrite !lookup_insert_ne, !lookup_insert_eq by done.
Qed.

End summary_results.

(** [read_results] on a summary file whose counts [int] reads. *)
Lemma read_results_on_summary (f : string) (w : world) (wr : bool)
    (jane john total : Z) (others : list (string * Z)) :
  OS.entries (disk w) !! OS.resolve (disk w) f
  = Some (OS.File true wr (summary_rows jane john total others)) →
  NoDup ("Jane" :: "John" :: "Total" :: "VoterID" :: others.*1) →
  Z.abs jane < Py.int_bound →
  Z.abs john < Py.int_bound →
  Z.abs total < Py.int_bound →
  FileManager.read_results (FileManager.New f) w
  = (Py.Return (<[Some "Total" := total]>
                  (<[Some "John" := john]> (<[Some "Jane" := jane]> ∅))), w).
Proof.
  intros He Hnd HbJane HbJohn HbTotal.
  destruct (zip_dict_summary (pretty jane) (pretty john) (pretty total)
              others.*1 (pretty <$> others.*2))
    as (HJane & HJohn & HTotal & HVoter); [by rewrite !length_fmap|done|].
  unfold FileManager.read_results, OS.open_r. simpl. rewrite He.
  unfold summary_rows, Csv.DictReader. rewrite filter_cons_True by done.
  rewrite filter_nil. csimpl.
  unfold FileManager.read_row, Csv.has_key, FileManager.int_field.
  rewrite HJane, HJohn, HTotal, HVoter.
  rewrite !bool_decide_eq_true_2 by eauto.
  rewrite bool_decide_eq_false_2 by (by intros [? ?]).
  simpl. rewrite !int_pretty_Z by done. by do 2 f_equal.
Qed.

(** X17. [read_results] on a summary file (the header [Jane, John, Total]
    and other names, none of them 'VoterID' and none repeated, over one row
    of counts; the counts of Jane and John and the total with no more digits
    than [int] accepts): it returns the stored counts of Jane and John and
    the stored total, and nothing for the other names of the file, whatever
    their counts. *)
Theorem read_results_summary (f : string) (w : world) (wr : bool)
    (jane john total : Z) (others : list (string * Z)) :
  OS.entries (disk w) !! OS.resolve (disk w) f
  = Some (OS.File true wr (summary_rows jane john total others)) →
  NoDup ("Jane" :: "John" :: "Total" :: "VoterID" :: others.*1) →
  Z.abs jane < Py.int_bound →
  Z.abs john < Py.int_bound →
  Z.abs total < Py.int_bound →
  FileManager.read_results (FileManager.New f) w
  = (Py.Return (<[Some "Total" := total]>
                  (<[Some "John" := john]> (<[Some "Jane" := jane]> ∅))), w).
Proof. apply read_results_on_summary. Qed.

Lemma read_results_summary_witness :
  FileManager.read_results (FileManager.New "data.csv")
    (one_file "data.csv" true false (summary_rows 2 1 4 [("Bob", 1)]) true)
  = (Py.Return (<[Some "Total" := 4]>
                  (<[Some "John" := 1]> (<[Some "Jane" := 2]> ∅))),
     one_file "data.csv" true false (summary_rows 2 1 4 [("Bob", 1)]) true).
Proof.
  apply (read_results_summary "data.csv"
           (one_file "data.csv" true false (summary_rows 2 1 4 [("Bob", 1)]) true)
           false 2 1 4 [("Bob", 1)]).
  - reflexivity.
  - apply (bool_decide_unpack _). vm_compute. exact I.
  - apply below_int_bound. reflexivity.
  - apply below_int_bound. reflexivity.
  - apply below_int_bound. reflexivity.
Defined.

Section update_count_defaults.
Implicit Types (f name : string) (d : OS.fs).

Lemma read_data_no_row f d :
  can_append d f = true →
  no_data_row d f = true →
  ∃ l, Summary.read_data (FileManager.New f) d = (Summary.defaults, [l]).
Proof.
  unfold can_append, no_data_row, OS.rows_of, Summary.read_data, OS.open_r. simpl.
  intros Hcan Hrows. apply bool_decide_eq_true_1 in Hrows.
  destruct (OS.entries d !! OS.resolve d f) as [[[] [] rows|]|];
    try done; [|by eexists].
  destruct rows as [|fieldnames data]; [by eexists|].
  cbn [tail] in Hrows. rewrite Hrows. by eexists.
Qed.

(** [update_count] where [read_data] finds no row. *)
Lemma update_count_no_row f name d :
  can_append d f = true →
  no_data_row d f = true →
  name ≠ "Total" →
  ∃ d' l,
    Summary.update_count (FileManager.New f) name d = (Py.Return d', [l])
    ∧ OS.entries d' !! OS.resolve d f
      = Some (OS.File true true (bumped name 0 0 0 []))
    ∧ (∀ g, g ≠ OS.resolve d f → OS.entries d' !! g = OS.entries d !! g)
    ∧ OS.dir_writable d' = OS.dir_writable d
    ∧ OS.resolve d' = OS.resolve d.
Proof.
  intros Hcan Hrows Hname.
  destruct (read_data_no_row f d Hcan Hrows) as [l Hread].
  unfold Summary.update_count. rewrite Hread. unfold Summary.defaults, bumped.
  destruct (decide (name = "Jane")) as [->|HJane];
    [|destruct (decide (name = "John")) as [->|HJohn]].
  - dict_steps.
    destruct (write_data_written f
                [(Some "Jane", Summary.Int (0 + 1)); (Some "John", Summary.Int 0);
                 (Some "Total", Summary.Int (0 + 1))] d Hcan)
      as (d' & -> & He' & Hframe & Hd & Hres).
    by exists d', l.
  - dict_steps.
    destruct (write_data_written f
                [(Some "Jane", Summary.Int 0); (Some "John", Summary.Int (0 + 1));
                 (Some "Total", Summary.Int (0 + 1))] d Hcan)
      as (d' & -> & He' & Hframe & Hd & Hres).
    by exists d', l.
  - rewrite !dict_get_cons_ne by congruence. rewrite dict_get_nil.
    rewrite bool_decide_eq_false_2 by (by intros [? ?]).
    dict_steps.
    destruct (write_data_written f
                [(Some "Jane", Summary.Int 0); (Some "John", Summary.Int 0);
                 (Some "Total", Summary.Int (0 + 1));
                 (Some name, Summary.Int (0 + 1))] d Hcan)
      as (d' & -> & He' & Hframe & Hd & Hres).
    by exists d', l.
Qed.

End update_count_defaults.

(** X18. [update_count] where [read_data] finds no row to return (the file
    is missing and can be created, or it can be read and written and holds
    at most its header): one line is printed for the failed read, and the
    file is overwritten with the summary of one vote, the header
    [Jane, John, Total] (and [name] when it is another name) over the counts
    with 1 for [name] and a total of 1.  So a store that [__init__] has just
    created with the header [VoterID, Vote, Total] loses that header. *)
Theorem update_count_first_vote (f name : string) (d : OS.fs) :
  can_append d f = true →
  no_data_row d f = true →
  name ≠ "Total" →
  ∃ d' l,
    Summary.update_count (FileManager.New f) name d = (Py.Return d', [l])
    ∧ OS.entries d' !! OS.resolve d f
      = Some (OS.File true true (bumped name 0 0 0 []))
    ∧ (∀ g, g ≠ OS.resolve d f → OS.entries d' !! g = OS.entries d !! g)
    ∧ OS.dir_writable d' = OS.dir_writable d
    ∧ OS.resolve d' = OS.resolve d.
Proof. apply update_count_no_row. Qed.

Lemma update_count_first_vote_witness :
  ∃ d' l,
    Summary.update_count (FileManager.New "data.csv") "Bob" (disk (working_store []))
    = (Py.Return d', [l])
    ∧ OS.entries d' !! "data.csv"
      = Some (OS.File true true (bumped "Bob" 0 0 0 []))
    ∧ (∀ g, g ≠ "data.csv"
            → OS.entries d' !! g = OS.entries (disk (working_store [])) !! g)
    ∧ OS.dir_writable d' = OS.dir_writable (disk (working_store []))
    ∧ OS.resolve d' = OS.resolve (disk (working_store [])).
Proof.
  apply (update_count_first_vote "data.csv" "Bob" (disk (working_store []))).
  - reflexivity.
  - reflexivity.
  - discriminate.
Defined.



Section counting.
Implicit Types (f name x : string) (d : OS.fs) (names : list string)
  (others : list (string * Z)).

Lemma occurrences_cons x name names :
  occurrences x (name :: names) = occurrences x [name] + occurrences x names.
Proof.
  unfold occurrences. rewrite !filter_cons, filter_nil.
  destruct (decide (name = x)); simpl; lia.
Qed.

Lemma occurrences_nil x : occurrences x [] = 0.
Proof. done. Qed.

Lemma occurrences_one_eq x : occurrences x [x] = 1.
Proof. unfold occurrences. by rewrite filter_cons_True. Qed.

Lemma occurrences_one_ne x name : name ≠ x → occurrences x [name] = 0.
Proof. intros. unfold occurrences. by rewrite filter_cons_False. Qed.

Lemma occurrences_bounds x names :
  0 ≤ occurrences x names ≤ Z.of_nat (length names).
Proof.
  unfold occurrences.
  pose proof (length_filter (λ n, n = x) names). lia.
Qed.

Lemma bump_names name others x :
  x ∈ (bump name others).*1 ↔ x = name ∨ x ∈ others.*1.
Proof.
  induction others as [|[k n] others IH]; csimpl.
  - rewrite list_elem_of_singleton, elem_of_nil. tauto.
  - destruct (decide (k = name)) as [->|Hne]; csimpl.
    + rewrite !elem_of_cons. tauto.
    + rewrite !elem_of_cons, IH. tauto.
Qed.

Lemma bump_NoDup name others : NoDup others.*1 → NoDup (bump name others).*1.
Proof.
  induction others as [|[k n] others IH]; csimpl; intros Hnd.
  - apply NoDup_singleton.
  - apply NoDup_cons in Hnd as [Hk Hnd].
    destruct (decide (k = name)) as [->|Hne]; csimpl.
    + by apply NoDup_cons.
    + apply NoDup_cons. split; [|by apply IH].
      rewrite bump_names. intros [->|?]; done.
Qed.

(** Counts between 0 and the total stay so when one of them and the total
    are increased by one. *)
Lemma bump_Forall name others (t : Z) :
  0 ≤ t →
  Forall (λ kn, 0 ≤ kn.2 ≤ t) others →
  Forall (λ kn, 0 ≤ kn.2 ≤ t + 1) (bump name others).
Proof.
  intros Ht. induction others as [|[k n] others IH]; intros Hb.
  - apply Forall_singleton. simpl. lia.
  - apply Forall_cons in Hb as [Hn Hb]. simpl in Hn. simpl.
    destruct (decide (k = name)) as [->|Hne].
    + apply Forall_cons. split; [simpl; lia|].
      eapply Forall_impl; [exact Hb|]. simpl. intros; lia.
    + apply Forall_cons. split; [simpl; lia|]. by apply IH.
Qed.

Lemma columns_NoDup (l : list string) :
  NoDup ("Jane" :: "John" :: "Total" :: "VoterID" :: l)
  ↔ NoDup l ∧ ("Jane" ∉ l) ∧ ("John" ∉ l) ∧ ("Total" ∉ l) ∧ ("VoterID" ∉ l).
Proof.
  rewrite !NoDup_cons, !not_elem_of_cons. split.
  - intros [[_ [_ [_ ?]]] [[_ [_ ?]] [[_ ?] [? ?]]]]. done.
  - intros (? & ? & ? & ? & ?). done.
Qed.

Lemma columns_NoDup_3 (l : list string) :
  NoDup ("Jane" :: "John" :: "Total" :: "VoterID" :: l) →
  NoDup ("Jane" :: "John" :: "Total" :: l).
Proof.
  rewrite !NoDup_cons, !not_elem_of_cons.
  intros [[_ [_ [_ ?]]] [[_ [_ ?]] [[_ ?] [? ?]]]]. done.
Qed.

(** The counts after [update_count name], as the counts of a summary file
    again. *)
Lemma bumped_summary name jane john total others :
  NoDup ("Jane" :: "John" :: "Total" :: "VoterID" :: others.*1) →
  0 ≤ total →
  Forall (λ kn, 0 ≤ kn.2 ≤ total) others →
  name ≠ "Total" → name ≠ "VoterID" →
  ∃ others',
    bumped name jane john total others
    = summary_rows (jane + occurrences "Jane" [name])
        (john + occurrences "John" [name]) (total + 1) others'
    ∧ NoDup ("Jane" :: "John" :: "Total" :: "VoterID" :: others'.*1)
    ∧ Forall (λ kn, 0 ≤ kn.2 ≤ total + 1) others'.
Proof.
  intros Hnd Ht Hb HTotal HVoter. unfold bumped.
  assert (Forall (λ kn : string * Z, 0 ≤ kn.2 ≤ total + 1) others) as Hb'.
  { eapply Forall_impl; [exact Hb|]. simpl. intros; lia. }
  destruct (decide (name = "Jane")) as [->|HJane];
    [|destruct (decide (name = "John")) as [->|HJohn]].
  - exists others. rewrite occurrences_one_eq, occurrences_one_ne by done.
    by rewrite Z.add_0_r.
  - exists others. rewrite occurrences_one_eq, occurrences_one_ne by done.
    by rewrite Z.add_0_r.
  - exists (bump name others). rewrite !occurrences_one_ne by done.
    rewrite !Z.add_0_r. split; [done|]. split; [|by apply bump_Forall].
    apply columns_NoDup in Hnd as (Hnd & ? & ? & ? & ?).
    apply columns_NoDup. rewrite !bump_names.
    split; [by apply bump_NoDup|]. repeat split; intros [<-|?]; done.
Qed.

(** [update_count] for each of [names] in turn, on a summary file whose
    counts are between 0 and the total, with the total after the calls in the
    range of [int]. *)
Lemma update_counts_on_summary f names :
  ∀ d jane john total others,
    OS.entries d !! OS.resolve d f
    = Some (OS.File true true (summary_rows jane john total others)) →
    NoDup ("Jane" :: "John" :: "Total" :: "VoterID" :: others.*1) →
    0 ≤ jane ≤ total → 0 ≤ john ≤ total →
    Forall (λ kn, 0 ≤ kn.2 ≤ total) others →
    total + Z.of_nat (length names) < Py.int_bound →
    "Total" ∉ names → "VoterID" ∉ names →
    ∃ d' others',
      update_counts (FileManager.New f) names d = Py.Return d'
      ∧ OS.entries d' !! OS.resolve d f
        = Some (OS.File true true
                  (summary_rows (jane + occurrences "Jane" names)
                     (john + occurrences "John" names)
                     (total + Z.of_nat (length names)) others'))
      ∧ NoDup ("Jane" :: "John" :: "Total" :: "VoterID" :: others'.*1)
      ∧ OS.resolve d' = OS.resolve d.
Proof.
  induction names as [|name names IH];
    intros d jane john total others He Hnd HJane HJohn Hb Hlt HT HV.
  - exists d, others. rewrite !occurrences_nil, !Z.add_0_r. done.
  - apply not_elem_of_cons in HT as [HT HT']. apply not_elem_of_cons in HV as [HV HV'].
    cbn [length] in Hlt.
    destruct (update_count_on_summary f name d jane john total others He
                (columns_NoDup_3 _ Hnd))
      as (d1 & Hupd & He1 & _ & _ & Hres1); [lia|lia|lia| |done|].
    { eapply Forall_impl; [exact Hb|]. simpl. intros; lia. }
    destruct (bumped_summary name jane john total others Hnd)
      as (others1 & Hbumped & Hnd1 & Hb1); [lia|done|done|done|].
    rewrite Hbumped, <-Hres1 in He1.
    pose proof (occurrences_bounds "Jane" [name]) as HoJane.
    pose proof (occurrences_bounds "John" [name]) as HoJohn.
    cbn [length] in HoJane, HoJohn.
    destruct (IH d1 _ _ _ others1 He1 Hnd1) as (d' & others' & Hrun & He' & Hnd' & Hres');
      [lia|lia|done|lia|done|done|].
    exists d', others'. cbn [update_counts]. rewrite Hupd. cbn [fst].
    split; [done|]. rewrite Hres1 in He'. split; [|split; [done|congruence]].
    rewrite He'.
    rewrite (occurrences_cons "Jane" name names), (occurrences_cons "John" name names).
    replace (total + Z.of_nat (length (name :: names)))
      with (total + 1 + Z.of_nat (length names)) by (cbn [length]; lia).
    by rewrite !Z.add_assoc.
Qed.

End counting.

(** X20. Counting votes with [update_count] agrees with [read_results]:
    where [read_data] finds no row at first (the file is missing and can be
    created, or can be read and written and holds at most its header), one
    call of [update_count] for each of [names] in turn (at least one name,
    none of them 'Total' or 'VoterID', and no more names than a number [int]
    reads, which is below 10 to the power 4300) returns, and [read_results]
    on the file it leaves gives Jane and John the number of times their names
    were passed and a total of the number of calls.  The counts of the other
    names are in the file but not in the result. *)
Theorem update_counts_read_results (f : string) (names : list string) (w : world) :
  can_append (disk w) f = true →
  no_data_row (disk w) f = true →
  names ≠ [] → "Total" ∉ names → "VoterID" ∉ names →
  Z.of_nat (length names) < Py.int_bound →
  ∃ d',
    update_counts (FileManager.New f) names (disk w) = Py.Return d'
    ∧ FileManager.read_results (FileManager.New f) (on_disk d' w)
      = (Py.Return (<[Some "Total" := Z.of_nat (length names)]>
                      (<[Some "John" := occurrences "John" names]>
                         (<[Some "Jane" := occurrences "Jane" names]> ∅))),
         on_disk d' w).
Proof.
  intros Hcan Hrows Hnames HT HV Hlt. destruct names as [|name names]; [done|].
  apply not_elem_of_cons in HT as [HT HT']. apply not_elem_of_cons in HV as [HV HV'].
  cbn [length] in Hlt.
  destruct (update_count_no_row f name (disk w) Hcan Hrows)
    as (d1 & l & Hupd & He1 & _ & _ & Hres1); [done|].
  destruct (bumped_summary name 0 0 0 []) as (others1 & Hbumped & Hnd1 & Hb1);
    [|done|done|done|done|].
  { apply (bool_decide_unpack _). vm_compute. exact I. }
  rewrite Hbumped, <-Hres1 in He1.
  pose proof (occurrences_bounds "Jane" [name]) as HoJane.
  pose proof (occurrences_bounds "John" [name]) as HoJohn.
  cbn [length] in HoJane, HoJohn.
  destruct (update_counts_on_summary f names d1 _ _ _ others1 He1 Hnd1)
    as (d' & others' & Hrun & He' & Hnd' & Hres'); [lia|lia|done|lia|done|done|].
  exists d'. cbn [update_counts]. rewrite Hupd. cbn [fst]. split; [done|].
  rewrite <-Hres' in He'.
  pose proof (occurrences_bounds "Jane" names) as HnJane.
  pose proof (occurrences_bounds "John" names) as HnJohn.
  rewrite (read_results_on_summary f (on_disk d' w) true _ _ _ others' He' Hnd')
    by lia.
  rewrite (occurrences_cons "Jane" name names), (occurrences_cons "John" name names).
  replace (Z.of_nat (length (name :: names)))
    with (0 + 1 + Z.of_nat (length names)) by (cbn [length]; lia).
  by rewrite !Z.add_0_l.
Qed.

Lemma update_counts_read_results_witness :
  ∃ d',
    update_counts (FileManager.New "data.csv") ["Jane"; "Bob"; "Jane"; "John"]
      (disk (working_store []))
    = Py.Return d'
    ∧ FileManager.read_results (FileManager.New "data.csv")
        (on_disk d' (working_store []))
      = (Py.Return
           (<[Some "Total" := Z.of_nat (length ["Jane"; "Bob"; "Jane"; "John"])]>
              (<[Some "John" := occurrences "John" ["Jane"; "Bob"; "Jane"; "John"]]>
                 (<[Some "Jane" := occurrences "Jane" ["Jane"; "Bob"; "Jane"; "John"]]>
                    ∅))),
         on_disk d' (working_store [])).
Proof.
  apply (update_counts_read_results "data.csv" ["Jane"; "Bob"; "Jane"; "John"]
           (working_store [])).
  - reflexivity.
  - reflexivity.
  - discriminate.
  - apply (bool_decide_unpack _). vm_compute. exact I.
  - apply (bool_decide_unpack _). vm_compute. exact I.
  - apply below_int_bound. reflexivity.
Defined.


